(** * Sales-Performance-Dashboard: the cleaning script and the query engine

    A shallow embedding of [etl/clean_superstore.py] (column reconciliation,
    row pruning, discount buckets, the two output files) and of the
    filter-and-aggregate core of [dash_app/app.py] ([load_data], [filter_df]
    and the numeric part of the [update] callback), with the properties the
    specification states about them.  The dropdown option lists and the KPI
    texts ([format_currency], [format_percent]) are embedded as well, with
    further properties read off the code.

    Conventions.
    - Python [str] values are byte strings ([string]); the names and literals
      of the source are kept as they are written there.
    - A float that the code only compares (the discount) is an IEEE-754
      binary64 value ([spec_float], with its NaN, zeros and infinities).
    - An amount that the code sums and divides (Sales, Profit) is an exact
      rational ([Qc]); a null cell is [None].  Rounding of sums is outside
      this model.
    - A value that the code formats (a KPI) is a binary64 value again.
    - A Python exception is the [Raise] branch of [result]. *)

From Stdlib Require Import ZArith QArith Qcanon String Ascii List Lia.
From Stdlib Require Import Floats.SpecFloat.
From Stdlib Require Import Sorting.Sorted.
From Stdlib Require Import DecimalString DecimalN ZifyNat.
From stdpp Require Import base option list strings gmap.

Open Scope Z_scope.

(** ** Python values and exceptions *)

Inductive exn : Type :=
| TypeError
| ValueError (msg : string) (cols : list string)
| ZeroDivisionError
| NameError
| KeyError
| OSError
| AttributeError.

Inductive result (A : Type) : Type :=
| Ok (a : A)
| Raise (e : exn).
Arguments Ok {A} a.
Arguments Raise {A} e.

#[global] Instance result_ret : MRet result := fun _ a => Ok a.
#[global] Instance result_bind : MBind result := fun _ _ f m =>
  match m with
  | Ok a => f a
  | Raise e => Raise e
  end.

(** [try: body except Exception: return dflt] *)
Definition try_except {A} (body : result A) (dflt : A) : A :=
  match body with
  | Ok a => a
  | Raise _ => dflt
  end.

(** The scalars a DataFrame cell can hold.  [VNone] stands for the missing
    markers [None], [pd.NA] and [NaT]; a float NaN is [VFloat S754_nan]. *)
Inductive value : Type :=
| VNone
| VStr (s : string)
| VInt (n : Z)
| VFloat (f : spec_float)
| VDate (d : Z).

#[global] Instance spec_float_eq_dec : EqDecision spec_float.
Proof. solve_decision. Defined.
#[global] Instance value_eq_dec : EqDecision value.
Proof. solve_decision. Defined.

(** [pd.isna(x)] on a scalar. *)
Definition isna (x : value) : bool :=
  match x with
  | VNone => true
  | VFloat S754_nan => true
  | _ => false
  end.

(** The float literals of [discount_bucket]: the binary64 values nearest to
    0.20 and 0.40. *)
Definition f0_20 : spec_float := S754_finite false 7205759403792794 (-55).
Definition f0_40 : spec_float := S754_finite false 7205759403792794 (-54).
Definition f_zero : spec_float := S754_zero false.

(** Python compares an [int] with a [float] exactly. *)
Definition int_float_compare (n : Z) (f : spec_float) : option comparison :=
  match f with
  | S754_nan => None
  | S754_infinity s => Some (if s then Gt else Lt)
  | S754_zero _ => Some (n ?= 0)
  | S754_finite s m e =>
      let v := if s then Z.neg m else Z.pos m in
      Some (if 0 <=? e then n ?= v * 2 ^ e else n * 2 ^ (- e) ?= v)
  end.

(** [x ?= c] for a float literal [c]; [None] is "unordered" (a NaN). *)
Definition num_compare (x : value) (c : spec_float) : result (option comparison) :=
  match x with
  | VInt n => Ok (int_float_compare n c)
  | VFloat f => Ok (SFcompare f c)
  | VNone | VStr _ | VDate _ => Raise TypeError
  end.

(** [x == 0]: never raises; a value that is not a number is unequal. *)
Definition py_eq0 (x : value) : bool :=
  match x with
  | VInt n => n =? 0
  | VFloat f => SFeqb f f_zero
  | VNone | VStr _ | VDate _ => false
  end.

(** [x <= c]: raises [TypeError] when [x] is not a number. *)
Definition py_le (x : value) (c : spec_float) : result bool :=
  o ← num_compare x c;
  mret (match o with Some Lt | Some Eq => true | _ => false end).

(** [x < c] and [x > c], for stating the bucket table. *)
Definition py_lt (x : value) (c : spec_float) : result bool :=
  o ← num_compare x c;
  mret (match o with Some Lt => true | _ => false end).

Definition py_gt (x : value) (c : spec_float) : result bool :=
  o ← num_compare x c;
  mret (match o with Some Gt => true | _ => false end).

(** ** [etl/clean_superstore.py]: [discount_bucket] *)

Definition Unknown : string := "Unknown".
Definition No_Discount : string := "No Discount".
Definition Low : string := "Low (0–20%)".
Definition Medium : string := "Medium (20–40%)".
Definition High : string := "High (40%+)".

Definition discount_bucket_try (x : value) : result string :=
  if isna x then mret Unknown
  else if py_eq0 x then mret No_Discount
  else
    le20 ← py_le x f0_20;
    if le20 : bool then mret Low
    else
      le40 ← py_le x f0_40;
      if le40 : bool then mret Medium
      else mret High.

Definition discount_bucket (x : value) : string :=
  try_except (discount_bucket_try x) Unknown.

(** The bucket table of the specification, row by row.  [is_number x] is
    "numeric and present". *)
Definition is_number (x : value) : bool :=
  match x with
  | VInt _ => true
  | VFloat f => negb (isna x)
  | _ => false
  end.

Inductive bucket_table (x : value) : string -> Prop :=
| row_unknown : is_number x = false -> bucket_table x Unknown
| row_no_discount : is_number x = true -> py_eq0 x = true -> bucket_table x No_Discount
| row_low : py_gt x f_zero = Ok true -> py_le x f0_20 = Ok true -> bucket_table x Low
| row_medium : py_gt x f0_20 = Ok true -> py_le x f0_40 = Ok true -> bucket_table x Medium
| row_high : py_gt x f0_40 = Ok true -> bucket_table x High.

Definition bucket_literals : list string := [Unknown; No_Discount; Low; Medium; High].

(** Sample discounts: the binary64 values nearest to 0.15 and -0.05. *)
Definition f0_15 : spec_float := S754_finite false 5404319552844595 (-55).
Definition f_minus_0_05 : spec_float := S754_finite true 7205759403792794 (-57).

(** ** [etl/clean_superstore.py]: [normalize_columns] *)

(** [str.isspace] on the characters below 128: tab, LF, VT, FF, CR, the four
    separators FS, GS, RS, US, and the space.  Header text is read byte by
    byte, so a space outside ASCII is not recognised as one. *)
Definition is_space (c : ascii) : bool :=
  let n := N_of_ascii c in
  ((9 <=? n) && (n <=? 13) || (28 <=? n) && (n <=? 32))%N.

Fixpoint lstrip (s : string) : string :=
  match s with
  | EmptyString => EmptyString
  | String c s' => if is_space c then lstrip s' else s
  end.

Fixpoint rstrip (s : string) : string :=
  match s with
  | EmptyString => EmptyString
  | String c s' =>
      match rstrip s' with
      | EmptyString => if is_space c then EmptyString else String c EmptyString
      | r => String c r
      end
  end.

(** [s.strip()] *)
Definition strip (s : string) : string := rstrip (lstrip s).

(** [s.split()]: the maximal runs of non-space characters.  [cur] is the run
    being read. *)
Fixpoint split_go (cur : string) (s : string) : list string :=
  match s with
  | EmptyString => match cur with EmptyString => [] | _ => [cur] end
  | String c s' =>
      if is_space c then
        match cur with
        | EmptyString => split_go EmptyString s'
        | _ => cur :: split_go EmptyString s'
        end
      else split_go (cur +:+ String c EmptyString) s'
  end.

Definition split (s : string) : list string := split_go EmptyString s.

(** [" ".join(str(c).strip().split())] *)
Definition squeeze (c : string) : string := String.concat " " (split (strip c)).

(** The [renames] dictionary, in source order. *)
Definition renames_items : list (string * string) :=
  [ ("Order Date", "Order Date");
    ("Ship Date", "Ship Date");
    ("Order ID", "Order ID");
    ("Customer ID", "Customer ID");
    ("Customer Name", "Customer Name");
    ("Product ID", "Product ID");
    ("Product Name", "Product Name");
    ("Sub-Category", "Sub-Category");
    ("Sub Category", "Sub-Category");
    ("Category", "Category");
    ("Segment", "Segment");
    ("Region", "Region");
    ("State", "State");
    ("City", "City");
    ("Postal Code", "Postal Code");
    ("Ship Mode", "Ship Mode");
    ("Sales", "Sales");
    ("Profit", "Profit");
    ("Discount", "Discount");
    ("Quantity", "Quantity") ].

(** A dict literal or comprehension: later entries overwrite earlier ones. *)
Definition dict_of {V} (items : list (string * V)) : gmap string V :=
  foldl (fun m kv => <[kv.1 := kv.2]> m) ∅ items.

Definition renames : gmap string string := dict_of renames_items.

(** A DataFrame read from a CSV file: the header and the rows of cells, each
    row aligned with the header.  A column is read and assigned by its label,
    so the statements about [main] take the labels to be pairwise distinct
    after reconciliation (for a repeated label pandas hands back a sub-frame,
    not a column). *)
Record DataFrame : Type := mkDataFrame {
  columns : list string;
  data : list (list value)
}.

#[global] Instance DataFrame_eq_dec : EqDecision DataFrame.
Proof. solve_decision. Defined.

(** [df.rename(columns=mapper)]: a label the mapper does not know is kept. *)
Definition rename (mapper : gmap string string) (df : DataFrame) : DataFrame :=
  {| columns := map (fun c => default c (mapper !! c)) (columns df);
     data := data df |}.

Definition normalize_columns (df : DataFrame) : DataFrame :=
  (* Trim and de-dupe spaces *)
  let df := rename (dict_of (map (fun c => (c, squeeze c)) (columns df))) df in
  (* Apply only where present *)
  let df :=
    rename (dict_of (omap (fun c => match renames !! c with
                                    | Some v => Some (c, v)
                                    | None => None
                                    end) (columns df))) df in
  df.

(** The specification's [reconcile], on a list of headers. *)
Definition reconcile (headers : list string) : list string :=
  columns (normalize_columns {| columns := headers; data := [] |}).

(** What the second rename does to one header: [renames.get(c, c)]. *)
Definition alias (c : string) : string := default c (renames !! c).

(** A header is canonical when it is a value of the [renames] dictionary. *)
Definition canonical (c : string) : Prop := exists k, renames !! k = Some c.

(** A token of [split]: a non-empty run without a space. *)
Fixpoint nospace (s : string) : bool :=
  match s with
  | EmptyString => true
  | String c s' => negb (is_space c) && nospace s'
  end.

Definition token (t : string) : Prop := t <> EmptyString /\ nospace t = true.

(** ** Effects: a state and exception monad *)

Definition M (S A : Type) : Type := S -> result A * S.

#[global] Instance M_ret {S} : MRet (M S) := fun _ a s => (Ok a, s).
#[global] Instance M_bind {S} : MBind (M S) := fun _ _ f m s =>
  match m s with
  | (Ok a, s') => f a s'
  | (Raise e, s') => (Raise e, s')
  end.

(** A computation that touches no state; [Raise] propagates. *)
Definition lift {S A} (r : result A) : M S A := fun s => (r, s).
Definition modify {S} (f : S -> S) : M S unit := fun s => (Ok tt, f s).

(** ** The library functions the scripts call

    The vectorised pandas conversions work on whole columns with pandas' own
    parsing rules; they are taken as an interface.  [setitem] below aligns
    their result on the row index, as pandas does. *)
Class Library : Type := {
  (** [pd.to_datetime(col, errors="coerce")] *)
  to_datetime_coerce : list value -> list value;
  (** [pd.to_numeric(col, errors="coerce")] *)
  to_numeric_coerce : list value -> list value;
  (** [col.astype("Int64")]; raises on a value that is not integral *)
  astype_Int64 : list value -> result (list value);
  (** [(a - b).dt.days] *)
  dt_days_between : list value -> list value -> list value;
  (** [s.sort_values(ascending=False)] on the null counts *)
  sort_values_descending : list (string * Z) -> list (string * Z)
}.

(** Python's [int(s)] on a [str]; raises [ValueError] on a malformed
    numeral. *)
Class Builtins : Type := {
  int_of_str : string -> result Z
}.

(** ** DataFrame access *)

Fixpoint index_of (col : string) (cols : list string) : option nat :=
  match cols with
  | [] => None
  | c :: cols' => if decide (c = col) then Some 0%nat else S <$> index_of col cols'
  end.

(** [col in df.columns] *)
Definition has_column (col : string) (df : DataFrame) : bool :=
  bool_decide (col ∈ columns df).

(** [df[col]] as a list of cells, one per row.  Every use in the scripts is
    guarded by [has_column]. *)
Definition getitem (col : string) (df : DataFrame) : list value :=
  match index_of col (columns df) with
  | Some i => map (fun r => default VNone (r !! i)) (data df)
  | None => []
  end.

(** [df[col] = vals]: values are aligned on the row index; the row count of
    the frame does not change.  A new label is appended to the header. *)
Definition setitem (col : string) (vals : list value) (df : DataFrame) : DataFrame :=
  match index_of col (columns df) with
  | Some i =>
      {| columns := columns df;
         data := imap (fun k r => <[i := default VNone (vals !! k)]> r) (data df) |}
  | None =>
      {| columns := columns df ++ [col];
         data := imap (fun k r => r ++ [default VNone (vals !! k)]) (data df) |}
  end.

(** A row in which every field is missing. *)
Definition fully_empty (r : list value) : bool := forallb isna r.

(** [df.dropna(how="all")] *)
Definition dropna_all (df : DataFrame) : DataFrame :=
  {| columns := columns df;
     data := List.filter (fun r => negb (fully_empty r)) (data df) |}.

(** The number of fully-empty rows of a frame. *)
Definition count_fully_empty (df : DataFrame) : nat :=
  length (List.filter fully_empty (data df)).

(** All missing markers count as one value when rows are compared. *)
Definition na_key (v : value) : value := if isna v then VNone else v.

(** [col.nunique(dropna=True)] *)
Definition nunique_values (col : list value) : nat :=
  length (remove_dups (List.filter (fun v => negb (isna v)) col)).

(** [df.duplicated(subset=[col]).sum()]: rows repeating an earlier value. *)
Definition duplicated_sum (col : list value) : nat :=
  (length col - length (remove_dups (map na_key col)))%nat.

(** [col.min()] and [col.max()] of a datetime column, [NaT] when it has no
    date. *)
Definition date_fold (pick : Z -> Z -> Z) (col : list value) : value :=
  foldl (fun acc v =>
           match v, acc with
           | VDate d, VDate a => VDate (pick a d)
           | VDate d, _ => VDate d
           | _, _ => acc
           end) VNone col.

(** [df.isna().sum()]: the null count of every column, in header order. *)
Definition isna_sum (df : DataFrame) : list (string * Z) :=
  imap (fun i c =>
          (c, Z.of_nat (length (List.filter isna
                 (map (fun r => default VNone (r !! i)) (data df))))))
       (columns df).

(** ** [etl/clean_superstore.py]: [main] *)

(** The profiling report: the [summary] pairs and the null-count lines.  The
    two dates are kept as values; their rendering by [str] is not modelled. *)
Record Profile : Type := mkProfile {
  summary : list (string * value);
  null_counts : list (string * Z)
}.

(** What [main] leaves on disk under [outdir]. *)
Record Disk : Type := mkDisk {
  outdir_exists : bool;
  superstore_cleaned_csv : option DataFrame;
  profiling_summary_txt : option Profile
}.

Definition mkdir : M Disk unit :=
  modify (fun d => {| outdir_exists := true;
                      superstore_cleaned_csv := superstore_cleaned_csv d;
                      profiling_summary_txt := profiling_summary_txt d |}).

Definition to_csv (df : DataFrame) : M Disk unit :=
  modify (fun d => {| outdir_exists := outdir_exists d;
                      superstore_cleaned_csv := Some df;
                      profiling_summary_txt := profiling_summary_txt d |}).

Definition write_profile (p : Profile) : M Disk unit :=
  modify (fun d => {| outdir_exists := outdir_exists d;
                      superstore_cleaned_csv := superstore_cleaned_csv d;
                      profiling_summary_txt := Some p |}).

Section Clean.

Context `{Library}.

(** [for col in cols: if col in df.columns: df[col] = conv(df[col])] *)
Definition convert_columns (conv : list value -> list value)
    (cols : list string) (df : DataFrame) : DataFrame :=
  foldl (fun df col =>
           if has_column col df then setitem col (conv (getitem col df)) df
           else df) df cols.

Definition build_summary (df : DataFrame) : list (string * value) :=
  [("rows", VInt (Z.of_nat (length (data df))));
   ("columns", VInt (Z.of_nat (length (columns df))))]
  ++ (if has_column "Order ID" df then
        [("unique_order_ids",
          VInt (Z.of_nat (nunique_values (getitem "Order ID" df))));
         ("duplicate_order_id_rows",
          VInt (Z.of_nat (duplicated_sum (getitem "Order ID" df))))]
      else [])
  ++ (if has_column "Order Date" df then
        [("order_date_min", date_fold Z.min (getitem "Order Date" df));
         ("order_date_max", date_fold Z.max (getitem "Order Date" df))]
      else []).

(** [raw] is what [pd.read_csv(in_path, ...)] returns or raises. *)
Definition main (raw : result DataFrame) : M Disk Z :=
  mkdir;;
  df ← lift raw;
  let df := normalize_columns df in
  (* Drop fully blank rows *)
  let df := dropna_all df in
  (* Parse dates (coerce errors to NaT) *)
  let df := convert_columns to_datetime_coerce ["Order Date"; "Ship Date"] df in
  (* Coerce numeric columns *)
  let df := convert_columns to_numeric_coerce
              ["Sales"; "Profit"; "Discount"; "Quantity"] df in
  (* Standardize Postal Code (some sources store as float) *)
  df ← (if has_column "Postal Code" df then
          v ← lift (astype_Int64 (getitem "Postal Code" df));
          mret (setitem "Postal Code" v df)
        else mret df);
  (* Helper fields *)
  let df :=
    if has_column "Order Date" df && has_column "Ship Date" df then
      setitem "Ship Days"
        (dt_days_between (getitem "Ship Date" df) (getitem "Order Date" df)) df
    else df in
  let df :=
    if has_column "Discount" df then
      setitem "Discount Bucket"
        (map (fun x => VStr (discount_bucket x)) (getitem "Discount" df)) df
    else df in
  (* Basic profiling *)
  let summary := build_summary df in
  let nulls := sort_values_descending (isna_sum df) in
  to_csv df;;
  write_profile {| summary := summary; null_counts := take 25 nulls |};;
  mret 0.

(** The stages of [main], named for the statements below: the two helper
    fields, the report, and the disk after both writes. *)
Definition helper_fields (df : DataFrame) : DataFrame :=
  let df :=
    if has_column "Order Date" df && has_column "Ship Date" df then
      setitem "Ship Days"
        (dt_days_between (getitem "Ship Date" df) (getitem "Order Date" df)) df
    else df in
  let df :=
    if has_column "Discount" df then
      setitem "Discount Bucket"
        (map (fun x => VStr (discount_bucket x)) (getitem "Discount" df)) df
    else df in
  df.

Definition report (df : DataFrame) : Profile :=
  {| summary := build_summary df;
     null_counts := take 25 (sort_values_descending (isna_sum df)) |}.

Definition written (df : DataFrame) : Disk :=
  {| outdir_exists := true;
     superstore_cleaned_csv := Some df;
     profiling_summary_txt := Some (report df) |}.

(** The frame [main] has built when it reaches the Postal Code step. *)
Definition coerced (raw : DataFrame) : DataFrame :=
  convert_columns to_numeric_coerce ["Sales"; "Profit"; "Discount"; "Quantity"]
    (convert_columns to_datetime_coerce ["Order Date"; "Ship Date"]
       (dropna_all (normalize_columns raw))).

End Clean.

(** ** Instances for running the model on examples *)

(** Insertion into a list sorted by descending count; equal counts keep the
    order they come in. *)
Fixpoint insert_descending (x : string * Z) (l : list (string * Z)) : list (string * Z) :=
  match l with
  | [] => [x]
  | y :: l' => if x.2 <? y.2 then y :: insert_descending x l' else x :: l
  end.

(** [float(n)]: the binary64 value nearest to an integer. *)
Definition float_of_Z (n : Z) : spec_float := binary_normalize 53 1024 n 0 false.

(** The integer a float is equal to, if there is one. *)
Definition Z_of_float (f : spec_float) : option Z :=
  match f with
  | S754_zero _ => Some 0
  | S754_finite s m e =>
      if 0 <=? e then Some (cond_Zopp s (Z.pos m * 2 ^ e))
      else if Z.pos m mod 2 ^ (- e) =? 0
           then Some (cond_Zopp s (Z.pos m / 2 ^ (- e)))
           else None
  | _ => None
  end.

Definition is_int (v : value) : bool :=
  match v with VInt _ => true | _ => false end.

(** The value of a run of decimal digits. *)
Fixpoint digits_value (acc : Z) (s : string) : result Z :=
  match s with
  | EmptyString => Ok acc
  | String c s' =>
      match Ascii.is_nat c with
      | Some k => digits_value (10 * acc + Z.of_nat k) s'
      | None => Raise (ValueError "invalid literal for int()" [s])
      end
  end.

(** An instance of the interface for frames whose cells are already typed:
    dates and numbers are kept, anything else (text among it) becomes
    missing; a numeric column that is not all integers is a float column; an
    integral float casts to its integer; timestamps count nanoseconds. *)
Definition plain_library : Library := {|
  to_datetime_coerce := map (fun v => match v with VDate d => VDate d | _ => VNone end);
  to_numeric_coerce := fun col =>
    let cells := map (fun v => match v with
                               | VInt n => VInt n
                               | VFloat f => VFloat f
                               | _ => VFloat S754_nan
                               end) col in
    if forallb is_int cells then cells
    else map (fun v => match v with
                       | VInt n => VFloat (float_of_Z n)
                       | _ => v
                       end) cells;
  astype_Int64 := fun col =>
    foldr (fun v acc =>
             match acc with
             | Raise e => Raise e
             | Ok l =>
                 match v with
                 | VInt n => Ok (VInt n :: l)
                 | VNone => Ok (VNone :: l)
                 | VFloat f =>
                     if isna (VFloat f) then Ok (VNone :: l)
                     else match Z_of_float f with
                          | Some n => Ok (VInt n :: l)
                          | None => Raise TypeError
                          end
                 | _ => Raise TypeError
                 end
             end) (Ok []) col;
  dt_days_between := fun a b =>
    zip_with (fun x y => match x, y with
                         | VDate s, VDate o => VInt ((s - o) / 86400000000000)
                         | _, _ => VNone
                         end) a b;
  sort_values_descending := foldr insert_descending []
|}.

(** Numerals made of decimal digits only. *)
Definition plain_builtins : Builtins := {|
  int_of_str := fun s =>
    match s with
    | EmptyString => Raise (ValueError "invalid literal for int()" [s])
    | _ => digits_value 0 s
    end
|}.

(** A raw export with a blank line, a padded header and an alternate
    spelling. *)
Definition sample_raw : DataFrame :=
  {| columns := [" Order ID"; "Sub Category"; "Sales"; "Discount"];
     data := [ [VStr "US-001"; VStr "Chairs"; VFloat f0_15; VFloat f0_15];
               [VNone; VFloat S754_nan; VNone; VNone];
               [VStr "US-001"; VStr "Paper"; VStr "n/a"; VInt 0] ] |}.


Definition empty_disk : Disk :=
  {| outdir_exists := false;
     superstore_cleaned_csv := None;
     profiling_summary_txt := None |}.

(** ** [dash_app/app.py]: the loaded table *)

(** The [STATE_TO_ABBR] dictionary, in source order. *)
Definition STATE_TO_ABBR_items : list (string * string) :=
  [ ("Alabama", "AL"); ("Alaska", "AK"); ("Arizona", "AZ"); ("Arkansas", "AR");
    ("California", "CA");
    ("Colorado", "CO"); ("Connecticut", "CT"); ("Delaware", "DE"); ("Florida", "FL");
    ("Georgia", "GA");
    ("Hawaii", "HI"); ("Idaho", "ID"); ("Illinois", "IL"); ("Indiana", "IN");
    ("Iowa", "IA");
    ("Kansas", "KS"); ("Kentucky", "KY"); ("Louisiana", "LA"); ("Maine", "ME");
    ("Maryland", "MD");
    ("Massachusetts", "MA"); ("Michigan", "MI"); ("Minnesota", "MN");
    ("Mississippi", "MS"); ("Missouri", "MO");
    ("Montana", "MT"); ("Nebraska", "NE"); ("Nevada", "NV"); ("New Hampshire", "NH");
    ("New Jersey", "NJ");
    ("New Mexico", "NM"); ("New York", "NY"); ("North Carolina", "NC");
    ("North Dakota", "ND"); ("Ohio", "OH");
    ("Oklahoma", "OK"); ("Oregon", "OR"); ("Pennsylvania", "PA"); ("Rhode Island", "RI");
    ("South Carolina", "SC");
    ("South Dakota", "SD"); ("Tennessee", "TN"); ("Texas", "TX"); ("Utah", "UT");
    ("Vermont", "VT");
    ("Virginia", "VA"); ("Washington", "WA"); ("West Virginia", "WV");
    ("Wisconsin", "WI"); ("Wyoming", "WY");
    ("District of Columbia", "DC") ].

Definition STATE_TO_ABBR : gmap string string := dict_of STATE_TO_ABBR_items.

(** A row of the cleaned CSV as [read_csv] types it: text columns hold a
    string or nothing, the two amounts a number or nothing, the order date a
    timestamp or [NaT].  [Year], [Month] and [State_Abbr] are the columns
    [load_data] adds; [Discount_Bucket] is read only when the header lists
    it. *)
Record Row : Type := mkRow {
  Order_ID : option string;
  Order_Date : option Z;
  Region : option string;
  Segment : option string;
  Category : option string;
  Sub_Category : option string;
  State : option string;
  Ship_Mode : option string;
  Sales : option Qc;
  Profit : option Qc;
  Discount_Bucket : option string;
  Year : option Z;
  Month : option Z;
  State_Abbr : option string
}.

Record Table : Type := mkTable {
  header : list string;
  rows : list Row
}.

Definition needed : list string :=
  ["Order Date"; "Region"; "Segment"; "Category"; "Sub-Category"; "Sales";
   "Profit"; "Discount"; "Ship Mode"; "State"; "Order ID"].

(** [[c for c in needed if c not in df.columns]] *)
Definition missing_columns (cols : list string) : list string :=
  List.filter (fun c => negb (bool_decide (c ∈ cols))) needed.

(** Calendar arithmetic on timestamps: [.dt.year] and the first instant of
    the month ([.dt.to_period("M").dt.to_timestamp()]). *)
Class Calendar : Type := {
  dt_year : Z -> Z;
  dt_month_start : Z -> Z
}.

(** A new column label goes to the end of the header; an existing one stays
    where it is. *)
Definition add_label (c : string) (cols : list string) : list string :=
  if bool_decide (c ∈ cols) then cols else cols ++ [c].

(** What [pd.read_csv] has read of a file: the header, the rows as it types
    them, and whether every cell of the "Order Date" column is a date or
    empty. *)
Record Parsed : Type := mkParsed {
  parsed_table : Table;
  dates_parsed : bool
}.

(** The columns named in [parse_dates]. *)
Definition parse_dates : list string := ["Order Date"; "Ship Date"].

(** [pd.read_csv(DATA_PATH, parse_dates=["Order Date", "Ship Date"], ...)]:
    the call raises when the header lacks a [parse_dates] column; [file] is
    what the parser returns or raises before that. *)
Definition read_csv (file : result Parsed) : result Parsed :=
  f ← file;
  let absent :=
    List.filter (fun c => negb (bool_decide (c ∈ header (parsed_table f))))
                parse_dates in
  if bool_decide (absent ≠ []) then
    Raise (ValueError "Missing column provided to 'parse_dates'" absent)
  else mret f.

(** The "Order Date" column is of dtype [datetime64] when every cell of it
    parsed and the file has a row; it stays [object] otherwise, and [.dt] on
    it raises. *)
Definition datetimelike (f : Parsed) : bool :=
  dates_parsed f && bool_decide (rows (parsed_table f) ≠ []).

Section Load.

Context `{Calendar}.

(** The three column assignments of [load_data], on one row. *)
Definition derive (r : Row) : Row :=
  {| Order_ID := Order_ID r;
     Order_Date := Order_Date r;
     Region := Region r;
     Segment := Segment r;
     Category := Category r;
     Sub_Category := Sub_Category r;
     State := State r;
     Ship_Mode := Ship_Mode r;
     Sales := Sales r;
     Profit := Profit r;
     Discount_Bucket := Discount_Bucket r;
     Year := dt_year <$> Order_Date r;
     Month := dt_month_start <$> Order_Date r;
     (* Map states to abbreviations for choropleth *)
     State_Abbr := State r ≫= (fun s => STATE_TO_ABBR !! s) |}.

Definition load_data (file : result Parsed) : result Table :=
  f ← read_csv file;
  let df := parsed_table f in
  (* Ensure expected cols exist *)
  let missing := missing_columns (header df) in
  if bool_decide (missing ≠ []) then
    Raise (ValueError "Missing required columns" missing)
  else if datetimelike f then
    mret {| header := add_label "State Abbr"
                        (add_label "Month" (add_label "Year" (header df)));
            rows := map derive (rows df) |}
  else
    (* df["Order Date"].dt on a column that is not datetimelike *)
    Raise AttributeError.

End Load.

(** ** [dash_app/app.py]: numbers and grouped tables *)

(** [col.sum()]: missing values are skipped; the sum of nothing is 0. *)
Definition sum_skipna (vals : list (option Qc)) : Qc :=
  foldr (fun v acc => match v with Some q => (q + acc)%Qc | None => acc end)
        0%Qc vals.

(** [col.nunique()]: the number of distinct values, missing ones left out. *)
Definition nunique {A} `{EqDecision A} (vals : list (option A)) : nat :=
  length (remove_dups (omap id vals)).

(** Truth value of a number: everything but zero. *)
Definition truthy (q : Qc) : bool := bool_decide (q ≠ 0%Qc).

(** [a / b] on Python floats raises on a zero divisor. *)
Definition py_truediv (a b : Qc) : result Qc :=
  if bool_decide (b = 0%Qc) then Raise ZeroDivisionError else Ok (a / b)%Qc.

(** [a / b] on the numpy scalars of a row gives an infinity or a NaN on a zero
    divisor: [None] is such a non-finite value. *)
Definition np_truediv (a b : Qc) : option Qc :=
  if bool_decide (b = 0%Qc) then None else Some (a / b)%Qc.

Definition Qc_of_nat (n : nat) : Qc := Q2Qc (inject_Z (Z.of_nat n)).

Fixpoint insert_sorted {A} (leb : A -> A -> bool) (x : A) (l : list A) : list A :=
  match l with
  | [] => [x]
  | y :: l' => if leb x y then x :: l else y :: insert_sorted leb x l'
  end.

(** An ascending stable sort. *)
Definition sort_by {A} (leb : A -> A -> bool) (l : list A) : list A :=
  foldr (insert_sorted leb) [] l.

(** [df.groupby(key)]: one group per distinct key in ascending key order, rows
    with a missing key left out. *)
Definition groupby {K} `{EqDecision K} (leb : K -> K -> bool)
    (key : Row -> option K) (rs : list Row) : list (K * list Row) :=
  map (fun k => (k, List.filter (fun r => bool_decide (key r = Some k)) rs))
      (sort_by leb (remove_dups (omap key rs))).

(** A row of a table grouped with
    [.agg(Sales=("Sales", "sum"), Profit=("Profit", "sum"))]. *)
Record SalesProfit (K : Type) : Type := mkSalesProfit {
  group : K;
  sum_Sales : Qc;
  sum_Profit : Qc
}.
Arguments mkSalesProfit {K}.
Arguments group {K}.
Arguments sum_Sales {K}.
Arguments sum_Profit {K}.

Definition agg_sales_profit {K} (groups : list (K * list Row)) : list (SalesProfit K) :=
  map (fun g => {| group := g.1;
                   sum_Sales := sum_skipna (map Sales g.2);
                   sum_Profit := sum_skipna (map Profit g.2) |}) groups.

(** A row of [by_disc] once it has its [Margin] column. *)
Record DiscountRow : Type := mkDiscountRow {
  d_Bucket : string;
  d_Sales : Qc;
  d_Profit : Qc;
  d_Margin : option Qc
}.

(** A row of [by_ship] as
    [.agg(Profit=("Profit", "sum"), Orders=("Order ID", "nunique"))] returns
    it, and once it has its [Profit per Order] column. *)
Record ShipSums : Type := mkShipSums {
  ss_Ship_Mode : string;
  ss_Profit : Qc;
  ss_Orders : nat
}.

Record ShipRow : Type := mkShipRow {
  s_Ship_Mode : string;
  s_Profit : Qc;
  s_Orders : nat;
  s_Profit_per_Order : option Qc
}.

Definition agg_profit_orders (groups : list (string * list Row)) : list ShipSums :=
  map (fun g => {| ss_Ship_Mode := g.1;
                   ss_Profit := sum_skipna (map Profit g.2);
                   ss_Orders := nunique (map Order_ID g.2) |}) groups.

(** [lambda r: (r["Profit"] / r["Sales"]) if r["Sales"] else 0.0], with the
    row it is stored in. *)
Definition with_margin (r : SalesProfit string) : DiscountRow :=
  {| d_Bucket := group r;
     d_Sales := sum_Sales r;
     d_Profit := sum_Profit r;
     d_Margin := if truthy (sum_Sales r)
                 then np_truediv (sum_Profit r) (sum_Sales r)
                 else Some 0%Qc |}.

(** [lambda r: (r["Profit"] / r["Orders"]) if r["Orders"] else 0.0], with the
    row it is stored in. *)
Definition with_profit_per_order (r : ShipSums) : ShipRow :=
  {| s_Ship_Mode := ss_Ship_Mode r;
     s_Profit := ss_Profit r;
     s_Orders := ss_Orders r;
     s_Profit_per_Order := if truthy (Qc_of_nat (ss_Orders r))
                           then np_truediv (ss_Profit r) (Qc_of_nat (ss_Orders r))
                           else Some 0%Qc |}.

(** ** The object store: the global [DF] and the frames a query creates

    Every DataFrame is an object; a name ([DF], [dff], [by_disc], [by_ship])
    holds its address.  A column assignment changes the object in place. *)

Inductive frame : Type :=
| FTable (t : Table)
| FSums (g : list (SalesProfit string))
| FDiscount (g : list DiscountRow)
| FShipSums (g : list ShipSums)
| FShip (g : list ShipRow).

Definition addr : Type := nat.
Abbreviation store := (list frame).

(** The module-level name [DF]; [DF = load_data()] binds it when the module
    is imported. *)
Definition DF : addr := 0%nat.

Definition alloc (f : frame) : M store addr :=
  fun st => (Ok (length st), st ++ [f]).

Definition load (a : addr) : M store frame :=
  fun st => match st !! a with
            | Some f => (Ok f, st)
            | None => (Raise NameError, st)
            end.

(** The object at [a] becomes [f]: every name that holds [a] sees it. *)
Definition assign (a : addr) (f : frame) : M store unit :=
  fun st => (Ok tt, <[a := f]> st).

(** Reading a column a frame does not have is a [KeyError]. *)
Definition as_table (f : frame) : result Table :=
  match f with FTable t => Ok t | _ => Raise KeyError end.
Definition as_sums (f : frame) : result (list (SalesProfit string)) :=
  match f with FSums g => Ok g | _ => Raise KeyError end.
Definition as_discount (f : frame) : result (list DiscountRow) :=
  match f with FDiscount g => Ok g | _ => Raise KeyError end.
Definition as_ship_sums (f : frame) : result (list ShipSums) :=
  match f with FShipSums g => Ok g | _ => Raise KeyError end.
Definition as_ship (f : frame) : result (list ShipRow) :=
  match f with FShip g => Ok g | _ => Raise KeyError end.

Definition load_table (a : addr) : M store Table :=
  f ← load a; lift (as_table f).

(** [df.copy()]: a new frame with the same content. *)
Definition copy (a : addr) : M store addr := f ← load a; alloc f.

(** [df[mask]]: a new frame with the rows the mask selects. *)
Definition select (mask : Row -> bool) (a : addr) : M store addr :=
  t ← load_table a;
  alloc (FTable {| header := header t; rows := List.filter mask (rows t) |}).

Definition import_module `{Calendar} (file : result Parsed) : M store addr :=
  t ← lift (load_data file); alloc (FTable t).

(** ** [dash_app/app.py]: [filter_df] *)

(** The [year] argument is an [int] or a [str]. *)
Inductive year_arg : Type :=
| YStr (s : string)
| YInt (n : Z).

(** [year != "All"]: an [int] never equals a [str]. *)
Definition year_ne_All (year : year_arg) : bool :=
  match year with
  | YStr s => bool_decide (s ≠ "All")
  | YInt _ => true
  end.

Section Query.

Context `{Builtins}.

(** [int(year)] *)
Definition py_int (year : year_arg) : result Z :=
  match year with
  | YStr s => int_of_str s
  | YInt n => Ok n
  end.

Definition filter_df (region segment category : string) (year : year_arg)
    : M store addr :=
  dff ← copy DF;
  dff ← (if bool_decide (region ≠ "All")
         then select (fun r => bool_decide (Region r = Some region)) dff
         else mret dff);
  dff ← (if bool_decide (segment ≠ "All")
         then select (fun r => bool_decide (Segment r = Some segment)) dff
         else mret dff);
  dff ← (if bool_decide (category ≠ "All")
         then select (fun r => bool_decide (Category r = Some category)) dff
         else mret dff);
  dff ← (if year_ne_All year
         then y ← lift (py_int year);
              select (fun r => bool_decide (Year r = Some y)) dff
         else mret dff);
  mret dff.

End Query.

(** ** [dash_app/app.py]: [update] *)

(** The numbers behind the ten outputs of [update]; the formatting of the
    five KPI strings and the figures drawn from the five tables are
    presentation. *)
Record Aggregate : Type := mkAggregate {
  total_sales : Qc;
  total_profit : Qc;
  margin : Qc;
  orders : nat;
  aov : Qc;
  by_month : list (SalesProfit Z);
  by_state : list (SalesProfit string);
  by_sub : list (SalesProfit string);
  by_disc : option (list DiscountRow);
  by_ship : list ShipRow
}.

(** Trend (monthly). *)
Definition trend (rs : list Row) : list (SalesProfit Z) :=
  sort_by (fun a b => group a <=? group b)
    (agg_sales_profit (groupby Z.leb Month rs)).

(** Map (state). *)
Definition geo (rs : list Row) : list (SalesProfit string) :=
  agg_sales_profit
    (groupby String.leb State_Abbr
       (List.filter (fun r => bool_decide (State_Abbr r ≠ None)) rs)).

(** Sub-category profit. *)
Definition sub_category_profit (rs : list Row) : list (SalesProfit string) :=
  sort_by (fun a b => bool_decide (sum_Profit a <= sum_Profit b)%Qc)
    (agg_sales_profit (groupby String.leb Sub_Category rs)).

(** Discount bucket vs margin: [by_disc] is created by the grouping and then
    given its [Margin] column. *)
Definition discount_bucket_vs_margin (dff : Table)
    : M store (option (list DiscountRow)) :=
  if bool_decide ("Discount Bucket" ∈ header dff) then
    by_disc ← alloc (FSums (agg_sales_profit
                              (groupby String.leb Discount_Bucket (rows dff))));
    g ← load by_disc;
    g ← lift (as_sums g);
    assign by_disc (FDiscount (map with_margin g));;
    d ← load by_disc;
    d ← lift (as_discount d);
    mret (Some d)
  else mret None.

(** Ship mode profit per order: [by_ship] is created by the grouping and then
    given its [Profit per Order] column. *)
Definition ship_mode_profit_per_order (dff : Table) : M store (list ShipRow) :=
  by_ship ← alloc (FShipSums (agg_profit_orders
                                (groupby String.leb Ship_Mode (rows dff))));
  g ← load by_ship;
  g ← lift (as_ship_sums g);
  assign by_ship (FShip (map with_profit_per_order g));;
  d ← load by_ship;
  lift (as_ship d).

(** The body of [update] after the call of [filter_df]; [dff] is the address
    that call returned. *)
Definition aggregate (dff : addr) : M store Aggregate :=
  dff ← load_table dff;
  let total_sales := sum_skipna (map Sales (rows dff)) in
  let total_profit := sum_skipna (map Profit (rows dff)) in
  let orders := nunique (map Order_ID (rows dff)) in
  margin ← lift (if truthy total_sales then py_truediv total_profit total_sales
                 else Ok 0%Qc);
  aov ← lift (if bool_decide (orders ≠ 0%nat)
              then py_truediv total_sales (Qc_of_nat orders)
              else Ok 0%Qc);
  let by_month := trend (rows dff) in
  let by_state := geo (rows dff) in
  let by_sub := sub_category_profit (rows dff) in
  by_disc ← discount_bucket_vs_margin dff;
  by_ship ← ship_mode_profit_per_order dff;
  mret {| total_sales := total_sales;
          total_profit := total_profit;
          margin := margin;
          orders := orders;
          aov := aov;
          by_month := by_month;
          by_state := by_state;
          by_sub := by_sub;
          by_disc := by_disc;
          by_ship := by_ship |}.

Section Update.

Context `{Builtins}.

Definition update (region segment category : string) (year : year_arg)
    : M store Aggregate :=
  dff ← filter_df region segment category year;
  aggregate dff.

End Update.

(** The proleptic Gregorian calendar on nanosecond timestamps, for running
    the model on examples. *)
Definition ns_per_day : Z := 86400000000000.

Definition civil_from_days (days : Z) : Z * Z * Z :=
  let z := days + 719468 in
  let era := z / 146097 in
  let doe := z - era * 146097 in
  let yoe := (doe - doe / 1460 + doe / 36524 - doe / 146096) / 365 in
  let doy := doe - (365 * yoe + yoe / 4 - yoe / 100) in
  let mp := (5 * doy + 2) / 153 in
  let d := doy - (153 * mp + 2) / 5 + 1 in
  let m := if mp <? 10 then mp + 3 else mp - 9 in
  let y := yoe + era * 400 + (if m <=? 2 then 1 else 0) in
  (y, m, d).

Definition gregorian : Calendar := {|
  dt_year := fun ts => (civil_from_days (ts / ns_per_day)).1.1;
  dt_month_start := fun ts =>
    let days := ts / ns_per_day in
    (days - ((civil_from_days days).2 - 1)) * ns_per_day
|}.

(** Three order lines as [read_csv] hands them to [load_data]: two lines of
    order US-001 shipped to a state the table knows, and one line of order
    US-002 shipped to Puerto Rico. *)
Definition csv_row (oid : string) (ts : Z) (state sub : string) (sales profit : Qc)
    : Row :=
  {| Order_ID := Some oid;
     Order_Date := Some ts;
     Region := Some "West";
     Segment := Some "Consumer";
     Category := Some "Furniture";
     Sub_Category := Some sub;
     State := Some state;
     Ship_Mode := Some "First Class";
     Sales := Some sales;
     Profit := Some profit;
     Discount_Bucket := Some No_Discount;
     Year := None;
     Month := None;
     State_Abbr := None |}.

Definition line1 : Row :=
  csv_row "US-001" (17167 * ns_per_day) "California" "Chairs"
          (Q2Qc (inject_Z 100)) (Q2Qc (inject_Z 20)).
Definition line2 : Row :=
  csv_row "US-001" (17170 * ns_per_day) "California" "Tables"
          (Q2Qc (inject_Z 50)) (Q2Qc (inject_Z (-5))).
Definition line3 : Row :=
  csv_row "US-002" (17200 * ns_per_day) "Puerto Rico" "Chairs"
          (Q2Qc (inject_Z 30)) (Q2Qc (inject_Z 6)).

Definition sample_csv : Parsed :=
  {| parsed_table :=
       {| header := needed ++ ["Ship Date"; "Ship Days"; "Discount Bucket"];
          rows := [line1; line2; line3] |};
     dates_parsed := true |}.

(** ** The specification's [query]

    The four predicates of a selection, joined by a logical AND; "All" on a
    dimension skips its predicate.  [y] is the selected year, if any. *)
Definition matches (region segment category : string) (y : option Z) (r : Row)
    : bool :=
  (bool_decide (region = "All") || bool_decide (Region r = Some region))
  && (bool_decide (segment = "All") || bool_decide (Segment r = Some segment))
  && (bool_decide (category = "All") || bool_decide (Category r = Some category))
  && match y with
     | Some y => bool_decide (Year r = Some y)
     | None => true
     end.

(** The Aggregate Result of a subset, as a value: the five KPIs with their
    zero guards and the five grouped tables. *)
Definition aggregate_result (dff : Table) : Aggregate :=
  let total_sales := sum_skipna (map Sales (rows dff)) in
  let total_profit := sum_skipna (map Profit (rows dff)) in
  let orders := nunique (map Order_ID (rows dff)) in
  {| total_sales := total_sales;
     total_profit := total_profit;
     margin := if truthy total_sales then (total_profit / total_sales)%Qc
               else 0%Qc;
     orders := orders;
     aov := if bool_decide (orders ≠ 0%nat)
            then (total_sales / Qc_of_nat orders)%Qc else 0%Qc;
     by_month := trend (rows dff);
     by_state := geo (rows dff);
     by_sub := sub_category_profit (rows dff);
     by_disc :=
       if bool_decide ("Discount Bucket" ∈ header dff)
       then Some (map with_margin
                    (agg_sales_profit
                       (groupby String.leb Discount_Bucket (rows dff))))
       else None;
     by_ship := map with_profit_per_order
                  (agg_profit_orders (groupby String.leb Ship_Mode (rows dff))) |}.

Section QuerySpec.

Context `{Builtins}.

Definition selected_year (year : year_arg) : result (option Z) :=
  if year_ne_All year then y ← py_int year; mret (Some y) else mret None.

(** [query(table, selection)]: filter, then aggregate. *)
Definition query (T : Table) (region segment category : string) (year : year_arg)
    : result Aggregate :=
  y ← selected_year year;
  mret (aggregate_result
          {| header := header T;
             rows := List.filter (matches region segment category y) (rows T) |}).

End QuerySpec.

(** The store of the running dashboard on the sample file. *)
Definition sample_table : Table :=
  {| header := needed ++ ["Ship Date"; "Ship Days"; "Discount Bucket"; "Year";
                          "Month"; "State Abbr"];
     rows := map (@derive gregorian) [line1; line2; line3] |}.

Definition sample_store : store := [FTable sample_table].

(** An order line without an Order ID and without Sales, but with a Profit:
    over this line alone every ratio of a query has a zero denominator. *)
Definition line0 : Row :=
  {| Order_ID := None;
     Order_Date := Some (17167 * ns_per_day);
     Region := Some "West";
     Segment := Some "Consumer";
     Category := Some "Furniture";
     Sub_Category := Some "Chairs";
     State := Some "California";
     Ship_Mode := Some "First Class";
     Sales := Some 0%Qc;
     Profit := Some (Q2Qc (inject_Z 5));
     Discount_Bucket := Some No_Discount;
     Year := None;
     Month := None;
     State_Abbr := None |}.

Definition zero_table : Table :=
  {| header := header sample_table; rows := [@derive gregorian line0] |}.

Definition zero_store : store := [FTable zero_table].


(** ** Decidable equality of results, for deciding closed statements *)

#[global] Instance exn_eq_dec : EqDecision exn.
Proof. solve_decision. Defined.
#[global] Instance result_eq_dec {A} `{EqDecision A} : EqDecision (result A).
Proof. solve_decision. Defined.

(** ** Notions for the further properties of [normalize_columns] *)

(** The characters of a header that are not white space, in order. *)
Fixpoint nonspace_chars (s : string) : list ascii :=
  match s with
  | EmptyString => []
  | String c s' => if is_space c then nonspace_chars s' else c :: nonspace_chars s'
  end.

(** A tidy header has no white space at either end, and inside only single
    blanks.  [after_space] tells that the character before was white space
    (or that the header starts here). *)
Fixpoint tidy_from (after_space : bool) (s : string) : bool :=
  match s with
  | EmptyString => negb after_space
  | String c s' =>
      if is_space c
      then bool_decide (c = " "%char) && negb after_space && tidy_from true s'
      else tidy_from false s'
  end.

Definition tidy (s : string) : bool :=
  match s with
  | EmptyString => true
  | _ => tidy_from true s
  end.

(** A header of characters below 128 only.  Its bytes are its characters,
    and the white space in it is what [is_space] recognises. *)
Fixpoint ascii_only (s : string) : bool :=
  match s with
  | EmptyString => true
  | String c s' => (N_of_ascii c <? 128)%N && ascii_only s'
  end.

(** ** Notions for the further properties of [main] *)

(** Every row of a DataFrame has one cell per column. *)
Definition rectangular (df : DataFrame) : bool :=
  forallb (fun r => Nat.eqb (length r) (length (columns df))) (data df).

(** The columns one of the conversion steps of [main] may rewrite. *)
Definition converted : list string :=
  ["Order Date"; "Ship Date"; "Sales"; "Profit"; "Discount"; "Quantity";
   "Postal Code"].

(** ** Notions for the further properties of the grouped tables *)

(** A grouped table is keyed by [key] over the rows [rs]: it has one row for
    each distinct present key, holding the totals of the rows with that
    key. *)
Definition keyed_by {K} `{EqDecision K} (key : Row -> option K) (rs : list Row)
    (tbl : list (SalesProfit K)) : Prop :=
  NoDup (map group tbl) /\
  (forall k, k ∈ map group tbl <-> exists x, x ∈ rs /\ key x = Some k) /\
  (forall g, g ∈ tbl ->
     sum_Sales g
     = sum_skipna (map Sales
                     (List.filter (fun x => bool_decide (key x = Some (group g))) rs)) /\
     sum_Profit g
     = sum_skipna (map Profit
                     (List.filter (fun x => bool_decide (key x = Some (group g))) rs))).

(** ** [dash_app/app.py]: the dropdown options

    The four option lists are built from the table bound to [DF] when the
    module is imported. *)

(** [["All"] + sorted(DF["Region"].dropna().unique().tolist())] *)
Definition regions (T : Table) : list string :=
  "All" :: sort_by String.leb (remove_dups (omap Region (rows T))).

(** [["All"] + sorted(DF["Segment"].dropna().unique().tolist())] *)
Definition segments (T : Table) : list string :=
  "All" :: sort_by String.leb (remove_dups (omap Segment (rows T))).

(** [["All"] + sorted(DF["Category"].dropna().unique().tolist())] *)
Definition categories (T : Table) : list string :=
  "All" :: sort_by String.leb (remove_dups (omap Category (rows T))).

(** [["All"] + sorted(DF["Year"].dropna().unique().astype(int).tolist())] *)
Definition years (T : Table) : list year_arg :=
  YStr "All" :: map YInt (sort_by Z.leb (remove_dups (omap Year (rows T)))).


(** A selection that [filter_df] answers with at least one row. *)
Definition selects_rows `{Builtins} (st : store)
    (region segment category : string) (year : year_arg) : Prop :=
  exists a st' T',
    filter_df region segment category year st = (Ok a, st') /\
    st' !! a = Some (FTable T') /\
    rows T' <> [].

(** ** [dash_app/app.py]: the KPI texts

    The five KPI values are shown through format specifications.  The
    amounts are binary64 floats here, as in the source; [m * 2^e] is the
    value of [S754_finite s m e], negated when [s] is set. *)

(** The decimal numeral of a natural number. *)
Definition decimal (n : N) : string := NilEmpty.string_of_uint (N.to_uint n).

(** The [,] option of a format specification: a comma after every digit that
    a positive multiple of three digits follows. *)
Fixpoint commas (s : string) : string :=
  match s with
  | EmptyString => EmptyString
  | String c s' =>
      String c (if (0 <? String.length s')%nat && (String.length s' mod 3 =? 0)%nat
                then String "," (commas s')
                else commas s')
  end.

(** [f"{orders:,}"] *)
Definition format_orders (orders : nat) : string :=
  commas (decimal (N.of_nat orders)).

(** The integer nearest to [num / den], a tie going to the even one. *)
Definition round_half_even (num den : Z) : Z :=
  let q := num / den in
  let r := num mod den in
  if 2 * r <? den then q
  else if den <? 2 * r then q + 1
  else if Z.even q then q else q + 1.

(** The integer nearest to [k * m * 2^e], as the correctly rounded conversion
    of a float to a fixed number of decimals gives it. *)
Definition nearest (k : Z) (m : positive) (e : Z) : N :=
  Z.to_N (round_half_even (k * Z.pos m * 2 ^ Z.max e 0) (2 ^ Z.max (- e) 0)).

(** The sign of a formatted float: a minus for a set sign bit, also on a
    zero. *)
Definition minus (s : bool) : string := if s then "-" else "".

(** [format(x, ",.0f")] *)
Definition format_comma_0f (x : spec_float) : string :=
  match x with
  | S754_nan => "nan"
  | S754_infinity s => minus s +:+ "inf"
  | S754_zero s => minus s +:+ "0"
  | S754_finite s m e => minus s +:+ commas (decimal (nearest 1 m e))
  end.

(** [format(x, ".1f")] *)
Definition format_1f (x : spec_float) : string :=
  match x with
  | S754_nan => "nan"
  | S754_infinity s => minus s +:+ "inf"
  | S754_zero s => minus s +:+ "0.0"
  | S754_finite s m e =>
      let n := nearest 10 m e in
      minus s +:+ decimal (n / 10) +:+ "." +:+ decimal (n mod 10)
  end.

(** [f"${x:,.0f}"] *)
Definition format_currency (x : spec_float) : string :=
  "$" +:+ format_comma_0f x.

(** The binary64 value 100.0, and the binary64 product [x*100]. *)
Definition f100 : spec_float := S754_finite false 7036874417766400 (-46).

(** [f"{x*100:.1f}%"] *)
Definition format_percent (x : spec_float) : string :=
  format_1f (SFmul 53 1024 x f100) +:+ "%".

(** Reading a KPI text back: the separators are dropped and the digits
    read as a decimal numeral. *)
Fixpoint strip_commas (s : string) : string :=
  match s with
  | EmptyString => EmptyString
  | String c s' =>
      if Ascii.eqb c "," then strip_commas s' else String c (strip_commas s')
  end.

(** The number a non-empty run of decimal digits denotes. *)
Definition read_decimal (s : string) : option N :=
  N.of_uint <$> NilZero.uint_of_string s.

(** The characters "0" to "9". *)
Definition is_digit (c : ascii) : bool :=
  (48 <=? nat_of_ascii c)%nat && (nat_of_ascii c <=? 57)%nat.

(** The character [i] places before the last one. *)
Definition from_right (i : nat) (s : string) : option ascii :=
  if (i <? String.length s)%nat
  then String.get (String.length s - 1 - i) s
  else None.

(** A text made of digits only. *)
Fixpoint all_digits (s : string) : bool :=
  match s with
  | EmptyString => true
  | String c s' => is_digit c && all_digits s'
  end.

(** ** [dash_app/app.py]: the options of the year dropdown

    [dcc.Dropdown([str(y) for y in years], "All", id="year", ...)]: the
    options are texts, and the callback receives the chosen text. *)

(** [str(y)] of an [int]. *)
Definition py_str_int (y : Z) : string :=
  String.append (if y <? 0 then "-" else "") (decimal (Z.abs_N y)).

(** [str(y)] of an element of [years]. *)
Definition py_str (y : year_arg) : string :=
  match y with
  | YStr s => s
  | YInt n => py_str_int n
  end.

(** [[str(y) for y in years]] *)
Definition year_options (T : Table) : list string := map py_str (years T).

(** * Properties *)

(** ** Discount buckets *)

Ltac py_unfold :=
  unfold py_gt, py_le, py_lt, num_compare in *;
  cbn [mbind result_bind mret result_ret] in *.

(** Both literals lie strictly between 0 and 1, so an [int] is below them
    exactly when it is at most 0. *)
Lemma int_float_compare_literal (n : Z) (c : spec_float) :
  c = f0_20 \/ c = f0_40 ->
  int_float_compare n c = Some (if n <=? 0 then Lt else Gt).
Proof.
  intros [-> | ->]; unfold int_float_compare, f0_20, f0_40;
    change (0 <=? -55) with false; change (0 <=? -54) with false;
    change (2 ^ (- (-55))) with 36028797018963968;
    change (2 ^ (- (-54))) with 18014398509481984;
    cbv iota; f_equal;
    (destruct (Z.leb_spec n 0);
     [apply Z.compare_lt_iff | apply Z.compare_gt_iff]; lia).
Qed.

Lemma discount_bucket_positive_not_zero (x : value) (c : spec_float) :
  c = f_zero \/ c = f0_20 \/ c = f0_40 ->
  py_gt x c = Ok true -> isna x = false /\ py_eq0 x = false.
Proof.
  intros Hc Hgt. py_unfold.
  destruct x as [| s | n | f | d]; try discriminate.
  - split; [reflexivity|]. cbn [py_eq0]. apply Z.eqb_neq. intros ->.
    destruct Hc as [-> | Hc].
    + discriminate.
    + rewrite (int_float_compare_literal 0 c Hc) in Hgt. discriminate.
  - destruct Hc as [-> | [-> | ->]];
      destruct f as [[|] | [|] | | [|] m e]; try discriminate;
      split; reflexivity.
Qed.

Lemma discount_bucket_above_0_40 (x : value) :
  py_gt x f0_40 = Ok true -> py_le x f0_20 = Ok false /\ py_le x f0_40 = Ok false.
Proof.
  intros Hgt. py_unfold.
  destruct x as [| s | n | f | d]; try discriminate.
  - rewrite !int_float_compare_literal in * by auto.
    destruct (n <=? 0); [discriminate | split; reflexivity].
  - destruct f as [[|] | [|] | | [|] m e]; try discriminate;
      try (split; reflexivity).
    unfold f0_20, f0_40, SFcompare in *.
    destruct (Z.compare_spec e (-54)) as [He | Hlt | Hgt'].
    + subst e. change (-54 ?= -55) with Gt.
      destruct (Pos.compare_cont Eq m 7205759403792794); try discriminate.
      split; reflexivity.
    + discriminate.
    + assert (E' : (e ?= -55) = Gt) by (apply Z.compare_gt_iff; lia).
      rewrite E'. split; reflexivity.
Qed.

(** C2. [discount_bucket] is a total function whose result is always one of
    the five (pairwise distinct) bucket literals, and it agrees with every row
    of the bucket table: "Unknown" for a missing or non-numeric value (the
    non-numeric case through the [except] branch), "No Discount" for a value
    equal to 0, "Low" for 0 < d <= 0.20, "Medium" for 0.20 < d <= 0.40 and
    "High" for d > 0.40. *)
Theorem discount_bucket_table (x : value) :
  NoDup bucket_literals /\
  In (discount_bucket x) bucket_literals /\
  forall b, bucket_table x b -> discount_bucket x = b.
Proof.
  split; [|split].
  - apply (bool_decide_unpack _). vm_compute. exact I.
  - unfold discount_bucket, discount_bucket_try.
    destruct (isna x); [simpl; tauto|].
    destruct (py_eq0 x); [simpl; tauto|].
    destruct (py_le x f0_20) as [[|]|]; simpl; try tauto.
    destruct (py_le x f0_40) as [[|]|]; simpl; tauto.
  - intros b Hb. unfold discount_bucket, discount_bucket_try.
    destruct Hb as [Hn | Hn Hz | Hgt Hle | Hgt Hle | Hgt].
    + destruct x as [| s | n | [| | |] | d]; try discriminate Hn; reflexivity.
    + destruct x as [| s | n | f | d]; try discriminate Hn.
      * cbn [isna py_eq0] in *. now rewrite Hz.
      * destruct f as [[|] | [|] | | [|] m e];
          try discriminate Hn; try discriminate Hz; reflexivity.
    + destruct (discount_bucket_positive_not_zero x f_zero) as [-> ->]; auto.
      now rewrite Hle.
    + destruct (discount_bucket_positive_not_zero x f0_20) as [-> ->]; auto.
      assert (Hle20 : py_le x f0_20 = Ok false).
      { unfold py_gt, py_le in *. destruct (num_compare x f0_20) as [[[| |]|]|];
          cbn [mbind result_bind mret result_ret] in *;
          try discriminate Hgt; reflexivity. }
      now rewrite Hle20, Hle.
    + destruct (discount_bucket_positive_not_zero x f0_40) as [-> ->]; auto.
      destruct (discount_bucket_above_0_40 x Hgt) as [-> ->]. reflexivity.
Qed.

Lemma discount_bucket_table_witness :
  bucket_table (VFloat f0_15) Low /\ discount_bucket (VFloat f0_15) = Low.
Proof.
  split.
  - apply row_low; reflexivity.
  - apply (discount_bucket_table (VFloat f0_15)). apply row_low; reflexivity.
Defined.

(** Scenario B: an empty Discount cell is read as NaN and lands in
    "Unknown"; so does a cell that holds text. *)
Example discount_bucket_missing :
  discount_bucket (VFloat S754_nan) = Unknown /\
  discount_bucket VNone = Unknown /\
  discount_bucket (VStr "n/a") = Unknown.
Proof. repeat split; reflexivity. Qed.

(** C10. A numeric discount below zero, which no row of the bucket table
    covers, fails the [x == 0] test and passes [x <= 0.20]: it is put in the
    "Low" bucket, not in "Unknown". *)
Theorem discount_bucket_negative (x : value) :
  py_lt x f_zero = Ok true -> discount_bucket x = Low.
Proof.
  intros Hlt. unfold discount_bucket, discount_bucket_try. py_unfold.
  destruct x as [| s | n | f | d]; try discriminate.
  - cbn [int_float_compare f_zero] in Hlt.
    destruct (Z.compare_spec n 0) as [| Hn |]; try discriminate.
    cbn [isna py_eq0].
    replace (n =? 0) with false by (symmetry; apply Z.eqb_neq; lia).
    rewrite !int_float_compare_literal by auto.
    replace (n <=? 0) with true by (symmetry; apply Z.leb_le; lia).
    reflexivity.
  - destruct f as [[|] | [|] | | [|] m e]; try discriminate; reflexivity.
Qed.

Lemma discount_bucket_negative_witness :
  discount_bucket (VFloat f_minus_0_05) = Low /\ discount_bucket (VInt (-1)) = Low.
Proof.
  split.
  - apply (discount_bucket_negative (VFloat f_minus_0_05)). reflexivity.
  - apply (discount_bucket_negative (VInt (-1))). reflexivity.
Defined.

(** ** Column reconciliation *)

Section Squeeze.

Local Open Scope string_scope.

Lemma string_app_cons (c : ascii) (a b : string) :
  String c a ++ b = String c (a ++ b).
Proof. reflexivity. Qed.

Lemma string_app_nil_l (b : string) : "" ++ b = b.
Proof. reflexivity. Qed.

Ltac str_simpl := rewrite ?string_app_cons, ?string_app_nil_l; simpl.

Lemma string_app_nil_r (s : string) : s ++ "" = s.
Proof. induction s as [| c s IH]; str_simpl; [reflexivity | now rewrite IH]. Qed.

Lemma string_app_assoc (a b c : string) : (a ++ b) ++ c = a ++ (b ++ c).
Proof. induction a as [| x a IH]; str_simpl; [reflexivity | now rewrite IH]. Qed.

Lemma string_app_nonempty_r (a t : string) : t <> "" -> a ++ t <> "".
Proof. destruct a; str_simpl; [auto | discriminate]. Qed.

Lemma nospace_app (a b : string) :
  nospace (a ++ b) = nospace a && nospace b.
Proof.
  induction a as [| c a IH]; str_simpl; [reflexivity|].
  rewrite IH. now rewrite andb_assoc.
Qed.

Lemma split_go_tokens (s cur : string) :
  nospace cur = true -> Forall token (split_go cur s).
Proof.
  revert cur. induction s as [| c s IH]; intros cur Hcur; simpl.
  - destruct cur; constructor; [split; [discriminate | exact Hcur] | constructor].
  - destruct (is_space c) eqn:Hc.
    + destruct cur.
      * now apply IH.
      * constructor; [split; [discriminate | exact Hcur] | now apply IH].
    + apply IH. rewrite nospace_app, Hcur. simpl. now rewrite Hc.
Qed.

Lemma split_go_run (t cur rest : string) :
  nospace t = true -> split_go cur (t ++ rest) = split_go (cur ++ t) rest.
Proof.
  revert cur. induction t as [| c t IH]; intros cur Ht; str_simpl.
  - now rewrite string_app_nil_r.
  - simpl in Ht. apply andb_true_iff in Ht as [Hc Ht].
    apply negb_true_iff in Hc. rewrite Hc, IH by exact Ht.
    rewrite string_app_assoc. reflexivity.
Qed.

Lemma concat_tokens_nonempty (t : string) (ts : list string) :
  token t -> String.concat " " (t :: ts) <> "".
Proof.
  intros [Hne _]. destruct ts; simpl; [exact Hne|].
  destruct t; [congruence | str_simpl; discriminate].
Qed.

Lemma split_concat_tokens (ts : list string) :
  Forall token ts -> split (String.concat " " ts) = ts.
Proof.
  unfold split. induction 1 as [| t ts [Hne Hns] Hts IH]; [reflexivity|].
  destruct ts as [| t2 ts'].
  - simpl. rewrite <- (string_app_nil_r t) at 1.
    rewrite split_go_run by exact Hns. str_simpl.
    destruct t; [congruence | reflexivity].
  - change (String.concat " " (t :: t2 :: ts'))
      with (t ++ String " " (String.concat " " (t2 :: ts'))).
    rewrite split_go_run by exact Hns. rewrite string_app_nil_l.
    destruct t as [| c t']; [congruence|].
    cbn [split_go]. change (is_space " ") with true. cbv iota.
    now rewrite IH.
Qed.

Lemma lstrip_concat_tokens (ts : list string) :
  Forall token ts -> lstrip (String.concat " " ts) = String.concat " " ts.
Proof.
  destruct 1 as [| t ts [Hne Hns] Hts]; [reflexivity|].
  destruct t as [| c t]; [congruence|].
  simpl in Hns. apply andb_true_iff in Hns as [Hc _].
  apply negb_true_iff in Hc.
  destruct ts; str_simpl; now rewrite Hc.
Qed.

Lemma rstrip_token (t : string) : token t -> rstrip t = t.
Proof.
  intros [Hne Hns]. induction t as [| c t IH]; [congruence|].
  simpl in *. apply andb_true_iff in Hns as [Hc Hns].
  apply negb_true_iff in Hc.
  destruct t as [| c' t'].
  - simpl. now rewrite Hc.
  - rewrite IH by (auto; discriminate). reflexivity.
Qed.

Lemma rstrip_app_fixed (a s : string) :
  rstrip s = s -> s <> "" -> rstrip (a ++ s) = a ++ s.
Proof.
  intros Hs Hne. induction a as [| c a IH]; str_simpl; [exact Hs|].
  rewrite IH. destruct (a ++ s) eqn:E; [|reflexivity].
  exfalso. now apply (string_app_nonempty_r a s).
Qed.

Lemma rstrip_concat_tokens (ts : list string) :
  Forall token ts -> rstrip (String.concat " " ts) = String.concat " " ts.
Proof.
  induction 1 as [| t ts Ht Hts IH]; [reflexivity|].
  destruct ts as [| t2 ts'].
  - simpl. now apply rstrip_token.
  - change (String.concat " " (t :: t2 :: ts'))
      with (t ++ " " ++ String.concat " " (t2 :: ts')).
    rewrite <- string_app_assoc. apply rstrip_app_fixed; [exact IH|].
    apply concat_tokens_nonempty. now inversion Hts.
Qed.

Lemma squeeze_tokens (c : string) :
  exists ts, Forall token ts /\ squeeze c = String.concat " " ts.
Proof.
  exists (split (strip c)). split; [|reflexivity].
  now apply split_go_tokens.
Qed.

Lemma squeeze_concat_tokens (ts : list string) :
  Forall token ts -> squeeze (String.concat " " ts) = String.concat " " ts.
Proof.
  intros Hts. unfold squeeze, strip.
  rewrite lstrip_concat_tokens, rstrip_concat_tokens by exact Hts.
  now rewrite split_concat_tokens.
Qed.

Lemma squeeze_idempotent (c : string) : squeeze (squeeze c) = squeeze c.
Proof.
  destruct (squeeze_tokens c) as (ts & Hts & ->).
  now apply squeeze_concat_tokens.
Qed.

End Squeeze.

Lemma dict_of_lookup {V} (g : string -> option V) (cols : list string)
    (m0 : gmap string V) (c : string) :
  foldl (fun m kv => <[kv.1 := kv.2]> m) m0
    (omap (fun c => match g c with Some v => Some (c, v) | None => None end) cols)
    !! c
  = if decide (c ∈ cols)
    then match g c with Some v => Some v | None => m0 !! c end
    else m0 !! c.
Proof.
  revert m0. induction cols as [| x xs IH]; intros m0.
  - reflexivity.
  - cbn [omap list_omap]. destruct (g x) as [v |] eqn:Hgx.
    + cbn [foldl]. rewrite IH. cbn [fst snd].
      destruct (decide (c = x)) as [-> | Hne].
      * rewrite Hgx, lookup_insert_eq.
        rewrite (decide_True (P := x ∈ x :: xs)) by apply list_elem_of_here.
        now destruct (decide (x ∈ xs)).
      * rewrite lookup_insert_ne by congruence.
        destruct (decide (c ∈ xs)) as [Hin | Hnin].
        -- rewrite decide_True by now apply list_elem_of_further.
           reflexivity.
        -- rewrite decide_False; [reflexivity|].
           intros [? | ?]%elem_of_cons; contradiction.
    + rewrite IH.
      destruct (decide (c = x)) as [-> | Hne].
      * rewrite Hgx.
        rewrite (decide_True (P := x ∈ x :: xs)) by apply list_elem_of_here.
        now destruct (decide (x ∈ xs)).
      * destruct (decide (c ∈ xs)) as [Hin | Hnin].
        -- rewrite decide_True by now apply list_elem_of_further.
           reflexivity.
        -- rewrite decide_False; [reflexivity|].
           intros [? | ?]%elem_of_cons; contradiction.
Qed.

Lemma normalize_columns_columns (df : DataFrame) :
  columns (normalize_columns df) = map (fun c => alias (squeeze c)) (columns df).
Proof.
  unfold normalize_columns, rename. cbn [columns].
  set (cols := columns df).
  assert (H1 : map (fun c => default c
                 (dict_of (map (fun c => (c, squeeze c)) cols) !! c)) cols
               = map squeeze cols).
  { apply map_ext_in. intros c Hc%list_elem_of_In. unfold dict_of.
    replace (map (fun c0 => (c0, squeeze c0)) cols)
      with (omap (fun c0 => match Some (squeeze c0) with
                            | Some v => Some (c0, v)
                            | None => None
                            end) cols).
    - rewrite (dict_of_lookup (fun c => Some (squeeze c))).
      now rewrite decide_True.
    - clear. induction cols as [| a l IH]; [reflexivity|]. cbn. now rewrite IH. }
  rewrite H1. rewrite map_map. apply map_ext_in.
  intros c Hc%list_elem_of_In. unfold alias, dict_of.
  rewrite (dict_of_lookup (fun c => renames !! c)).
  rewrite decide_True by (apply list_elem_of_In, in_map, list_elem_of_In, Hc).
  rewrite lookup_empty. now destruct (renames !! squeeze c).
Qed.

Lemma renames_lookup_items (k v : string) :
  renames !! k = Some v -> In (k, v) renames_items.
Proof.
  unfold renames, dict_of.
  assert (H : forall items (m0 : gmap string string),
             foldl (fun m kv => <[kv.1 := kv.2]> m) m0 items !! k = Some v ->
             In (k, v) items \/ m0 !! k = Some v).
  { induction items as [| [k' v'] items IH]; intros m0 Hl; [now right|].
    cbn [foldl] in Hl. apply IH in Hl as [Hl | Hl]; [left; now right|].
    cbn [fst snd] in Hl. destruct (decide (k' = k)) as [-> | Hne].
    - rewrite lookup_insert_eq in Hl. injection Hl as ->. left; now left.
    - rewrite lookup_insert_ne in Hl by exact Hne. now right. }
  intros Hl. apply H in Hl as [Hl | Hl]; [exact Hl|].
  rewrite lookup_empty in Hl. discriminate.
Qed.

Lemma canonical_fixed (c : string) :
  canonical c -> squeeze c = c /\ alias c = c.
Proof.
  intros [k Hk%renames_lookup_items].
  assert (Hall : Forall (fun kv => squeeze kv.2 = kv.2 /\ alias kv.2 = kv.2)
                   renames_items).
  { apply (bool_decide_unpack _). vm_compute. exact I. }
  rewrite Forall_forall in Hall. apply (Hall (k, c)). now apply list_elem_of_In.
Qed.

Lemma alias_squeeze_idempotent (c : string) :
  alias (squeeze (alias (squeeze c))) = alias (squeeze c).
Proof.
  unfold alias at 2 3.
  destruct (renames !! squeeze c) as [v |] eqn:Hv; cbn [from_option id].
  - destruct (canonical_fixed v) as [-> ->]; [now exists (squeeze c) | reflexivity].
  - rewrite squeeze_idempotent. unfold alias. now rewrite Hv.
Qed.

(** C5. Column reconciliation is idempotent: [normalize_columns] applied twice
    gives the frame it gives when applied once (so [reconcile (reconcile h) =
    reconcile h] for every header list [h]), and a frame whose headers are all
    canonical names is returned unchanged. *)
Theorem normalize_columns_idempotent (df : DataFrame) :
  normalize_columns (normalize_columns df) = normalize_columns df /\
  reconcile (reconcile (columns df)) = reconcile (columns df) /\
  (Forall canonical (columns df) -> normalize_columns df = df).
Proof.
  assert (Hfix : forall d, columns (normalize_columns (normalize_columns d))
                           = columns (normalize_columns d)).
  { intros d. rewrite !normalize_columns_columns, map_map.
    apply map_ext. intros c. apply alias_squeeze_idempotent. }
  assert (Hdata : forall d, data (normalize_columns d) = data d) by reflexivity.
  split; [|split].
  - destruct (normalize_columns (normalize_columns df)) as [c2 d2] eqn:E2.
    destruct (normalize_columns df) as [c1 d1] eqn:E1.
    f_equal.
    + change c2 with (columns {| columns := c2; data := d2 |}).
      rewrite <- E2, <- E1, Hfix, E1. reflexivity.
    + change d2 with (data {| columns := c2; data := d2 |}).
      rewrite <- E2, <- E1, Hdata, E1. reflexivity.
  - unfold reconcile.
    rewrite !normalize_columns_columns. cbn [columns]. rewrite map_map.
    apply map_ext. intros c. apply alias_squeeze_idempotent.
  - intros Hcan. destruct df as [cols rows].
    assert (Hc := normalize_columns_columns {| columns := cols; data := rows |}).
    assert (Hd := Hdata {| columns := cols; data := rows |}).
    destruct (normalize_columns _) as [c1 d1]. cbn [columns data] in *.
    subst d1. f_equal. rewrite Hc.
    rewrite <- (map_id cols) at 2. apply map_ext_in.
    intros c Hin. rewrite Forall_forall in Hcan.
    destruct (canonical_fixed c) as [-> ->]; [|reflexivity].
    apply Hcan. now apply list_elem_of_In.
Qed.

Lemma normalize_columns_idempotent_witness :
  Forall canonical ["Order ID"; "Sub-Category"; "Sales"] /\
  normalize_columns
    {| columns := ["Order ID"; "Sub-Category"; "Sales"]; data := [[VNone; VNone; VNone]] |}
  = {| columns := ["Order ID"; "Sub-Category"; "Sales"]; data := [[VNone; VNone; VNone]] |}.
Proof.
  assert (H : Forall canonical ["Order ID"; "Sub-Category"; "Sales"]).
  { repeat constructor.
    - exists "Order ID". reflexivity.
    - exists "Sub Category". reflexivity.
    - exists "Sales". reflexivity. }
  split; [exact H|].
  apply (normalize_columns_idempotent
           {| columns := ["Order ID"; "Sub-Category"; "Sales"];
              data := [[VNone; VNone; VNone]] |}).
  exact H.
Defined.

(** ** Row pruning *)

Lemma filter_split_length {A} (p : A -> bool) (l : list A) :
  (length (List.filter (fun a => negb (p a)) l) + length (List.filter p l)
   = length l)%nat.
Proof.
  induction l as [| a l IH]; [reflexivity|].
  simpl. destruct (p a); simpl; lia.
Qed.

Lemma dropna_all_rows (df : DataFrame) :
  (length (data (dropna_all df)) + count_fully_empty df = length (data df))%nat.
Proof. apply filter_split_length. Qed.

Lemma dropna_all_keeps (df : DataFrame) (r : list value) :
  In r (data (dropna_all df)) <-> In r (data df) /\ fully_empty r = false.
Proof.
  unfold dropna_all. cbn [data]. rewrite filter_In.
  now rewrite negb_true_iff.
Qed.

Lemma setitem_rows (col : string) (vals : list value) (df : DataFrame) :
  length (data (setitem col vals df)) = length (data df).
Proof.
  unfold setitem. destruct (index_of col (columns df)); cbn [data];
    apply length_imap.
Qed.

Lemma convert_columns_rows (conv : list value -> list value)
    (cols : list string) (df : DataFrame) :
  length (data (convert_columns conv cols df)) = length (data df).
Proof.
  unfold convert_columns. revert df.
  induction cols as [| c cols IH]; intros df; [reflexivity|].
  cbn [foldl]. rewrite IH.
  destruct (has_column c df); [apply setitem_rows | reflexivity].
Qed.

Section CleanFacts.

Context `{Library}.

Lemma coerced_rows (raw : DataFrame) :
  (length (data (coerced raw)) + count_fully_empty raw
   = length (data raw))%nat.
Proof.
  unfold coerced. rewrite !convert_columns_rows.
  exact (dropna_all_rows (normalize_columns raw)).
Qed.

Lemma helper_fields_rows (df : DataFrame) :
  length (data (helper_fields df)) = length (data df).
Proof.
  unfold helper_fields.
  destruct (has_column "Order Date" df && has_column "Ship Date" df);
    match goal with
    | |- context [if ?b then _ else _] => destruct b
    end; rewrite ?setitem_rows; reflexivity.
Qed.

(** [main] either stops at the Postal Code cast, with nothing written, or
    returns 0 with both files written. *)
Lemma main_unfold (raw : DataFrame) (d : Disk) :
  main (Ok raw) d =
  if has_column "Postal Code" (coerced raw) then
    match astype_Int64 (getitem "Postal Code" (coerced raw)) with
    | Ok v => (Ok 0, written (helper_fields (setitem "Postal Code" v (coerced raw))))
    | Raise e =>
        (Raise e, {| outdir_exists := true;
                     superstore_cleaned_csv := superstore_cleaned_csv d;
                     profiling_summary_txt := profiling_summary_txt d |})
    end
  else (Ok 0, written (helper_fields (coerced raw))).
Proof.
  unfold main, mbind, M_bind, mkdir, modify, lift.
  unfold coerced, written, report, helper_fields.
  destruct (has_column "Postal Code" _).
  - destruct (astype_Int64 _); reflexivity.
  - reflexivity.
Qed.

End CleanFacts.


(** ** Running a query in the object store *)

Lemma Qc_of_nat_zero (n : nat) : Qc_of_nat n = 0%Qc <-> n = 0%nat.
Proof.
  unfold Qc_of_nat. split.
  - intros Hq. apply (f_equal this) in Hq. simpl in Hq.
    assert (Hz : (inject_Z (Z.of_nat n) == 0)%Q).
    { rewrite <- (Qred_correct (inject_Z (Z.of_nat n))), Hq. reflexivity. }
    unfold Qeq in Hz. simpl in Hz. lia.
  - intros ->. apply Qc_is_canon. reflexivity.
Qed.

Lemma truthy_false (q : Qc) : truthy q = false <-> q = 0%Qc.
Proof.
  unfold truthy. rewrite bool_decide_eq_false.
  split; [apply dec_stable | auto].
Qed.

Lemma truthy_true (q : Qc) : truthy q = true <-> q <> 0%Qc.
Proof. unfold truthy. apply bool_decide_eq_true. Qed.

(** A guarded numpy division: always finite, and 0 on a zero divisor. *)
Lemma guarded_np_truediv (a b : Qc) :
  is_Some (if truthy b then np_truediv a b else Some 0%Qc) /\
  (b = 0%Qc -> (if truthy b then np_truediv a b else Some 0%Qc) = Some 0%Qc).
Proof.
  destruct (truthy b) eqn:Hb.
  - apply truthy_true in Hb. unfold np_truediv.
    rewrite bool_decide_false by exact Hb. split; [eauto | contradiction].
  - split; [eauto | reflexivity].
Qed.

(** A guarded Python division does not raise. *)
Lemma guarded_py_truediv (guard : bool) (a b : Qc) :
  (guard = true -> b <> 0%Qc) ->
  (if guard then py_truediv a b else Ok 0%Qc)
  = Ok (if guard then (a / b)%Qc else 0%Qc).
Proof.
  intros Hg. destruct guard; [|reflexivity].
  unfold py_truediv. now rewrite bool_decide_false by auto.
Qed.

Lemma filter_true {A} (l : list A) : List.filter (fun _ => true) l = l.
Proof. induction l as [| a l IH]; [reflexivity|]. simpl. now rewrite IH. Qed.

Lemma filter_filter_and {A} (p q : A -> bool) (l : list A) :
  List.filter q (List.filter p l) = List.filter (fun a => p a && q a) l.
Proof.
  induction l as [| a l IH]; [reflexivity|].
  simpl. destruct (p a); simpl; [destruct (q a)|]; now rewrite IH.
Qed.

Lemma Table_eta (t : Table) : {| header := header t; rows := rows t |} = t.
Proof. now destruct t. Qed.

Lemma bind_run {S A B} (m : M S A) (f : A -> M S B) (s : S) :
  (m ≫= f) s = match m s with
               | (Ok a, s') => f a s'
               | (Raise e, s') => (Raise e, s')
               end.
Proof. reflexivity. Qed.

Lemma alloc_run (st : store) (f : frame) :
  alloc f st = (Ok (length st), st ++ [f]).
Proof. reflexivity. Qed.

Lemma load_run (st : store) (a : addr) (f : frame) :
  st !! a = Some f -> load a st = (Ok f, st).
Proof. intros Hf. unfold load. now rewrite Hf. Qed.

Lemma load_table_run (st : store) (a : addr) (t : Table) :
  st !! a = Some (FTable t) -> load_table a st = (Ok t, st).
Proof.
  intros Ht. unfold load_table. now rewrite bind_run, (load_run st a _ Ht).
Qed.

Lemma copy_run (st : store) (a : addr) (f : frame) :
  st !! a = Some f -> copy a st = (Ok (length st), st ++ [f]).
Proof. intros Hf. unfold copy. now rewrite bind_run, (load_run st a f Hf). Qed.

Lemma select_run (mask : Row -> bool) (st : store) (a : addr) (t : Table) :
  st !! a = Some (FTable t) ->
  select mask a st
  = (Ok (length st),
     st ++ [FTable {| header := header t; rows := List.filter mask (rows t) |}]).
Proof.
  intros Ht. unfold select. now rewrite bind_run, (load_table_run st a t Ht).
Qed.

Lemma lookup_fresh (st : store) (f : frame) : (st ++ [f]) !! length st = Some f.
Proof. now apply list_lookup_middle. Qed.

(** Assigning into the frame allocated last changes that frame only. *)
Lemma assign_fresh (st : store) (f g : frame) :
  assign (length st) g (st ++ [f]) = (Ok tt, st ++ [g]).
Proof.
  unfold assign. f_equal.
  rewrite insert_app_r_alt by reflexivity.
  now rewrite Nat.sub_diag.
Qed.

(** One [if sel != "All": dff = dff[mask]] step: the store only grows, and
    the name [dff] ends up on a frame with the rows the step keeps. *)
Lemma step_run (cond : bool) (mask : Row -> bool) (st : store) (a : addr)
    (t : Table) :
  st !! a = Some (FTable t) ->
  exists a' st',
    (if cond then select mask a else mret a) st = (Ok a', st') /\
    st `prefix_of` st' /\
    st' !! a' = Some (FTable {| header := header t;
                                rows := List.filter (fun r => negb cond || mask r)
                                          (rows t) |}).
Proof.
  intros Ht. destruct cond.
  - rewrite (select_run mask st a t Ht).
    eexists _, _. split; [reflexivity|]. split; [now apply prefix_app_r|].
    apply lookup_fresh.
  - exists a, st. split; [reflexivity|]. split; [reflexivity|].
    cbn [negb orb]. now rewrite filter_true, Table_eta.
Qed.

(** The two blocks of [update] that assign a column assign it to the frame
    they have just created. *)
Lemma discount_bucket_vs_margin_run (dff : Table) (st : store) :
  exists ext,
    discount_bucket_vs_margin dff st
    = (Ok (by_disc (aggregate_result dff)), st ++ ext).
Proof.
  unfold discount_bucket_vs_margin, aggregate_result. cbn [by_disc].
  case_bool_decide.
  - eexists [_]. rewrite bind_run, alloc_run.
    rewrite bind_run, (load_run _ _ _ (lookup_fresh st _)).
    rewrite bind_run. unfold lift at 1. cbn [as_sums].
    rewrite bind_run, assign_fresh.
    rewrite bind_run, (load_run _ _ _ (lookup_fresh st _)).
    rewrite bind_run. unfold lift at 1. cbn [as_discount].
    reflexivity.
  - exists []. now rewrite app_nil_r.
Qed.

Lemma ship_mode_profit_per_order_run (dff : Table) (st : store) :
  exists ext,
    ship_mode_profit_per_order dff st
    = (Ok (by_ship (aggregate_result dff)), st ++ ext).
Proof.
  unfold ship_mode_profit_per_order, aggregate_result. cbn [by_ship].
  eexists [_]. rewrite bind_run, alloc_run.
  rewrite bind_run, (load_run _ _ _ (lookup_fresh st _)).
  rewrite bind_run. unfold lift at 1. cbn [as_ship_sums].
  rewrite bind_run, assign_fresh.
  rewrite bind_run, (load_run _ _ _ (lookup_fresh st _)).
  reflexivity.
Qed.

(** [aggregate] does not raise, returns the Aggregate Result of the frame it
    is given, and leaves every frame it found as it was. *)
Lemma aggregate_run (st : store) (a : addr) (dff : Table) :
  st !! a = Some (FTable dff) ->
  exists ext, aggregate a st = (Ok (aggregate_result dff), st ++ ext).
Proof.
  intros Ha. unfold aggregate.
  rewrite bind_run, (load_table_run st a dff Ha).
  rewrite (guarded_py_truediv (truthy _)) by apply truthy_true.
  rewrite (guarded_py_truediv (bool_decide _)).
  2:{ intros Hn%bool_decide_eq_true. now rewrite Qc_of_nat_zero. }
  rewrite bind_run. unfold lift at 1.
  rewrite bind_run. unfold lift at 1.
  destruct (discount_bucket_vs_margin_run dff st) as (ext1 & E1).
  rewrite bind_run, E1.
  destruct (ship_mode_profit_per_order_run dff (st ++ ext1)) as (ext2 & E2).
  rewrite bind_run, E2.
  exists (ext1 ++ ext2). rewrite app_assoc. reflexivity.
Qed.

Section StoreFacts.

Context `{Builtins}.

Lemma filter_df_unbound (st : store) region segment category year :
  st !! DF = None ->
  filter_df region segment category year st = (Raise NameError, st).
Proof.
  intros Hn. unfold filter_df. rewrite bind_run.
  unfold copy. rewrite bind_run. unfold load. now rewrite Hn.
Qed.

Lemma matches_steps region segment category (y : option Z) (l : list Row) :
  List.filter (fun r => match y with
                        | Some y => bool_decide (Year r = Some y)
                        | None => true
                        end)
    (List.filter (fun r => negb (bool_decide (category ≠ "All"))
                           || bool_decide (Category r = Some category))
       (List.filter (fun r => negb (bool_decide (segment ≠ "All"))
                              || bool_decide (Segment r = Some segment))
          (List.filter (fun r => negb (bool_decide (region ≠ "All"))
                                 || bool_decide (Region r = Some region)) l)))
  = List.filter (matches region segment category y) l.
Proof.
  rewrite !filter_filter_and. apply filter_ext. intros r. unfold matches.
  assert (Hneg : forall s : string,
             negb (bool_decide (s ≠ "All")) = bool_decide (s = "All")).
  { intros s. destruct (decide (s = "All")) as [-> | Hne].
    - rewrite bool_decide_false by auto. now rewrite bool_decide_true.
    - rewrite bool_decide_true by auto. now rewrite bool_decide_false. }
  rewrite !Hneg, !andb_assoc. reflexivity.
Qed.

(** [filter_df] allocates and never assigns: the store it leaves extends
    the one it found, and the frame it returns holds the rows of [DF] that
    match the selection.  It raises only when [int(year)] does. *)
Lemma filter_df_run (st : store) (T : Table) region segment category year :
  st !! DF = Some (FTable T) ->
  exists st', st `prefix_of` st' /\
    match selected_year year with
    | Ok y =>
        exists a,
          filter_df region segment category year st = (Ok a, st') /\
          st' !! a = Some (FTable
                             {| header := header T;
                                rows := List.filter
                                          (matches region segment category y)
                                          (rows T) |})
    | Raise e => filter_df region segment category year st = (Raise e, st')
    end.
Proof.
  intros HT. unfold filter_df.
  rewrite bind_run, (copy_run st DF _ HT).
  destruct (step_run (bool_decide (region ≠ "All"))
              (fun r => bool_decide (Region r = Some region))
              (st ++ [FTable T]) (length st) T (lookup_fresh st _))
    as (a1 & st1 & E1 & P1 & L1).
  rewrite bind_run, E1.
  destruct (step_run (bool_decide (segment ≠ "All"))
              (fun r => bool_decide (Segment r = Some segment))
              st1 a1 _ L1) as (a2 & st2 & E2 & P2 & L2).
  rewrite bind_run, E2.
  destruct (step_run (bool_decide (category ≠ "All"))
              (fun r => bool_decide (Category r = Some category))
              st2 a2 _ L2) as (a3 & st3 & E3 & P3 & L3).
  rewrite bind_run, E3. cbn [header rows] in L3.
  assert (P0 : st `prefix_of` st3).
  { etrans; [apply (prefix_app_r st st [FTable T]); reflexivity|].
    etrans; [exact P1|]. etrans; [exact P2 | exact P3]. }
  rewrite bind_run. unfold selected_year.
  destruct (year_ne_All year).
  - rewrite bind_run. unfold lift.
    destruct (py_int year) as [y | e];
      cbn [mbind result_bind mret result_ret].
    + rewrite (select_run _ st3 a3 _ L3). cbn [header rows].
      eexists. split; [etrans; [exact P0 | now apply prefix_app_r]|].
      eexists. split; [reflexivity|].
      rewrite lookup_fresh. do 3 f_equal.
      apply (matches_steps region segment category (Some y)).
    + exists st3. split; [exact P0 | reflexivity].
  - cbn [mbind result_bind mret result_ret].
    exists st3. split; [exact P0|].
    exists a3. split; [reflexivity|]. etrans; [exact L3|]. do 3 f_equal.
    rewrite <- (matches_steps region segment category None).
    now rewrite filter_true.
Qed.

(** [update] is [query] on the table bound to [DF], and leaves a store that
    extends the one it found. *)
Lemma update_run (st : store) (T : Table) region segment category year :
  st !! DF = Some (FTable T) ->
  (update region segment category year st).1
  = query T region segment category year /\
  st `prefix_of` (update region segment category year st).2.
Proof.
  intros HT. unfold update, query.
  destruct (filter_df_run st T region segment category year HT)
    as (st' & Hpre & Hrun).
  rewrite bind_run.
  destruct (selected_year year) as [y | e].
  - destruct Hrun as (a & -> & Ha).
    destruct (aggregate_run st' a _ Ha) as (ext & ->). cbn [fst snd].
    split; [reflexivity|]. etrans; [exact Hpre | now apply prefix_app_r].
  - rewrite Hrun. split; [reflexivity | exact Hpre].
Qed.

End StoreFacts.

(** ** Guarded ratios *)

(** C1. Every ratio of a query is guarded against a zero denominator: for
    any filtered subset [dff], the empty one among them, [aggregate] does not
    raise; Margin is 0 when Total Sales is 0; AOV is 0 when Orders is 0; the
    Margin of a discount bucket is 0 when the bucket's Sales are 0; and the
    Profit per Order of a ship mode is 0 when the mode has no distinct
    order. *)
Theorem ratios_guarded (st : store) (a : addr) (dff : Table) :
  st !! a = Some (FTable dff) ->
  exists r st', aggregate a st = (Ok r, st') /\
    (total_sales r = 0%Qc -> margin r = 0%Qc) /\
    (orders r = 0%nat -> aov r = 0%Qc) /\
    (forall ds, by_disc r = Some ds ->
       Forall (fun g => d_Sales g = 0%Qc -> d_Margin g = Some 0%Qc) ds) /\
    Forall (fun g => s_Orders g = 0%nat -> s_Profit_per_Order g = Some 0%Qc)
           (by_ship r) /\
    (rows dff = [] -> margin r = 0%Qc /\ aov r = 0%Qc).
Proof.
  intros Ha. destruct (aggregate_run st a dff Ha) as (ext & Hrun).
  exists (aggregate_result dff), (st ++ ext). split; [exact Hrun|].
  unfold aggregate_result.
  cbn [total_sales margin orders aov by_disc by_ship].
  split; [|split; [|split; [|split]]].
  - intros Hz.
    now replace (truthy (sum_skipna (map Sales (rows dff)))) with false
      by (symmetry; now apply truthy_false).
  - intros Hz. now rewrite bool_decide_false by auto.
  - intros ds Hds. case_bool_decide; [|discriminate].
    injection Hds as <-.
    apply Forall_forall. intros g [x [-> _]]%list_elem_of_fmap.
    apply guarded_np_truediv.
  - apply Forall_forall. intros g [x [-> _]]%list_elem_of_fmap.
    unfold with_profit_per_order. cbn [s_Profit_per_Order s_Orders].
    destruct (guarded_np_truediv (ss_Profit x) (Qc_of_nat (ss_Orders x)))
      as [_ H2].
    intros Hz. apply H2. now apply Qc_of_nat_zero.
  - intros ->. cbn. split; reflexivity.
Qed.

(** A query over one line that has a Profit of 5 but no Sales and no Order
    ID: all four guards fire. *)
Lemma ratios_guarded_witness :
  zero_store !! DF = Some (FTable zero_table) /\
  exists r st', aggregate DF zero_store = (Ok r, st') /\
    total_sales r = 0%Qc /\ total_profit r = Q2Qc (inject_Z 5) /\
    margin r = 0%Qc /\
    orders r = 0%nat /\ aov r = 0%Qc /\
    (exists g, by_disc r = Some [g] /\ d_Sales g = 0%Qc /\
               d_Profit g = Q2Qc (inject_Z 5) /\ d_Margin g = Some 0%Qc) /\
    (exists g, by_ship r = [g] /\ s_Orders g = 0%nat /\
               s_Profit g = Q2Qc (inject_Z 5) /\
               s_Profit_per_Order g = Some 0%Qc).
Proof.
  split; [reflexivity|].
  destruct (ratios_guarded zero_store DF zero_table eq_refl)
    as (r & st' & Hrun & Hm & Ha & Hd & Hs & _).
  exists r, st'. split; [exact Hrun|].
  assert (Hr : r = aggregate_result zero_table).
  { destruct (aggregate_run zero_store DF zero_table eq_refl) as (ext & E).
    rewrite E in Hrun. now injection Hrun. }
  assert (Hts : total_sales r = 0%Qc).
  { rewrite Hr. apply Qc_is_canon. reflexivity. }
  assert (Ho : orders r = 0%nat) by (rewrite Hr; reflexivity).
  split; [exact Hts|].
  split; [rewrite Hr; apply Qc_is_canon; reflexivity|].
  split; [exact (Hm Hts)|]. split; [exact Ho|]. split; [exact (Ha Ho)|].
  split.
  - destruct (by_disc r) as [[| g [| g2 ds]] |] eqn:Ed;
      try (rewrite Hr in Ed; vm_compute in Ed; discriminate Ed).
    pose proof (Hd [g] eq_refl) as Hg. apply Forall_inv in Hg.
    assert (Hsg : d_Sales g = 0%Qc /\ d_Profit g = Q2Qc (inject_Z 5)).
    { rewrite Hr in Ed. unfold aggregate_result in Ed. cbn [by_disc] in Ed.
      rewrite bool_decide_true in Ed
        by (apply (bool_decide_unpack _); vm_compute; exact I).
      injection Ed as <-.
      split; apply Qc_is_canon; reflexivity. }
    exists g. split; [reflexivity|]. split; [apply Hsg|].
    split; [apply Hsg | apply Hg, Hsg].
  - destruct (by_ship r) as [| g [| g2 ds]] eqn:Es;
      try (rewrite Hr in Es; vm_compute in Es; discriminate Es).
    apply Forall_inv in Hs.
    assert (Hsg : s_Orders g = 0%nat /\ s_Profit g = Q2Qc (inject_Z 5)).
    { rewrite Hr in Es. unfold aggregate_result in Es. cbn [by_ship] in Es.
      injection Es as <-. split; [reflexivity | apply Qc_is_canon; reflexivity]. }
    exists g. split; [reflexivity|]. split; [apply Hsg|].
    split; [apply Hsg | apply Hs, Hsg].
Defined.

(** Scenario C on the sample store: no row is in the East, so the subset is
    empty, Total Sales is 0, and Margin and AOV are 0. *)
Example empty_subset_query :
  exists r st',
    @update plain_builtins "East" "All" "All" (YInt 2017) sample_store = (Ok r, st') /\
    total_sales r = 0%Qc /\ orders r = 0%nat /\ margin r = 0%Qc /\ aov r = 0%Qc.
Proof.
  destruct (@update plain_builtins "East" "All" "All" (YInt 2017) sample_store)
    as [[r | e] st'] eqn:E.
  - exists r, st'. split; [reflexivity|].
    vm_compute in E. injection E as <- _.
    repeat split; apply Qc_is_canon; reflexivity.
  - exfalso. vm_compute in E. discriminate E.
Qed.

(** ** Selections *)

(** C3. With the all-"All" selection [filter_df] filters out no row: the frame
    it returns is equal to the whole table bound to [DF], [update] does not
    raise, and its result, the five KPIs among it, is the Aggregate Result
    computed over the entire table. *)
Theorem all_selection_is_unfiltered `{Builtins} (st : store) (T : Table) :
  st !! DF = Some (FTable T) ->
  exists a st1 r st2,
    filter_df "All" "All" "All" (YStr "All") st = (Ok a, st1) /\
    st1 !! a = Some (FTable T) /\
    update "All" "All" "All" (YStr "All") st = (Ok r, st2) /\
    r = aggregate_result T /\
    total_sales r = sum_skipna (map Sales (rows T)) /\
    total_profit r = sum_skipna (map Profit (rows T)) /\
    orders r = nunique (map Order_ID (rows T)) /\
    margin r = (if truthy (total_sales r)
                then (total_profit r / total_sales r)%Qc else 0%Qc) /\
    aov r = (if bool_decide (orders r ≠ 0%nat)
             then (total_sales r / Qc_of_nat (orders r))%Qc else 0%Qc).
Proof.
  intros HT.
  assert (Hall : List.filter (matches "All" "All" "All" None) (rows T) = rows T).
  { rewrite <- (filter_true (rows T)) at 2. apply filter_ext. reflexivity. }
  destruct (filter_df_run st T "All" "All" "All" (YStr "All") HT)
    as (st1 & _ & Hrun).
  change (selected_year (YStr "All")) with (Ok (@None Z)) in Hrun.
  destruct Hrun as (a & Hf & Ha). rewrite Hall, Table_eta in Ha.
  destruct (update_run st T "All" "All" "All" (YStr "All") HT) as [Hres _].
  unfold query in Hres.
  change (selected_year (YStr "All")) with (Ok (@None Z)) in Hres.
  cbn [mbind result_bind mret result_ret] in Hres.
  rewrite Hall, Table_eta in Hres.
  destruct (update "All" "All" "All" (YStr "All") st) as [res st2].
  cbn [fst] in Hres. subst res.
  exists a, st1, (aggregate_result T), st2. repeat split; assumption.
Qed.

Lemma all_selection_is_unfiltered_witness :
  sample_store !! DF = Some (FTable sample_table) /\
  exists a st1 r st2,
    @filter_df plain_builtins "All" "All" "All" (YStr "All") sample_store
    = (Ok a, st1) /\
    st1 !! a = Some (FTable sample_table) /\
    @update plain_builtins "All" "All" "All" (YStr "All") sample_store
    = (Ok r, st2) /\
    r = aggregate_result sample_table /\
    total_sales r = sum_skipna (map Sales (rows sample_table)) /\
    total_profit r = sum_skipna (map Profit (rows sample_table)) /\
    orders r = nunique (map Order_ID (rows sample_table)) /\
    margin r = (if truthy (total_sales r)
                then (total_profit r / total_sales r)%Qc else 0%Qc) /\
    aov r = (if bool_decide (orders r ≠ 0%nat)
             then (total_sales r / Qc_of_nat (orders r))%Qc else 0%Qc).
Proof.
  split; [reflexivity|].
  apply (@all_selection_is_unfiltered plain_builtins sample_store sample_table).
  reflexivity.
Defined.

(** C9. A query never changes a frame that existed before it, the table
    bound to [DF] among them: the store after [update] extends the store
    before it, and the only frames [update] assigns into are the ones it has
    created.  The result is a function of the loaded table and the selection
    alone ([query]), so a second identical call, and a call from any other
    store with the same [DF], returns an equal result. *)
Theorem update_pure `{Builtins} (region segment category : string)
    (year : year_arg) (st : store) (T : Table) :
  st !! DF = Some (FTable T) ->
  let out := update region segment category year st in
  st `prefix_of` out.2 /\
  (forall a f, st !! a = Some f -> out.2 !! a = Some f) /\
  out.2 !! DF = Some (FTable T) /\
  out.1 = query T region segment category year /\
  (update region segment category year out.2).1 = out.1 /\
  (forall st2, st2 !! DF = Some (FTable T) ->
               (update region segment category year st2).1 = out.1).
Proof.
  intros HT out. subst out.
  destruct (update_run st T region segment category year HT) as [Hres Hpre].
  assert (Hkeep : forall a f, st !! a = Some f ->
            (update region segment category year st).2 !! a = Some f).
  { intros a f Ha. now apply (prefix_lookup_Some st). }
  split; [exact Hpre|]. split; [exact Hkeep|].
  split; [now apply Hkeep|]. split; [exact Hres|]. split.
  - rewrite Hres. apply update_run. now apply Hkeep.
  - intros st2 H2. rewrite Hres. now apply update_run.
Qed.

Lemma update_pure_witness :
  sample_store !! DF = Some (FTable sample_table) /\
  let out := @update plain_builtins "West" "All" "Furniture" (YStr "2017")
               sample_store in
  out.2 !! DF = Some (FTable sample_table) /\
  (@update plain_builtins "West" "All" "Furniture" (YStr "2017") out.2).1 = out.1.
Proof.
  split; [reflexivity|].
  pose proof (@update_pure plain_builtins "West" "All" "Furniture" (YStr "2017")
                sample_store sample_table eq_refl) as Hp.
  cbv zeta in Hp. destruct Hp as (_ & _ & Hdf & _ & Hagain & _).
  split; [exact Hdf | exact Hagain].
Defined.

(** ** Distinct orders *)

Lemma omap_id_map {A B} (f : A -> option B) (l : list A) :
  omap id (map f l) = omap f l.
Proof.
  induction l as [| a l IH]; [reflexivity|].
  cbn. destruct (f a); cbn; now rewrite IH.
Qed.


(** All the occurrences of one value count for one. *)
Lemma remove_dups_length_one {A} `{EqDecision A} (x : A) (l : list A) :
  x ∈ l ->
  length (remove_dups l)
  = S (length (remove_dups (List.filter (fun y => bool_decide (y ≠ x)) l))).
Proof.
  intros Hin.
  change (S (length (remove_dups (List.filter (fun y => bool_decide (y ≠ x)) l))))
    with (length (x :: remove_dups (List.filter (fun y => bool_decide (y ≠ x)) l))).
  assert (Hf : forall y, y ∈ List.filter (fun y => bool_decide (y ≠ x)) l
                         <-> y ∈ l /\ y ≠ x).
  { intros y. rewrite !list_elem_of_In, filter_In, bool_decide_eq_true.
    reflexivity. }
  apply Permutation_length, NoDup_Permutation.
  - apply NoDup_remove_dups.
  - apply NoDup_cons. split; [|apply NoDup_remove_dups].
    rewrite elem_of_remove_dups, Hf. tauto.
  - intros y. rewrite elem_of_cons, !elem_of_remove_dups, Hf.
    destruct (decide (y = x)) as [-> | Hne]; tauto.
Qed.

Lemma omap_filter_ne (o : string) (rs : list Row) :
  omap Order_ID (List.filter (fun x => bool_decide (Order_ID x ≠ Some o)) rs)
  = List.filter (fun y => bool_decide (y ≠ o)) (omap Order_ID rs).
Proof.
  induction rs as [| r rs IH]; [reflexivity|].
  cbn [List.filter]. destruct (Order_ID r) as [i |] eqn:Hi.
  - destruct (decide (i = o)) as [-> | Hne].
    + rewrite bool_decide_false by auto. cbn. rewrite Hi. cbn.
      rewrite bool_decide_false by auto. exact IH.
    + rewrite bool_decide_true by congruence. cbn. rewrite Hi. cbn.
      rewrite bool_decide_true by auto. now rewrite IH.
  - rewrite bool_decide_true by discriminate. cbn. rewrite Hi. exact IH.
Qed.

(** C8. The Orders KPI is the number of distinct Order ID values of the
    filtered subset: it is the length of a duplicate-free list holding
    exactly the Order IDs that occur, and all the rows that share one Order
    ID (two rows of "US-001", say) add 1 to it together. *)
Theorem orders_counts_distinct (st : store) (a : addr) (dff : Table) :
  st !! a = Some (FTable dff) ->
  exists r st', aggregate a st = (Ok r, st') /\
    (exists ids, NoDup ids /\
       (forall o, o ∈ ids <-> exists x, x ∈ rows dff /\ Order_ID x = Some o) /\
       orders r = length ids) /\
    (forall x o, x ∈ rows dff -> Order_ID x = Some o ->
       orders r
       = S (nunique (map Order_ID
                       (List.filter (fun x => bool_decide (Order_ID x ≠ Some o))
                                    (rows dff))))).
Proof.
  intros Ha. destruct (aggregate_run st a dff Ha) as (ext & Hrun).
  exists (aggregate_result dff), (st ++ ext). split; [exact Hrun|].
  unfold aggregate_result. cbn [orders]. unfold nunique.
  rewrite omap_id_map. split.
  - exists (remove_dups (omap Order_ID (rows dff))).
    split; [apply NoDup_remove_dups|]. split; [|reflexivity].
    intros o. rewrite elem_of_remove_dups, list_elem_of_omap. reflexivity.
  - intros x o Hx Ho. rewrite omap_id_map, omap_filter_ne.
    apply remove_dups_length_one. apply list_elem_of_omap. eauto.
Qed.

(** Scenario D: two rows sharing Order ID "US-001" make one order. *)
Lemma orders_counts_distinct_witness :
  [FTable {| header := needed; rows := [line1; line2] |}] !! DF
  = Some (FTable {| header := needed; rows := [line1; line2] |}) /\
  exists r st',
    aggregate DF [FTable {| header := needed; rows := [line1; line2] |}]
    = (Ok r, st') /\
    orders r = 1%nat.
Proof.
  split; [reflexivity|].
  destruct (orders_counts_distinct
              [FTable {| header := needed; rows := [line1; line2] |}] DF
              {| header := needed; rows := [line1; line2] |} eq_refl)
    as (r & st' & Hrun & _ & Hone).
  exists r, st'. split; [exact Hrun|].
  rewrite (Hone line1 "US-001"); [reflexivity | | reflexivity].
  apply list_elem_of_here.
Defined.

(** ** Missing columns *)



(** * Further properties of the code *)

(** ** [discount_bucket]: the cells behind each bucket *)

(** How the three comparisons of one cell hang together: a NaN is unordered
    with everything, a number at most 0 is below 0.20, and a number at most
    0.20 is below 0.40. *)
Lemma num_compare_chain (x : value) (o0 o20 o40 : option comparison) :
  num_compare x f_zero = Ok o0 ->
  num_compare x f0_20 = Ok o20 ->
  num_compare x f0_40 = Ok o40 ->
  (isna x = true <-> o0 = None) /\
  (o0 = None -> o20 = None /\ o40 = None) /\
  (py_eq0 x = true <-> o0 = Some Eq) /\
  (o0 = Some Lt \/ o0 = Some Eq -> o20 = Some Lt) /\
  (o20 = Some Lt \/ o20 = Some Eq -> o40 = Some Lt) /\
  (o0 = Some Gt -> o20 <> None /\ o40 <> None).
Proof.
  destruct x as [| s | n | f | d]; cbn [num_compare]; try discriminate.
  - rewrite (int_float_compare_literal n f0_20), (int_float_compare_literal n f0_40)
      by auto.
    cbn [int_float_compare f_zero isna py_eq0].
    intros [= <-] [= <-] [= <-].
    destruct (Z.compare_spec n 0) as [-> | Hn | Hn].
    + repeat split; try discriminate; auto.
    + replace (n =? 0) with false by (symmetry; apply Z.eqb_neq; lia).
      replace (n <=? 0) with true by (symmetry; apply Z.leb_le; lia).
      repeat split; try discriminate; auto.
    + replace (n =? 0) with false by (symmetry; apply Z.eqb_neq; lia).
      replace (n <=? 0) with false by (symmetry; apply Z.leb_gt; lia).
      repeat split; try discriminate; auto;
        intros [? | ?]; discriminate.
  - intros [= <-] [= <-] [= <-].
    unfold isna, py_eq0, SFeqb, f0_20, f0_40, f_zero, SFcompare.
    destruct f as [[|] | [|] | | [|] m e];
      try (repeat split; try discriminate; auto;
           intros [? | ?]; discriminate).
    split; [split; discriminate|]. split; [discriminate|].
    split; [split; discriminate|]. split; [intros [? | ?]; discriminate|].
    split; [|intros _; split; discriminate].
    destruct (Z.compare_spec e (-55)) as [-> | He | He].
    + intros _. reflexivity.
    + intros _.
      replace (e ?= -54) with Lt by (symmetry; apply Z.compare_lt_iff; lia).
      reflexivity.
    + intros [? | ?]; discriminate.
Qed.

(** X1. The cells behind each bucket, exactly: "Unknown" holds the cells that
    are no number (missing, NaN, text, dates) and only those; "No Discount"
    the numbers equal to 0; "Low" the numbers other than 0 that are at most
    0.20, the negative ones among them; "Medium" the numbers above 0.20 and at
    most 0.40; "High" the numbers above 0.40. *)
Theorem discount_bucket_preimages (x : value) :
  (discount_bucket x = Unknown <-> is_number x = false) /\
  (discount_bucket x = No_Discount <-> is_number x = true /\ py_eq0 x = true) /\
  (discount_bucket x = Low <->
     (py_lt x f_zero = Ok true \/ py_gt x f_zero = Ok true) /\
     py_le x f0_20 = Ok true) /\
  (discount_bucket x = Medium <->
     py_gt x f0_20 = Ok true /\ py_le x f0_40 = Ok true) /\
  (discount_bucket x = High <-> py_gt x f0_40 = Ok true).
Proof.
  assert (Hnum : forall o0, num_compare x f_zero = Ok o0 ->
                            is_number x = negb (isna x)).
  { destruct x as [| s | n | f | d]; try discriminate; reflexivity. }
  unfold discount_bucket, discount_bucket_try, py_gt, py_lt, py_le.
  destruct (num_compare x f_zero) as [o0 | e0] eqn:E0.
  - destruct (num_compare x f0_20) as [o20 | e20] eqn:E20;
      [| destruct x; discriminate].
    destruct (num_compare x f0_40) as [o40 | e40] eqn:E40;
      [| destruct x; discriminate].
    pose proof (num_compare_chain x o0 o20 o40 E0 E20 E40) as Hchain.
    rewrite (Hnum o0 eq_refl). clear Hnum E0 E20 E40.
    revert Hchain.
    (destruct (isna x); destruct (py_eq0 x);
      destruct o0 as [[| |]|]; destruct o20 as [[| |]|];
      destruct o40 as [[| |]|];
      apply (bool_decide_unpack _); vm_compute; exact I).
  - assert (E20 : num_compare x f0_20 = Raise e0)
      by (destruct x; try discriminate E0; exact E0).
    assert (E40 : num_compare x f0_40 = Raise e0)
      by (destruct x; try discriminate E0; exact E0).
    rewrite E20, E40. clear Hnum E20 E40.
    destruct x as [| s | n | f | d]; try discriminate E0; clear E0;
      apply (bool_decide_unpack _); vm_compute; exact I.
Qed.

(** ** [normalize_columns]: what a header can become *)

Section Headers.

Local Open Scope string_scope.

Lemma nonspace_chars_app (a b : string) :
  nonspace_chars (a ++ b) = (nonspace_chars a ++ nonspace_chars b)%list.
Proof.
  induction a as [| c a IH]; [reflexivity|].
  rewrite string_app_cons. cbn [nonspace_chars].
  destruct (is_space c); [exact IH | now rewrite IH].
Qed.

Lemma nonspace_chars_lstrip (s : string) :
  nonspace_chars (lstrip s) = nonspace_chars s.
Proof.
  induction s as [| c s IH]; [reflexivity|].
  cbn [lstrip nonspace_chars]. destruct (is_space c) eqn:Hc; [exact IH|].
  cbn [nonspace_chars]. now rewrite Hc.
Qed.

Lemma nonspace_chars_rstrip (s : string) :
  nonspace_chars (rstrip s) = nonspace_chars s.
Proof.
  induction s as [| c s IH]; [reflexivity|].
  cbn [rstrip nonspace_chars]. destruct (rstrip s) as [| c' r] eqn:Hr.
  - cbn [nonspace_chars] in IH.
    destruct (is_space c) eqn:Hc; cbn [nonspace_chars]; rewrite ?Hc, <- IH;
      reflexivity.
  - cbn [nonspace_chars] in *. now rewrite IH.
Qed.

Lemma nonspace_chars_concat_cons (t : string) (ts : list string) :
  nonspace_chars (String.concat " " (t :: ts))
  = (nonspace_chars t ++ nonspace_chars (String.concat " " ts))%list.
Proof.
  destruct ts as [| t2 ts]; cbn [String.concat].
  - now rewrite app_nil_r.
  - now rewrite !nonspace_chars_app.
Qed.

Lemma nonspace_chars_split_go (s cur : string) :
  nonspace_chars (String.concat " " (split_go cur s))
  = (nonspace_chars cur ++ nonspace_chars s)%list.
Proof.
  revert cur. induction s as [| c s IH]; intros cur; cbn [split_go].
  - destruct cur; cbn [String.concat nonspace_chars];
      now rewrite ?app_nil_r.
  - cbn [nonspace_chars]. destruct (is_space c) eqn:Hc.
    + destruct cur as [| c0 cur].
      * apply IH.
      * rewrite nonspace_chars_concat_cons. now rewrite IH.
    + rewrite IH, nonspace_chars_app. cbn [nonspace_chars]. rewrite Hc.
      now rewrite <- app_assoc.
Qed.

(** Squeezing a header moves no character other than white space. *)
Lemma nonspace_chars_squeeze (c : string) :
  nonspace_chars (squeeze c) = nonspace_chars c.
Proof.
  unfold squeeze, split, strip. rewrite nonspace_chars_split_go.
  cbn [nonspace_chars app].
  now rewrite nonspace_chars_rstrip, nonspace_chars_lstrip.
Qed.

Lemma tidy_from_token (t rest : string) (b : bool) :
  token t -> tidy_from b (t ++ rest) = tidy_from false rest.
Proof.
  intros [Hne Hns]. revert b. induction t as [| c t IH]; intros b; [congruence|].
  cbn [nospace] in Hns. apply andb_true_iff in Hns as [Hc Hns].
  apply negb_true_iff in Hc.
  rewrite string_app_cons. cbn [tidy_from]. rewrite Hc.
  destruct t as [| c' t']; [reflexivity|].
  apply IH; [discriminate | exact Hns].
Qed.

Lemma tidy_from_concat_tokens (t : string) (ts : list string) :
  Forall token (t :: ts) -> tidy_from true (String.concat " " (t :: ts)) = true.
Proof.
  revert t. induction ts as [| t2 ts IH]; intros t Hts.
  - cbn [String.concat]. rewrite <- (string_app_nil_r t).
    rewrite tidy_from_token by now inversion Hts. reflexivity.
  - change (String.concat " " (t :: t2 :: ts))
      with (t ++ String " " (String.concat " " (t2 :: ts))).
    rewrite tidy_from_token by now inversion Hts.
    cbn [tidy_from]. change (is_space " ") with true. cbv iota.
    rewrite bool_decide_true by reflexivity. cbn [negb andb].
    apply IH. now inversion Hts.
Qed.

Lemma tidy_squeeze (c : string) : tidy (squeeze c) = true.
Proof.
  destruct (squeeze_tokens c) as (ts & Hts & ->).
  destruct ts as [| t ts]; [reflexivity|].
  unfold tidy. destruct (String.concat " " (t :: ts)) eqn:E; [reflexivity|].
  rewrite <- E. now apply tidy_from_concat_tokens.
Qed.

(** The dictionary changes one spelling and nothing else. *)
Lemma alias_cases (c : string) :
  alias c = if decide (c = "Sub Category") then "Sub-Category" else c.
Proof.
  unfold alias. destruct (renames !! c) as [v |] eqn:Hv; cbn [from_option id].
  - apply renames_lookup_items in Hv.
    assert (Hall : Forall (fun kv : string * string =>
                             kv.2 = if decide (kv.1 = "Sub Category")
                                    then "Sub-Category" else kv.1)
                     renames_items).
    { apply (bool_decide_unpack _). vm_compute. exact I. }
    rewrite Forall_forall in Hall. apply (Hall (c, v)).
    now apply list_elem_of_In.
  - destruct (decide (c = "Sub Category")) as [-> | Hne]; [|reflexivity].
    vm_compute in Hv. discriminate Hv.
Qed.

End Headers.

Lemma is_space_ascii (c : ascii) : is_space c = true -> (N_of_ascii c <? 128)%N = true.
Proof.
  unfold is_space. cbv zeta. intros Hc. apply N.ltb_lt.
  apply orb_true_iff in Hc as [Hc | Hc]; apply andb_true_iff in Hc as [_ Hc];
    apply N.leb_le in Hc; lia.
Qed.

(** White space is below 128, so a header is ASCII when its other characters
    are. *)
Lemma ascii_only_nonspace (s : string) :
  ascii_only s = forallb (fun c => (N_of_ascii c <? 128)%N) (nonspace_chars s).
Proof.
  induction s as [| c s IH]; [reflexivity|].
  cbn [ascii_only nonspace_chars]. destruct (is_space c) eqn:Hc.
  - now rewrite (is_space_ascii c Hc), IH.
  - cbn [forallb]. now rewrite IH.
Qed.

Lemma ascii_only_squeeze (c : string) : ascii_only (squeeze c) = ascii_only c.
Proof. now rewrite !ascii_only_nonspace, nonspace_chars_squeeze. Qed.

Lemma ascii_only_alias_squeeze (c : string) :
  ascii_only c = true -> ascii_only (alias (squeeze c)) = true.
Proof.
  intros Hc. rewrite alias_cases.
  destruct (decide (squeeze c = "Sub Category")); [reflexivity|].
  now rewrite ascii_only_squeeze.
Qed.

(** X2. [normalize_columns] works header by header and leaves the data
    alone: the frame keeps its cells and its number of columns, and an ASCII
    header at any position becomes its squeezed form (same characters, white
    space apart), again ASCII, except that the squeezed spelling "Sub
    Category" becomes "Sub-Category". *)
Theorem normalize_columns_pointwise (df : DataFrame) :
  data (normalize_columns df) = data df /\
  length (columns (normalize_columns df)) = length (columns df) /\
  forall i c, columns df !! i = Some c -> ascii_only c = true ->
    exists c',
      columns (normalize_columns df) !! i = Some c' /\
      ascii_only c' = true /\
      (squeeze c = "Sub Category" -> c' = "Sub-Category") /\
      (squeeze c <> "Sub Category" ->
       c' = squeeze c /\ nonspace_chars c' = nonspace_chars c).
Proof.
  split; [reflexivity|]. rewrite normalize_columns_columns.
  split; [apply length_map|].
  intros i c Hi Hc. exists (alias (squeeze c)).
  split; [|split].
  - change (map (fun c0 => alias (squeeze c0)) (columns df))
      with ((fun c0 => alias (squeeze c0)) <$> columns df).
    now rewrite list_lookup_fmap, Hi.
  - now apply ascii_only_alias_squeeze.
  - rewrite alias_cases. split; intros Hs.
    + now rewrite decide_True.
    + rewrite decide_False by exact Hs.
      split; [reflexivity | apply nonspace_chars_squeeze].
Qed.

Lemma normalize_columns_pointwise_witness :
  columns sample_raw !! 0%nat = Some " Order ID" /\
  columns sample_raw !! 1%nat = Some "Sub Category" /\
  ascii_only " Order ID" = true /\
  ascii_only "Sub Category" = true /\
  columns (normalize_columns sample_raw) !! 0%nat = Some "Order ID" /\
  columns (normalize_columns sample_raw) !! 1%nat = Some "Sub-Category".
Proof.
  destruct (normalize_columns_pointwise sample_raw) as (_ & _ & H).
  destruct (H 0%nat " Order ID" eq_refl eq_refl) as (c0 & E0 & _ & _ & H0).
  destruct (H 1%nat "Sub Category" eq_refl eq_refl) as (c1 & E1 & _ & H1 & _).
  split; [reflexivity|]. split; [reflexivity|].
  split; [reflexivity|]. split; [reflexivity|]. split.
  - rewrite E0. f_equal. apply H0. vm_compute. discriminate.
  - rewrite E1. f_equal. now apply H1.
Defined.

(** X3. Every header [normalize_columns] makes of an ASCII header is tidy and
    ASCII: no white space at either end, and no white space inside but
    single blanks. *)
Theorem normalize_columns_tidy (df : DataFrame) :
  Forall (fun c => ascii_only c = true) (columns df) ->
  Forall (fun c => tidy c = true /\ ascii_only c = true)
         (columns (normalize_columns df)).
Proof.
  intros Hall. rewrite normalize_columns_columns. apply Forall_forall.
  intros c' Hc'. apply list_elem_of_In, in_map_iff in Hc' as (c & <- & Hc).
  rewrite Forall_forall in Hall. apply list_elem_of_In in Hc.
  split; [|now apply ascii_only_alias_squeeze, Hall].
  rewrite alias_cases. destruct (decide (squeeze c = "Sub Category")).
  - reflexivity.
  - apply tidy_squeeze.
Qed.

Lemma normalize_columns_tidy_witness :
  Forall (fun c => ascii_only c = true) (columns sample_raw) /\
  columns (normalize_columns sample_raw)
  = ["Order ID"; "Sub-Category"; "Sales"; "Discount"] /\
  Forall (fun c => tidy c = true /\ ascii_only c = true)
         (columns (normalize_columns sample_raw)).
Proof.
  assert (Hall : Forall (fun c => ascii_only c = true) (columns sample_raw)).
  { repeat constructor. }
  split; [exact Hall|]. split; [vm_compute; reflexivity|].
  exact (normalize_columns_tidy sample_raw Hall).
Defined.

(** ** [main]: the columns of the cleaned CSV *)

Lemma index_of_lookup (col : string) (cols : list string) (i : nat) :
  index_of col cols = Some i -> cols !! i = Some col.
Proof.
  revert i. induction cols as [| c cols IH]; intros i; cbn [index_of].
  - discriminate.
  - destruct (decide (c = col)) as [-> | Hne].
    + now intros [= <-].
    + destruct (index_of col cols) as [j |]; cbn; [|discriminate].
      intros [= <-]. cbn. now apply IH.
Qed.

Lemma index_of_None (col : string) (cols : list string) :
  index_of col cols = None <-> col ∉ cols.
Proof.
  induction cols as [| c cols IH]; cbn [index_of].
  - split; [intros _; apply not_elem_of_nil | reflexivity].
  - rewrite not_elem_of_cons. destruct (decide (c = col)) as [-> | Hne].
    + split; [discriminate | intros [? _]; congruence].
    + destruct (index_of col cols) as [j |]; cbn.
      * split; [discriminate|]. intros [_ Hn]. now apply IH in Hn.
      * split; [|reflexivity]. intros _. split; [congruence | now apply IH].
Qed.

Lemma index_of_Some (col : string) (cols : list string) :
  col ∈ cols -> exists i, index_of col cols = Some i.
Proof.
  intros Hin. destruct (index_of col cols) as [i |] eqn:E; [eauto|].
  now apply index_of_None in E.
Qed.

Lemma index_of_app (c : string) (cols l : list string) (i : nat) :
  index_of c cols = Some i -> index_of c (cols ++ l) = Some i.
Proof.
  revert i. induction cols as [| x cols IH]; intros i; cbn [index_of app].
  - discriminate.
  - destruct (decide (x = c)); [trivial|].
    destruct (index_of c cols) as [j |]; cbn; [|discriminate].
    intros [= <-]. now rewrite (IH j eq_refl).
Qed.

Lemma index_of_app_new (col : string) (cols : list string) :
  col ∉ cols -> index_of col (cols ++ [col]) = Some (length cols).
Proof.
  induction cols as [| x cols IH]; intros Hn; cbn [index_of app length].
  - now rewrite decide_True.
  - apply not_elem_of_cons in Hn as [Hne Hn].
    rewrite decide_False by congruence. now rewrite (IH Hn).
Qed.

Lemma index_of_app_other (c col : string) (cols : list string) :
  c <> col -> index_of c cols = None -> index_of c (cols ++ [col]) = None.
Proof.
  intros Hne Hn. apply index_of_None. apply index_of_None in Hn.
  rewrite elem_of_app, list_elem_of_singleton. tauto.
Qed.

Lemma has_column_index (col : string) (df : DataFrame) :
  has_column col df = true <-> exists i, index_of col (columns df) = Some i.
Proof.
  unfold has_column. rewrite bool_decide_eq_true. split.
  - apply index_of_Some.
  - intros [i Hi]. destruct (decide (col ∈ columns df)) as [|Hn]; [assumption|].
    apply index_of_None in Hn. congruence.
Qed.

Lemma rectangular_spec (df : DataFrame) :
  rectangular df = true
  <-> forall k r, data df !! k = Some r -> length r = length (columns df).
Proof.
  unfold rectangular. rewrite forallb_forall. split.
  - intros Hall k r Hk. apply Nat.eqb_eq, Hall.
    apply list_elem_of_In. eapply list_elem_of_lookup_2, Hk.
  - intros Hall r Hr. apply Nat.eqb_eq.
    apply list_elem_of_In, list_elem_of_lookup_1 in Hr as [k Hk]. eauto.
Qed.

(** A column assignment appends a new label and keeps an existing one in
    place. *)
Lemma setitem_columns (col : string) (vals : list value) (df : DataFrame) :
  columns (setitem col vals df) = add_label col (columns df).
Proof.
  unfold setitem, add_label.
  destruct (index_of col (columns df)) as [i |] eqn:E; cbn [columns].
  - rewrite bool_decide_true; [reflexivity|].
    eapply list_elem_of_lookup_2, index_of_lookup, E.
  - rewrite bool_decide_false; [reflexivity|]. now apply index_of_None.
Qed.

Lemma setitem_rectangular (col : string) (vals : list value) (df : DataFrame) :
  rectangular df = true -> rectangular (setitem col vals df) = true.
Proof.
  rewrite !rectangular_spec. intros Hr k r. unfold setitem.
  destruct (index_of col (columns df)) as [i |]; cbn [columns data];
    rewrite list_lookup_imap; destruct (data df !! k) as [r0 |] eqn:Hk;
    cbn; try discriminate; intros [= <-].
  - rewrite length_insert. eauto.
  - rewrite !length_app. cbn. f_equal. eauto.
Qed.

(** Reading back the column just assigned gives the assigned values. *)
Lemma getitem_setitem (col : string) (vals : list value) (df : DataFrame) :
  rectangular df = true -> length vals = length (data df) ->
  getitem col (setitem col vals df) = vals.
Proof.
  rewrite rectangular_spec. intros Hr Hlen. unfold getitem, setitem.
  destruct (index_of col (columns df)) as [i |] eqn:E; cbn [columns data].
  - rewrite E. apply list_eq. intros k.
    change (map ?f ?l) with (f <$> l).
    rewrite list_lookup_fmap, list_lookup_imap.
    destruct (data df !! k) as [r |] eqn:Hk; cbn.
    + assert (Hi : (i < length r)%nat).
      { rewrite (Hr k r Hk). eapply lookup_lt_Some, index_of_lookup, E. }
      rewrite list_lookup_insert_eq by exact Hi. cbn.
      destruct (vals !! k) as [v |] eqn:Hv; [reflexivity|].
      apply lookup_ge_None in Hv. apply lookup_lt_Some in Hk. lia.
    + symmetry. apply lookup_ge_None. apply lookup_ge_None in Hk. lia.
  - apply index_of_None in E. rewrite (index_of_app_new _ _ E).
    apply list_eq. intros k.
    change (map ?f ?l) with (f <$> l).
    rewrite list_lookup_fmap, list_lookup_imap.
    destruct (data df !! k) as [r |] eqn:Hk; cbn.
    + rewrite <- (Hr k r Hk).
      rewrite (list_lookup_middle r [] _ (length r) eq_refl). cbn.
      destruct (vals !! k) as [v |] eqn:Hv; [reflexivity|].
      apply lookup_ge_None in Hv. apply lookup_lt_Some in Hk. lia.
    + symmetry. apply lookup_ge_None. apply lookup_ge_None in Hk. lia.
Qed.

(** Assigning one column leaves every other column as it was. *)
Lemma getitem_setitem_ne (c col : string) (vals : list value) (df : DataFrame) :
  c <> col -> has_column col df = true \/ rectangular df = true ->
  getitem c (setitem col vals df) = getitem c df.
Proof.
  intros Hne Hor. unfold getitem, setitem.
  destruct (index_of col (columns df)) as [j |] eqn:E; cbn [columns data].
  - destruct (index_of c (columns df)) as [i |] eqn:Ec; [|reflexivity].
    assert (Hij : i <> j).
    { intros ->. apply index_of_lookup in E, Ec. congruence. }
    apply list_eq. intros k. change (map ?f ?l) with (f <$> l).
    rewrite !list_lookup_fmap, list_lookup_imap.
    destruct (data df !! k) as [r |]; [|reflexivity]. cbn.
    now rewrite list_lookup_insert_ne by auto.
  - destruct Hor as [Hc | Hr].
    { apply has_column_index in Hc as [i Hi]. congruence. }
    rewrite rectangular_spec in Hr.
    destruct (index_of c (columns df)) as [i |] eqn:Ec.
    + rewrite (index_of_app _ _ _ _ Ec).
      apply list_eq. intros k. change (map ?f ?l) with (f <$> l).
      rewrite !list_lookup_fmap, list_lookup_imap.
      destruct (data df !! k) as [r |] eqn:Hk; [|reflexivity]. cbn.
      rewrite lookup_app_l; [reflexivity|].
      rewrite (Hr k r Hk). eapply lookup_lt_Some, index_of_lookup, Ec.
    + now rewrite (index_of_app_other c col _ Hne Ec).
Qed.

Lemma getitem_length (c : string) (df : DataFrame) :
  has_column c df = true -> length (getitem c df) = length (data df).
Proof.
  intros [i Hi]%has_column_index. unfold getitem. rewrite Hi.
  apply length_map.
Qed.

Lemma has_column_columns (c : string) (df df' : DataFrame) :
  columns df' = columns df -> has_column c df' = has_column c df.
Proof. unfold has_column. now intros ->. Qed.

Lemma add_label_present (c : string) (cols : list string) :
  c ∈ cols -> add_label c cols = cols.
Proof. intros Hin. unfold add_label. now rewrite bool_decide_true. Qed.

(** An assignment to a column the frame has keeps the header, the shape, and
    the other columns. *)
Lemma setitem_inplace (col : string) (vals : list value) (df : DataFrame) :
  has_column col df = true ->
  columns (setitem col vals df) = columns df /\
  (rectangular df = true -> rectangular (setitem col vals df) = true) /\
  (forall c, c <> col -> getitem c (setitem col vals df) = getitem c df).
Proof.
  intros Hc. split; [|split].
  - rewrite setitem_columns. apply add_label_present.
    unfold has_column in Hc. now apply bool_decide_eq_true in Hc.
  - apply setitem_rectangular.
  - intros c Hne. apply getitem_setitem_ne; auto.
Qed.

Lemma convert_columns_keeps (conv : list value -> list value)
    (cols : list string) (df : DataFrame) :
  columns (convert_columns conv cols df) = columns df /\
  (rectangular df = true -> rectangular (convert_columns conv cols df) = true) /\
  (forall c, c ∉ cols -> getitem c (convert_columns conv cols df) = getitem c df).
Proof.
  unfold convert_columns. revert df.
  induction cols as [| col cols IH]; intros df; cbn [foldl].
  - auto.
  - match goal with |- context [foldl _ ?d cols] => set (df1 := d) end.
    assert (H1 : columns df1 = columns df /\
                 (rectangular df = true -> rectangular df1 = true) /\
                 (forall c, c <> col -> getitem c df1 = getitem c df)).
    { subst df1. destruct (has_column col df) eqn:Hc.
      - now apply setitem_inplace.
      - auto. }
    destruct H1 as (Hcols & Hrect & Hget).
    destruct (IH df1) as (IHc & IHr & IHg).
    split; [congruence|]. split; [auto|].
    intros c [Hne Hnin]%not_elem_of_cons.
    rewrite IHg by exact Hnin. now apply Hget.
Qed.

Lemma not_elem_of_weaken (c : string) (l1 l2 : list string) :
  forallb (fun x => bool_decide (x ∈ l2)) l1 = true -> c ∉ l2 -> c ∉ l1.
Proof.
  intros Hall Hn Hin. apply Hn.
  rewrite forallb_forall in Hall. apply list_elem_of_In in Hin.
  apply Hall in Hin. now apply bool_decide_eq_true in Hin.
Qed.

Section CleanedFacts.

Context `{Library}.

(** The frame [main] hands to the helper-field step: the reconciled header,
    the shape of the raw frame, and the columns no conversion names as they
    were after the blank rows went. *)
Lemma main_ok (raw : DataFrame) (d : Disk) (rc : Z) (d' : Disk) :
  main (Ok raw) d = (Ok rc, d') ->
  exists pc,
    d' = written (helper_fields pc) /\
    columns pc = columns (normalize_columns raw) /\
    (rectangular raw = true -> rectangular pc = true) /\
    (forall c, c ∉ converted ->
               getitem c pc = getitem c (dropna_all (normalize_columns raw))).
Proof.
  rewrite main_unfold. intros Hm.
  assert (Hco : columns (coerced raw) = columns (normalize_columns raw) /\
                (rectangular raw = true -> rectangular (coerced raw) = true) /\
                (forall c, c ∉ converted ->
                   getitem c (coerced raw)
                   = getitem c (dropna_all (normalize_columns raw)))).
  { unfold coerced.
    destruct (convert_columns_keeps to_datetime_coerce
                ["Order Date"; "Ship Date"] (dropna_all (normalize_columns raw)))
      as (C1 & R1 & G1).
    destruct (convert_columns_keeps to_numeric_coerce
                ["Sales"; "Profit"; "Discount"; "Quantity"]
                (convert_columns to_datetime_coerce ["Order Date"; "Ship Date"]
                   (dropna_all (normalize_columns raw))))
      as (C2 & R2 & G2).
    split; [now rewrite C2, C1|]. split.
    - intros Hr. apply R2, R1. revert Hr. rewrite !rectangular_spec.
      intros Hr k r Hk. cbn [dropna_all columns data] in *.
      apply list_elem_of_lookup_2, list_elem_of_In, filter_In in Hk as [Hk _].
      apply list_elem_of_In, list_elem_of_lookup_1 in Hk as [k' Hk'].
      rewrite normalize_columns_columns, length_map. eauto.
    - intros c Hc. unfold converted in Hc.
      rewrite G2, G1; [reflexivity | |];
        apply (not_elem_of_weaken c _ converted); try exact Hc;
        vm_compute; reflexivity. }
  destruct Hco as (Cc & Rc & Gc).
  destruct (has_column "Postal Code" (coerced raw)) eqn:Hpc.
  - destruct (astype_Int64 (getitem "Postal Code" (coerced raw))) as [v | e];
      [|discriminate].
    injection Hm as _ <-.
    destruct (setitem_inplace "Postal Code" v (coerced raw) Hpc)
      as (Cp & Rp & Gp).
    eexists. split; [reflexivity|]. split; [congruence|]. split; [auto|].
    intros c Hc. rewrite Gp, Gc; [reflexivity | exact Hc |].
    intros ->. apply Hc. apply (bool_decide_unpack _). vm_compute. exact I.
  - injection Hm as _ <-. eexists. split; [reflexivity|]. auto.
Qed.

End CleanedFacts.

Section CleanedColumns.

Context `{Library}.

Lemma add_label_prefix (c : string) (cols : list string) :
  cols `prefix_of` add_label c cols.
Proof.
  unfold add_label. case_bool_decide; [reflexivity | now apply prefix_app_r].
Qed.

Lemma elem_of_add_label (c x : string) (cols : list string) :
  x ∈ add_label c cols <-> x ∈ cols \/ x = c.
Proof.
  unfold add_label. case_bool_decide.
  - split; [auto | intros [? | ->]; assumption].
  - now rewrite elem_of_app, list_elem_of_singleton.
Qed.

(** The header after the two helper-field steps. *)
Lemma helper_fields_columns (df : DataFrame) :
  columns (helper_fields df)
  = (if bool_decide ("Discount" ∈ columns df)
     then add_label "Discount Bucket" else id)
      ((if bool_decide ("Order Date" ∈ columns df)
           && bool_decide ("Ship Date" ∈ columns df)
        then add_label "Ship Days" else id) (columns df)).
Proof.
  unfold helper_fields, has_column.
  destruct (bool_decide ("Order Date" ∈ columns df)
            && bool_decide ("Ship Date" ∈ columns df)); cbv beta.
  - rewrite setitem_columns.
    assert (E : bool_decide ("Discount" ∈ add_label "Ship Days" (columns df))
                = bool_decide ("Discount" ∈ columns df)).
    { apply bool_decide_ext. rewrite elem_of_add_label.
      split; [intros [? | ?]; [assumption | discriminate] | auto]. }
    rewrite E. destruct (bool_decide ("Discount" ∈ columns df));
      rewrite ?setitem_columns; reflexivity.
  - destruct (bool_decide ("Discount" ∈ columns df));
      rewrite ?setitem_columns; reflexivity.
Qed.

End CleanedColumns.

(** X4. The header of the cleaned CSV is the reconciled raw header, in the
    same order, with "Ship Days" added at the end when both date columns are
    there and then "Discount Bucket" when "Discount" is there (a label the
    header already has stays where it is).  No column is dropped or moved. *)
Theorem main_header `{Library} (raw : DataFrame) (d : Disk) (rc : Z) (d' : Disk) :
  main (Ok raw) d = (Ok rc, d') ->
  exists cleaned,
    superstore_cleaned_csv d' = Some cleaned /\
    columns cleaned
    = (if bool_decide ("Discount" ∈ columns (normalize_columns raw))
       then add_label "Discount Bucket" else id)
        ((if bool_decide ("Order Date" ∈ columns (normalize_columns raw))
             && bool_decide ("Ship Date" ∈ columns (normalize_columns raw))
          then add_label "Ship Days" else id) (columns (normalize_columns raw))) /\
    columns (normalize_columns raw) `prefix_of` columns cleaned.
Proof.
  intros Hm. apply main_ok in Hm as (pc & -> & Hc & _ & _).
  eexists. split; [reflexivity|].
  assert (E : columns (helper_fields pc)
              = (if bool_decide ("Discount" ∈ columns (normalize_columns raw))
                 then add_label "Discount Bucket" else id)
                  ((if bool_decide ("Order Date" ∈ columns (normalize_columns raw))
                       && bool_decide ("Ship Date" ∈ columns (normalize_columns raw))
                    then add_label "Ship Days" else id)
                     (columns (normalize_columns raw)))).
  { rewrite helper_fields_columns. now rewrite Hc. }
  split; [exact E|]. rewrite E.
  destruct (bool_decide ("Discount" ∈ columns (normalize_columns raw)));
    destruct (bool_decide ("Order Date" ∈ columns (normalize_columns raw))
              && bool_decide ("Ship Date" ∈ columns (normalize_columns raw)));
    cbv beta; unfold id;
    repeat (etrans; [|apply add_label_prefix]); reflexivity.
Qed.

Lemma main_header_witness :
  exists d' cleaned,
    @main plain_library (Ok sample_raw) empty_disk = (Ok 0, d') /\
    superstore_cleaned_csv d' = Some cleaned /\
    columns cleaned
    = ["Order ID"; "Sub-Category"; "Sales"; "Discount"; "Discount Bucket"].
Proof.
  destruct (@main plain_library (Ok sample_raw) empty_disk) as [r d'] eqn:E.
  assert (Hr : r = Ok 0).
  { apply (f_equal fst) in E. vm_compute in E. now subst r. }
  subst r.
  destruct (@main_header plain_library sample_raw empty_disk 0 d' E)
    as (cleaned & Hc & Hcols & _).
  exists d', cleaned. split; [reflexivity|]. split; [exact Hc|].
  rewrite Hcols. vm_compute. reflexivity.
Defined.

(** ** [main]: the cells of the cleaned CSV *)

Lemma discount_bucket_literal (x : value) : discount_bucket x ∈ bucket_literals.
Proof.
  unfold discount_bucket, discount_bucket_try, bucket_literals.
  destruct (isna x); [|destruct (py_eq0 x);
    [|destruct (py_le x f0_20) as [[|] | e1];
      [| destruct (py_le x f0_40) as [[|] | e2] |]]];
    cbn [try_except mbind result_bind mret result_ret];
    rewrite !elem_of_cons; auto 10.
Qed.

Lemma has_column_setitem (c col : string) (vals : list value) (df : DataFrame) :
  has_column c (setitem col vals df) = true
  <-> has_column c df = true \/ c = col.
Proof.
  unfold has_column. rewrite !bool_decide_eq_true, setitem_columns.
  apply elem_of_add_label.
Qed.

Section CleanedCells.

Context `{Library}.

(** The two helper-field steps keep the shape and every other column, and
    the second one fills "Discount Bucket" from the "Discount" column. *)
Lemma helper_fields_cells (pc : DataFrame) :
  rectangular pc = true ->
  rectangular (helper_fields pc) = true /\
  (forall c, c <> "Ship Days" -> c <> "Discount Bucket" ->
             getitem c (helper_fields pc) = getitem c pc) /\
  (has_column "Discount" pc = true ->
   has_column "Discount Bucket" (helper_fields pc) = true /\
   getitem "Discount Bucket" (helper_fields pc)
   = map (fun x => VStr (discount_bucket x))
         (getitem "Discount" (helper_fields pc))).
Proof.
  intros Hr. unfold helper_fields.
  set (df1 := if has_column "Order Date" pc && has_column "Ship Date" pc
              then setitem "Ship Days"
                     (dt_days_between (getitem "Ship Date" pc)
                        (getitem "Order Date" pc)) pc
              else pc).
  assert (H1 : rectangular df1 = true /\
               (forall c, c <> "Ship Days" -> getitem c df1 = getitem c pc) /\
               (has_column "Discount" pc = true
                -> has_column "Discount" df1 = true)).
  { subst df1. destruct (has_column "Order Date" pc && has_column "Ship Date" pc).
    - split; [now apply setitem_rectangular|]. split.
      + intros c Hne. apply getitem_setitem_ne; auto.
      + intros Hd. apply has_column_setitem. now left.
    - auto. }
  destruct H1 as (R1 & G1 & D1).
  destruct (has_column "Discount" df1) eqn:Hd.
  - split; [now apply setitem_rectangular|]. split.
    + intros c Hs Hb. rewrite getitem_setitem_ne by auto. now apply G1.
    + intros _. split; [apply has_column_setitem; now right|].
      rewrite getitem_setitem; [| exact R1 |].
      * rewrite (getitem_setitem_ne "Discount" "Discount Bucket");
          [reflexivity | discriminate | now right].
      * rewrite length_map. now apply getitem_length.
  - split; [exact R1|]. split.
    + intros c Hs _. now apply G1.
    + intros Hp. apply D1 in Hp. discriminate Hp.
Qed.

End CleanedCells.

(** X5. When the reconciled header has "Discount", the cleaned CSV has a
    "Discount Bucket" column with one cell per row, and the cell of each row
    is [discount_bucket] of the "Discount" cell written in the same row: one
    of the five bucket labels.  The cleaned frame is rectangular like the raw
    one. *)
Theorem main_discount_bucket_column `{Library} (raw : DataFrame) (d : Disk)
    (rc : Z) (d' : Disk) :
  rectangular raw = true ->
  has_column "Discount" (normalize_columns raw) = true ->
  main (Ok raw) d = (Ok rc, d') ->
  exists cleaned,
    superstore_cleaned_csv d' = Some cleaned /\
    rectangular cleaned = true /\
    has_column "Discount Bucket" cleaned = true /\
    length (getitem "Discount Bucket" cleaned) = length (data cleaned) /\
    getitem "Discount Bucket" cleaned
    = map (fun x => VStr (discount_bucket x)) (getitem "Discount" cleaned) /\
    Forall (fun v => exists b, v = VStr b /\ b ∈ bucket_literals)
           (getitem "Discount Bucket" cleaned).
Proof.
  intros Hr Hd Hm. apply main_ok in Hm as (pc & -> & Hc & Hrp & _).
  rewrite <- (has_column_columns "Discount" _ pc Hc) in Hd.
  destruct (helper_fields_cells pc (Hrp Hr)) as (R & _ & Hb).
  destruct (Hb Hd) as (Hhas & Hcol).
  eexists. split; [reflexivity|]. split; [exact R|]. split; [exact Hhas|].
  split; [now apply getitem_length|]. split; [exact Hcol|].
  rewrite Hcol. apply Forall_forall. intros v Hv.
  apply list_elem_of_In, in_map_iff in Hv as (x & <- & _).
  eexists. split; [reflexivity | apply discount_bucket_literal].
Qed.

Lemma main_discount_bucket_column_witness :
  rectangular sample_raw = true /\
  has_column "Discount" (normalize_columns sample_raw) = true /\
  exists d' cleaned,
    @main plain_library (Ok sample_raw) empty_disk = (Ok 0, d') /\
    superstore_cleaned_csv d' = Some cleaned /\
    getitem "Discount Bucket" cleaned = [VStr Low; VStr No_Discount].
Proof.
  split; [reflexivity|]. split; [reflexivity|].
  destruct (@main plain_library (Ok sample_raw) empty_disk) as [r d'] eqn:E.
  assert (Hr : r = Ok 0).
  { apply (f_equal fst) in E. vm_compute in E. now subst r. }
  subst r.
  destruct (@main_discount_bucket_column plain_library sample_raw empty_disk 0 d'
              eq_refl eq_refl E) as (cleaned & Hc & _ & _ & _ & Hcol & _).
  exists d', cleaned. split; [reflexivity|]. split; [exact Hc|].
  rewrite Hcol.
  assert (Hd : superstore_cleaned_csv d'
               = superstore_cleaned_csv
                   (snd (@main plain_library (Ok sample_raw) empty_disk))).
  { now rewrite E. }
  rewrite Hc in Hd. vm_compute in Hd. injection Hd as ->.
  vm_compute. reflexivity.
Defined.

(** X6. A column that no step of [main] names (none of the seven converted
    columns, and neither helper field) is written as it was read: its cells
    in the cleaned CSV are its cells in the reconciled raw frame, the fully
    blank rows left out. *)
Theorem main_keeps_other_columns `{Library} (raw : DataFrame) (d : Disk)
    (rc : Z) (d' : Disk) (c : string) :
  rectangular raw = true ->
  c ∉ converted -> c <> "Ship Days" -> c <> "Discount Bucket" ->
  main (Ok raw) d = (Ok rc, d') ->
  exists cleaned,
    superstore_cleaned_csv d' = Some cleaned /\
    getitem c cleaned = getitem c (dropna_all (normalize_columns raw)).
Proof.
  intros Hr Hc Hs Hb Hm. apply main_ok in Hm as (pc & -> & _ & Hrp & Hg).
  destruct (helper_fields_cells pc (Hrp Hr)) as (_ & Hk & _).
  eexists. split; [reflexivity|]. rewrite Hk by assumption. now apply Hg.
Qed.

Lemma main_keeps_other_columns_witness :
  rectangular sample_raw = true /\
  exists d' cleaned,
    @main plain_library (Ok sample_raw) empty_disk = (Ok 0, d') /\
    superstore_cleaned_csv d' = Some cleaned /\
    getitem "Sub-Category" cleaned = [VStr "Chairs"; VStr "Paper"].
Proof.
  split; [reflexivity|].
  destruct (@main plain_library (Ok sample_raw) empty_disk) as [r d'] eqn:E.
  assert (Hr : r = Ok 0).
  { apply (f_equal fst) in E. vm_compute in E. now subst r. }
  subst r.
  assert (Hn : "Sub-Category" ∉ converted).
  { apply (bool_decide_unpack _). vm_compute. exact I. }
  destruct (@main_keeps_other_columns plain_library sample_raw empty_disk 0 d'
              "Sub-Category" eq_refl Hn ltac:(discriminate) ltac:(discriminate) E)
    as (cleaned & Hc & Hcol).
  exists d', cleaned. split; [reflexivity|]. split; [exact Hc|].
  rewrite Hcol. vm_compute. reflexivity.
Defined.

(** ** [main]: the profiling report *)

Lemma remove_dups_length_le {A} `{EqDecision A} (l : list A) :
  (length (remove_dups l) <= length l)%nat.
Proof.
  apply submseteq_length, NoDup_submseteq; [apply NoDup_remove_dups|].
  intros x. now rewrite elem_of_remove_dups.
Qed.

(** The distinct keys of a column are its distinct present values, and one
    more key when some cell is missing. *)
Lemma na_key_count (col : list value) :
  length (remove_dups (map na_key col))
  = (nunique_values col + (if existsb isna col then 1 else 0))%nat.
Proof.
  unfold nunique_values.
  transitivity (length ((if existsb isna col then [VNone] else [])
                        ++ remove_dups (List.filter (fun v => negb (isna v)) col))).
  2:{ rewrite length_app. destruct (existsb isna col); cbn [length]; lia. }
  apply Permutation_length, NoDup_Permutation.
  - apply NoDup_remove_dups.
  - apply NoDup_app. split; [|split; [|apply NoDup_remove_dups]].
    + destruct (existsb isna col); [apply NoDup_singleton | apply NoDup_nil_2].
    + intros x Hx Hin.
      apply elem_of_remove_dups, list_elem_of_In, filter_In in Hin as [_ Hn].
      destruct (existsb isna col); [|now apply elem_of_nil in Hx].
      apply list_elem_of_singleton in Hx. subst x. discriminate Hn.
  - intros x. rewrite elem_of_remove_dups, elem_of_app, elem_of_remove_dups.
    rewrite !list_elem_of_In, in_map_iff, filter_In. split.
    + intros (v & <- & Hv). unfold na_key. destruct (isna v) eqn:Hna.
      * left. assert (E : existsb isna col = true).
        { apply existsb_exists. eauto. }
        rewrite E. now left.
      * right. now rewrite Hna.
    + intros [Hx | [Hx Hn]].
      * destruct (existsb isna col) eqn:E; [|destruct Hx].
        destruct Hx as [<- | []].
        apply existsb_exists in E as (v & Hv & Hna).
        exists v. split; [|exact Hv]. unfold na_key. now rewrite Hna.
      * exists x. split; [|exact Hx]. unfold na_key.
        apply negb_true_iff in Hn. now rewrite Hn.
Qed.

Lemma add_label_NoDup (c : string) (cols : list string) :
  NoDup cols -> NoDup (add_label c cols).
Proof.
  intros Hnd. unfold add_label. case_bool_decide as Hc; [exact Hnd|].
  apply NoDup_app. split; [exact Hnd|]. split; [|apply NoDup_singleton].
  intros x Hx Hin. apply list_elem_of_singleton in Hin. now subst x.
Qed.

Lemma helper_fields_NoDup `{Library} (df : DataFrame) :
  NoDup (columns df) -> NoDup (columns (helper_fields df)).
Proof.
  intros Hnd. rewrite helper_fields_columns.
  destruct (bool_decide ("Discount" ∈ columns df));
    destruct (bool_decide ("Order Date" ∈ columns df)
              && bool_decide ("Ship Date" ∈ columns df));
    cbv beta; unfold id; repeat apply add_label_NoDup; exact Hnd.
Qed.

(** X7. For a raw frame whose reconciled labels are pairwise distinct (a
    repeated label makes [df[col]] a sub-frame), the labels of the cleaned
    CSV are distinct too and the report agrees with the file written beside
    it: its "rows" and "columns" lines give the shape of the cleaned CSV, and
    when there is an "Order ID" column the lines "unique_order_ids" and
    "duplicate_order_id_rows" add up to the row count, less one when some
    Order ID is missing (all missing IDs count as one key that is not an
    order).  At most 25 null counts are listed. *)
Theorem main_profile_counts `{Library} (raw : DataFrame) (d : Disk)
    (rc : Z) (d' : Disk) :
  NoDup (columns (normalize_columns raw)) ->
  main (Ok raw) d = (Ok rc, d') ->
  exists cleaned p,
    superstore_cleaned_csv d' = Some cleaned /\
    profiling_summary_txt d' = Some p /\
    NoDup (columns cleaned) /\
    summary p !! 0%nat = Some ("rows", VInt (Z.of_nat (length (data cleaned)))) /\
    summary p !! 1%nat
    = Some ("columns", VInt (Z.of_nat (length (columns cleaned)))) /\
    (has_column "Order ID" cleaned = true ->
     exists u dup : nat,
       summary p !! 2%nat = Some ("unique_order_ids", VInt (Z.of_nat u)) /\
       summary p !! 3%nat = Some ("duplicate_order_id_rows", VInt (Z.of_nat dup)) /\
       length (data cleaned)
       = (u + dup
          + (if existsb isna (getitem "Order ID" cleaned) then 1 else 0))%nat) /\
    (length (null_counts p) <= 25)%nat.
Proof.
  intros Hnd Hm. apply main_ok in Hm as (pc & -> & Hc & _).
  eexists _, _. split; [reflexivity|]. split; [reflexivity|].
  split; [apply helper_fields_NoDup; now rewrite Hc|].
  unfold report. cbn [summary null_counts]. unfold build_summary.
  split; [reflexivity|]. split; [reflexivity|]. split.
  - intros Hid. rewrite Hid. eexists _, _.
    split; [reflexivity|]. split; [reflexivity|].
    unfold duplicated_sum. rewrite na_key_count.
    pose proof (remove_dups_length_le (map na_key (getitem "Order ID" (helper_fields pc))))
      as Hle.
    rewrite na_key_count, length_map in Hle.
    rewrite (getitem_length _ _ Hid) in *. lia.
  - rewrite length_take. lia.
Qed.

Lemma main_profile_counts_witness :
  NoDup (columns (normalize_columns sample_raw)) /\
  exists d' p,
    @main plain_library (Ok sample_raw) empty_disk = (Ok 0, d') /\
    profiling_summary_txt d' = Some p /\
    summary p !! 0%nat = Some ("rows", VInt 2) /\
    summary p !! 2%nat = Some ("unique_order_ids", VInt 1) /\
    summary p !! 3%nat = Some ("duplicate_order_id_rows", VInt 1).
Proof.
  assert (Hnd : NoDup (columns (normalize_columns sample_raw))).
  { apply (bool_decide_unpack _). vm_compute. exact I. }
  split; [exact Hnd|].
  destruct (@main plain_library (Ok sample_raw) empty_disk) as [r d'] eqn:E.
  assert (Hr : r = Ok 0).
  { apply (f_equal fst) in E. vm_compute in E. now subst r. }
  subst r.
  destruct (@main_profile_counts plain_library sample_raw empty_disk 0 d' Hnd E)
    as (cleaned & p & Hc & Hp & _).
  exists d', p. split; [reflexivity|]. split; [exact Hp|].
  assert (Hd : profiling_summary_txt d'
               = profiling_summary_txt
                   (snd (@main plain_library (Ok sample_raw) empty_disk))).
  { now rewrite E. }
  rewrite Hp in Hd. vm_compute in Hd. injection Hd as ->.
  repeat split.
Defined.

(** ** From the cleaning script to the dashboard *)



(** ** [filter_df]: the frame it returns *)

Lemma filter_sublist {A} (p : A -> bool) (l : list A) :
  List.filter p l `sublist_of` l.
Proof.
  induction l as [| a l IH]; [constructor|].
  cbn [List.filter]. destruct (p a); now constructor.
Qed.

(** One filtering step never moves the name [dff] to an older frame. *)
Lemma step_run_ge (cond : bool) (mask : Row -> bool) (st : store) (a : addr)
    (t : Table) :
  st !! a = Some (FTable t) ->
  exists a' st',
    (if cond then select mask a else mret a) st = (Ok a', st') /\
    (a <= a')%nat /\
    st `prefix_of` st' /\
    st' !! a' = Some (FTable {| header := header t;
                                rows := List.filter (fun r => negb cond || mask r)
                                          (rows t) |}).
Proof.
  intros Ht. destruct cond.
  - rewrite (select_run mask st a t Ht).
    eexists _, _. split; [reflexivity|].
    split; [apply lookup_lt_Some in Ht; lia|].
    split; [now apply prefix_app_r | apply lookup_fresh].
  - exists a, st. split; [reflexivity|]. split; [lia|]. split; [reflexivity|].
    cbn [negb orb]. now rewrite filter_true, Table_eta.
Qed.

Lemma matches_spec region segment category (y : option Z) (r : Row) :
  matches region segment category y r = true
  <-> (region = "All" \/ Region r = Some region) /\
      (segment = "All" \/ Segment r = Some segment) /\
      (category = "All" \/ Category r = Some category) /\
      (forall y', y = Some y' -> Year r = Some y').
Proof.
  unfold matches. rewrite !andb_true_iff, !orb_true_iff, !bool_decide_eq_true.
  assert (Hy : (match y with
                | Some y0 => bool_decide (Year r = Some y0)
                | None => true
                end) = true <-> forall y', y = Some y' -> Year r = Some y').
  { destruct y as [y0 |].
    - rewrite bool_decide_eq_true. split; [now intros ? ? [= <-] | auto].
    - split; [discriminate | reflexivity]. }
  rewrite Hy. tauto.
Qed.

(** X9. [filter_df] returns a frame of its own, never [DF] itself nor any
    frame that existed before the call, with the header of [DF]; its rows
    are rows of [DF] in their order, and a row is kept exactly when it
    passes every dimension that is not "All" (a logical AND).  A row whose
    cell is missing in a selected dimension is never kept. *)
Theorem filter_df_selects `{Builtins} (st : store) (T : Table)
    (region segment category : string) (year : year_arg)
    (a : addr) (st' : store) :
  st !! DF = Some (FTable T) ->
  filter_df region segment category year st = (Ok a, st') ->
  (length st <= a)%nat /\
  st `prefix_of` st' /\
  exists T',
    st' !! a = Some (FTable T') /\
    header T' = header T /\
    rows T' `sublist_of` rows T /\
    forall r, r ∈ rows T' <->
      r ∈ rows T /\
      (region = "All" \/ Region r = Some region) /\
      (segment = "All" \/ Segment r = Some segment) /\
      (category = "All" \/ Category r = Some category) /\
      (year_ne_All year = false \/
       exists y, py_int year = Ok y /\ Year r = Some y).
Proof.
  intros HT. unfold filter_df.
  rewrite bind_run, (copy_run st DF _ HT).
  destruct (step_run_ge (bool_decide (region ≠ "All"))
              (fun r => bool_decide (Region r = Some region))
              (st ++ [FTable T]) (length st) T (lookup_fresh st _))
    as (a1 & st1 & E1 & G1 & P1 & L1).
  rewrite bind_run, E1.
  destruct (step_run_ge (bool_decide (segment ≠ "All"))
              (fun r => bool_decide (Segment r = Some segment))
              st1 a1 _ L1) as (a2 & st2 & E2 & G2 & P2 & L2).
  rewrite bind_run, E2.
  destruct (step_run_ge (bool_decide (category ≠ "All"))
              (fun r => bool_decide (Category r = Some category))
              st2 a2 _ L2) as (a3 & st3 & E3 & G3 & P3 & L3).
  rewrite bind_run, E3. cbn [header rows] in L3.
  assert (P0 : st `prefix_of` st3).
  { etrans; [apply (prefix_app_r st st [FTable T]); reflexivity|].
    etrans; [exact P1|]. etrans; [exact P2 | exact P3]. }
  rewrite bind_run.
  assert (Hfin : forall (y : option Z) (a4 : addr) (st4 : store),
            (a3 <= a4)%nat -> st3 `prefix_of` st4 ->
            st4 !! a4
            = Some (FTable {| header := header T;
                              rows := List.filter (matches region segment category y)
                                        (rows T) |}) ->
            (year_ne_All year = false /\ y = None \/
             exists y0, year_ne_All year = true /\ py_int year = Ok y0 /\ y = Some y0) ->
            (length st <= a4)%nat /\ st `prefix_of` st4 /\
            exists T',
              st4 !! a4 = Some (FTable T') /\ header T' = header T /\
              rows T' `sublist_of` rows T /\
              forall r, r ∈ rows T' <->
                r ∈ rows T /\
                (region = "All" \/ Region r = Some region) /\
                (segment = "All" \/ Segment r = Some segment) /\
                (category = "All" \/ Category r = Some category) /\
                (year_ne_All year = false \/
                 exists y, py_int year = Ok y /\ Year r = Some y)).
  { intros y a4 st4 G4 P4 L4 Hy. split; [lia|].
    split; [etrans; [exact P0 | exact P4]|].
    eexists. split; [exact L4|]. split; [reflexivity|]. cbn [rows].
    split; [apply filter_sublist|].
    intros r. rewrite list_elem_of_In, filter_In, <- list_elem_of_In, matches_spec.
    destruct Hy as [[Hn ->] | (y0 & Hn & Hp & ->)].
    - split.
      + intros (Hr & H1 & H2 & H3 & _). auto 10.
      + intros (Hr & H1 & H2 & H3 & _). repeat split; auto. discriminate.
    - split.
      + intros (Hr & H1 & H2 & H3 & H4). repeat split; auto.
        right. exists y0. auto.
      + intros (Hr & H1 & H2 & H3 & [H4 | (y & Hy & Hr4)]); [congruence|].
        repeat split; auto. intros y' [= <-]. congruence. }
  destruct (year_ne_All year) eqn:Hya.
  - rewrite bind_run. unfold lift.
    destruct (py_int year) as [y | e] eqn:Hpy;
      cbn [mbind result_bind mret result_ret]; [|discriminate].
    rewrite (select_run _ st3 a3 _ L3). cbn [header rows].
    intros [= <- <-].
    apply (Hfin (Some y)).
    + apply lookup_lt_Some in L3. lia.
    + now apply prefix_app_r.
    + rewrite lookup_fresh. do 3 f_equal.
      apply (matches_steps region segment category (Some y)).
    + right. eauto.
  - cbn [mbind result_bind mret result_ret]. intros [= <- <-].
    apply (Hfin None); [lia | reflexivity | | now left].
    etrans; [exact L3|]. do 3 f_equal.
    rewrite <- (matches_steps region segment category None).
    now rewrite filter_true.
Qed.

Lemma filter_df_selects_witness :
  sample_store !! DF = Some (FTable sample_table) /\
  exists a st' T',
    @filter_df plain_builtins "West" "All" "Furniture" (YStr "2017") sample_store
    = (Ok a, st') /\
    (1 <= a)%nat /\
    st' !! a = Some (FTable T') /\
    length (rows T') = 3%nat.
Proof.
  split; [reflexivity|].
  destruct (@filter_df plain_builtins "West" "All" "Furniture" (YStr "2017")
              sample_store) as [r st'] eqn:E.
  assert (Hr : exists a, r = Ok a).
  { apply (f_equal fst) in E. vm_compute in E. subst r. eauto. }
  destruct Hr as [a ->].
  destruct (@filter_df_selects plain_builtins sample_store sample_table
              "West" "All" "Furniture" (YStr "2017") a st' eq_refl E)
    as (Hge & _ & T' & HT' & _).
  exists a, st', T'. split; [reflexivity|]. split; [exact Hge|].
  split; [exact HT'|].
  assert (Ha : (Ok a, st')
               = @filter_df plain_builtins "West" "All" "Furniture" (YStr "2017")
                   sample_store).
  { now rewrite E. }
  vm_compute in Ha. injection Ha as -> ->.
  vm_compute in HT'. injection HT' as <-. reflexivity.
Defined.

(** ** [update]: the year argument *)

(** X10. [update] raises only on a year that is a string other than "All"
    which [int] rejects; the error is the one [int] raised, and every frame
    that existed is left as it was.  An [int] year and "All" never raise.  A
    numeral string selects the same rows as the number it denotes: the two
    calls return the same result and leave the same store. *)
Theorem update_year_argument `{Builtins} (region segment category : string)
    (year : year_arg) (st : store) (T : Table) :
  st !! DF = Some (FTable T) ->
  match update region segment category year st with
  | (Ok r, st') =>
      match year with
      | YStr s => s = "All" \/ exists n, int_of_str s = Ok n
      | YInt _ => True
      end
  | (Raise e, st') =>
      (exists s, year = YStr s /\ s <> "All" /\ int_of_str s = Raise e) /\
      st `prefix_of` st'
  end /\
  (forall s n, year = YStr s -> s <> "All" -> int_of_str s = Ok n ->
     update region segment category (YStr s) st
     = update region segment category (YInt n) st).
Proof.
  intros HT. split.
  - destruct (update_run st T region segment category year HT) as [Hres Hpre].
    destruct (update region segment category year st) as [[r | e] st'];
      cbn [fst snd] in *.
    + destruct year as [s | n]; [|exact I].
      destruct (decide (s = "All")) as [|Hne]; [now left|]. right.
      unfold query, selected_year in Hres. cbn [year_ne_All py_int] in Hres.
      rewrite bool_decide_true in Hres by exact Hne.
      destruct (int_of_str s) as [n | e]; [eauto|].
      cbn [mbind result_bind mret result_ret] in Hres. discriminate Hres.
    + split; [|exact Hpre].
      unfold query, selected_year in Hres.
      destruct year as [s | n]; cbn [year_ne_All py_int] in Hres.
      * exists s. split; [reflexivity|].
        destruct (decide (s = "All")) as [-> | Hne].
        { rewrite bool_decide_false in Hres by auto.
          cbn [mbind result_bind mret result_ret] in Hres. discriminate Hres. }
        split; [exact Hne|].
        rewrite bool_decide_true in Hres by exact Hne.
        destruct (int_of_str s) as [n | e'];
          cbn [mbind result_bind mret result_ret] in Hres;
          [discriminate Hres | congruence].
      * cbn [mbind result_bind mret result_ret] in Hres. discriminate Hres.
  - intros s n _ Hne Hs. unfold update, filter_df.
    cbn [year_ne_All py_int]. rewrite bool_decide_true by exact Hne.
    now rewrite Hs.
Qed.

Lemma update_year_argument_witness :
  sample_store !! DF = Some (FTable sample_table) /\
  @update plain_builtins "All" "All" "All" (YStr "2017") sample_store
  = @update plain_builtins "All" "All" "All" (YInt 2017) sample_store /\
  exists st',
    @update plain_builtins "All" "All" "All" (YStr "20x7") sample_store
    = (Raise (ValueError "invalid literal for int()" ["x7"]), st') /\
    sample_store `prefix_of` st'.
Proof.
  split; [reflexivity|]. split.
  - destruct (@update_year_argument plain_builtins "All" "All" "All" (YStr "2017")
                sample_store sample_table eq_refl) as [_ Heq].
    apply (Heq "2017" 2017); [reflexivity | discriminate | reflexivity].
  - destruct (@update_year_argument plain_builtins "All" "All" "All" (YStr "20x7")
                sample_store sample_table eq_refl) as [Hm _].
    destruct (@update plain_builtins "All" "All" "All" (YStr "20x7") sample_store)
      as [[r | e] st'].
    + exfalso. destruct Hm as [Hm | [n Hn]]; [discriminate Hm|].
      vm_compute in Hn. discriminate Hn.
    + destruct Hm as [(s & Hs & _ & He) Hpre]. injection Hs as <-.
      vm_compute in He. injection He as <-.
      exists st'. split; [reflexivity | exact Hpre].
Defined.

(** ** Sorting and grouping *)

Section Sorting.

Context {A : Type} (leb : A -> A -> bool).

Lemma insert_sorted_perm (x : A) (l : list A) : insert_sorted leb x l ≡ₚ x :: l.
Proof.
  induction l as [| y l IH]; cbn [insert_sorted]; [reflexivity|].
  destruct (leb x y); [reflexivity|].
  rewrite IH. apply perm_swap.
Qed.

Lemma sort_by_perm (l : list A) : sort_by leb l ≡ₚ l.
Proof.
  unfold sort_by. induction l as [| x l IH]; cbn [foldr]; [reflexivity|].
  now rewrite insert_sorted_perm, IH.
Qed.

Hypothesis leb_total : forall a b, leb a b = true \/ leb b a = true.
Hypothesis leb_trans : forall a b c, leb a b = true -> leb b c = true -> leb a c = true.

Lemma insert_sorted_sorted (x : A) (l : list A) :
  StronglySorted (fun a b => leb a b = true) l ->
  StronglySorted (fun a b => leb a b = true) (insert_sorted leb x l).
Proof.
  induction l as [| y l IH]; intros Hs; cbn [insert_sorted].
  - repeat constructor.
  - inversion Hs as [| ? ? Hs' Hy]; subst.
    destruct (leb x y) eqn:Hxy.
    + constructor; [exact Hs|]. constructor; [exact Hxy|].
      eapply Forall_impl; [exact Hy|]. intros z Hz. cbv beta in *. eauto.
    + constructor; [now apply IH|].
      rewrite insert_sorted_perm. constructor; [|exact Hy].
      destruct (leb_total x y) as [E | E]; [congruence | exact E].
Qed.

Lemma sort_by_sorted (l : list A) :
  StronglySorted (fun a b => leb a b = true) (sort_by leb l).
Proof.
  unfold sort_by. induction l as [| x l IH]; cbn [foldr]; [constructor|].
  now apply insert_sorted_sorted.
Qed.

End Sorting.

Lemma StronglySorted_impl {A} (R1 R2 : A -> A -> Prop) (l : list A) :
  (forall a b, a ∈ l -> b ∈ l -> R1 a b -> R2 a b) ->
  StronglySorted R1 l -> StronglySorted R2 l.
Proof.
  induction l as [| x l IH]; intros Himp Hs; [constructor|].
  inversion Hs as [| ? ? Hs' Hx]; subst. constructor.
  - apply IH; [|exact Hs']. intros a b Ha Hb. apply Himp; now right.
  - rewrite Forall_forall in Hx |- *. intros b Hb.
    apply Himp; [now left | now right | now apply Hx].
Qed.

(** A sorted list without duplicates is strictly sorted. *)
Lemma StronglySorted_strict {A B} (f : A -> B) (R : B -> B -> Prop) (l : list A) :
  NoDup (map f l) ->
  StronglySorted (fun a b => R (f a) (f b)) l ->
  StronglySorted (fun a b => R (f a) (f b) /\ f a <> f b) l.
Proof.
  induction l as [| x l IH]; intros Hnd Hs; [constructor|].
  cbn [map] in Hnd. apply NoDup_cons in Hnd as [Hx Hnd].
  inversion Hs as [| ? ? Hs' Hall]; subst. constructor; [now apply IH|].
  rewrite Forall_forall in Hall |- *. intros b Hb. split; [now apply Hall|].
  intros E. apply Hx. rewrite E.
  change (map f l) with (f <$> l). now apply list_elem_of_fmap_2.
Qed.

Lemma StronglySorted_map {A B} (f : A -> B) (R : B -> B -> Prop) (l : list A) :
  StronglySorted R (map f l) <-> StronglySorted (fun a b => R (f a) (f b)) l.
Proof.
  induction l as [| x l IH]; cbn [map].
  - split; constructor.
  - split; intros Hs; inversion Hs as [| ? ? Hs' Hall]; subst; constructor;
      try (now apply IH).
    + change (map f l) with (f <$> l) in Hall. now rewrite Forall_fmap in Hall.
    + change (map f l) with (f <$> l). now rewrite Forall_fmap.
Qed.

Lemma String_leb_trans (a b c : string) :
  String.leb a b = true -> String.leb b c = true -> String.leb a c = true.
Proof.
  intros H1%Is_true_true H2%Is_true_true. apply Is_true_true.
  change (String.le a c). transitivity b; assumption.
Qed.

Lemma String_ltb_leb (a b : string) :
  String.leb a b = true -> a <> b -> String.ltb a b = true.
Proof.
  unfold String.leb, String.ltb. intros Hle Hne.
  destruct (String.compare a b) eqn:E; try reflexivity; try discriminate.
  now apply String.compare_eq_iff in E.
Qed.

Lemma Z_leb_total (a b : Z) : (a <=? b) = true \/ (b <=? a) = true.
Proof. rewrite !Z.leb_le. lia. Qed.

Lemma Z_leb_trans (a b c : Z) :
  (a <=? b) = true -> (b <=? c) = true -> (a <=? c) = true.
Proof. rewrite !Z.leb_le. lia. Qed.

Section Grouping.

Context {K : Type} `{EqDecision K} (leb : K -> K -> bool).

Lemma groupby_keys (key : Row -> option K) (rs : list Row) :
  map group (agg_sales_profit (groupby leb key rs))
  = sort_by leb (remove_dups (omap key rs)).
Proof.
  unfold agg_sales_profit, groupby. rewrite !map_map. cbn [group fst].
  apply map_id.
Qed.

Lemma sorted_keys_NoDup (l : list K) : NoDup (sort_by leb (remove_dups l)).
Proof. rewrite sort_by_perm. apply NoDup_remove_dups. Qed.

Lemma elem_of_sorted_keys (key : Row -> option K) (rs : list Row) (k : K) :
  k ∈ sort_by leb (remove_dups (omap key rs))
  <-> exists x, x ∈ rs /\ key x = Some k.
Proof.
  rewrite sort_by_perm, elem_of_remove_dups, list_elem_of_omap. reflexivity.
Qed.

(** A table grouped by [key] is keyed by it. *)
Lemma agg_groupby_keyed (key : Row -> option K) (rs : list Row) :
  keyed_by key rs (agg_sales_profit (groupby leb key rs)).
Proof.
  split; [|split].
  - rewrite groupby_keys. apply sorted_keys_NoDup.
  - intros k. rewrite groupby_keys. apply elem_of_sorted_keys.
  - intros g Hg. unfold agg_sales_profit, groupby in Hg.
    rewrite map_map in Hg. apply list_elem_of_In, in_map_iff in Hg as (k & <- & _).
    cbn [group sum_Sales sum_Profit fst snd]. split; reflexivity.
Qed.

(** Sorting the rows of a table keeps it keyed. *)
Lemma keyed_by_perm (key : Row -> option K) (rs : list Row)
    (t1 t2 : list (SalesProfit K)) :
  t1 ≡ₚ t2 -> keyed_by key rs t1 -> keyed_by key rs t2.
Proof.
  intros Hp (Hnd & Hk & Hg).
  assert (Hm : map group t1 ≡ₚ map group t2).
  { change (group <$> t1 ≡ₚ group <$> t2). now rewrite Hp. }
  split; [|split].
  - now rewrite <- Hm.
  - intros k. rewrite <- Hm. apply Hk.
  - intros g Hin. apply Hg. now rewrite Hp.
Qed.

End Grouping.

(** ** [update]: the five grouped tables *)

Lemma sorted_strings_strict (l : list string) :
  StronglySorted (fun a b => String.ltb a b = true)
    (sort_by String.leb (remove_dups l)).
Proof.
  assert (Hs : StronglySorted
                 (fun a b => String.leb (id a) (id b) = true /\ id a <> id b)
                 (sort_by String.leb (remove_dups l))).
  { apply (StronglySorted_strict id (fun a b => String.leb a b = true)).
    - rewrite map_id. apply sorted_keys_NoDup.
    - apply (sort_by_sorted String.leb String.leb_total String_leb_trans). }
  eapply StronglySorted_impl; [|exact Hs].
  intros a b _ _ [Hle Hne]. now apply String_ltb_leb.
Qed.

Lemma filter_present_key {K} `{EqDecision K} (key : Row -> option K) (k : K)
    (rs : list Row) :
  List.filter (fun x => bool_decide (key x = Some k))
    (List.filter (fun x => bool_decide (key x ≠ None)) rs)
  = List.filter (fun x => bool_decide (key x = Some k)) rs.
Proof.
  rewrite filter_filter_and. apply filter_ext. intros x.
  destruct (decide (key x = Some k)) as [E | E].
  - rewrite (bool_decide_true _ E), bool_decide_true; [reflexivity | congruence].
  - rewrite (bool_decide_false _ E). apply andb_false_r.
Qed.

Lemma trend_keyed (rs : list Row) : keyed_by Month rs (trend rs).
Proof.
  unfold trend. eapply keyed_by_perm; [symmetry; apply sort_by_perm|].
  apply agg_groupby_keyed.
Qed.

Lemma sub_category_profit_keyed (rs : list Row) :
  keyed_by Sub_Category rs (sub_category_profit rs).
Proof.
  unfold sub_category_profit. eapply keyed_by_perm; [symmetry; apply sort_by_perm|].
  apply agg_groupby_keyed.
Qed.

Lemma geo_keyed (rs : list Row) : keyed_by State_Abbr rs (geo rs).
Proof.
  unfold geo.
  destruct (agg_groupby_keyed String.leb State_Abbr
              (List.filter (fun r => bool_decide (State_Abbr r ≠ None)) rs))
    as (Hnd & Hk & Hg).
  split; [exact Hnd|]. split.
  - intros k. rewrite Hk. split.
    + intros (x & Hx & E). exists x. split; [|exact E].
      apply list_elem_of_In, filter_In in Hx as [Hx _]. now apply list_elem_of_In.
    + intros (x & Hx & E). exists x. split; [|exact E].
      apply list_elem_of_In, filter_In. split; [now apply list_elem_of_In|].
      apply bool_decide_eq_true. congruence.
  - intros g Hin. destruct (Hg g Hin) as [HS HP].
    now rewrite filter_present_key in HS, HP.
Qed.

(** X11. Each grouped table of a query has exactly one row for each distinct
    value its key column takes in the filtered rows (missing keys make no
    group), and that row holds the totals of the rows with that key: Sales
    and Profit by month, by state abbreviation, by sub-category and by
    discount bucket; Profit and the number of distinct orders by ship mode.
    The discount table is left out exactly when the frame has no "Discount
    Bucket" column. *)
Theorem grouped_tables_keyed (st : store) (a : addr) (dff : Table) :
  st !! a = Some (FTable dff) ->
  exists r st', aggregate a st = (Ok r, st') /\
    keyed_by Month (rows dff) (by_month r) /\
    keyed_by State_Abbr (rows dff) (by_state r) /\
    keyed_by Sub_Category (rows dff) (by_sub r) /\
    (by_disc r = None <-> "Discount Bucket" ∉ header dff) /\
    (forall ds, by_disc r = Some ds ->
       keyed_by Discount_Bucket (rows dff)
         (map (fun g => mkSalesProfit (d_Bucket g) (d_Sales g) (d_Profit g)) ds)) /\
    NoDup (map s_Ship_Mode (by_ship r)) /\
    (forall k, k ∈ map s_Ship_Mode (by_ship r)
               <-> exists x, x ∈ rows dff /\ Ship_Mode x = Some k) /\
    (forall g, g ∈ by_ship r ->
       s_Profit g
       = sum_skipna
           (map Profit
              (List.filter (fun x => bool_decide (Ship_Mode x = Some (s_Ship_Mode g)))
                 (rows dff))) /\
       s_Orders g
       = nunique
           (map Order_ID
              (List.filter (fun x => bool_decide (Ship_Mode x = Some (s_Ship_Mode g)))
                 (rows dff)))).
Proof.
  intros Ha. destruct (aggregate_run st a dff Ha) as (ext & Hrun).
  exists (aggregate_result dff), (st ++ ext). split; [exact Hrun|].
  unfold aggregate_result.
  cbn [by_month by_state by_sub by_disc by_ship].
  split; [apply trend_keyed|]. split; [apply geo_keyed|].
  split; [apply sub_category_profit_keyed|]. split; [|split].
  - case_bool_decide; split; intros; try discriminate; try contradiction;
      reflexivity || assumption.
  - intros ds. case_bool_decide; [|discriminate]. intros [= <-].
    rewrite map_map.
    assert (E : map (fun x : SalesProfit string =>
                       {| group := d_Bucket (with_margin x);
                          sum_Sales := d_Sales (with_margin x);
                          sum_Profit := d_Profit (with_margin x) |})
                  (agg_sales_profit (groupby String.leb Discount_Bucket (rows dff)))
                = agg_sales_profit (groupby String.leb Discount_Bucket (rows dff))).
    { rewrite <- (map_id (agg_sales_profit _)) at 2. apply map_ext.
      now intros []. }
    rewrite E. apply agg_groupby_keyed.
  - assert (Hkeys : map s_Ship_Mode
                      (map with_profit_per_order
                         (agg_profit_orders (groupby String.leb Ship_Mode (rows dff))))
                    = sort_by String.leb (remove_dups (omap Ship_Mode (rows dff)))).
    { unfold agg_profit_orders, groupby. rewrite !map_map.
      cbn [s_Ship_Mode with_profit_per_order ss_Ship_Mode fst]. apply map_id. }
    rewrite Hkeys. split; [apply sorted_keys_NoDup|]. split.
    + intros k. apply elem_of_sorted_keys.
    + intros g Hg. unfold agg_profit_orders, groupby in Hg.
      rewrite !map_map in Hg.
      apply list_elem_of_In, in_map_iff in Hg as (k & <- & _).
      cbn [s_Profit s_Orders s_Ship_Mode with_profit_per_order ss_Profit
             ss_Orders ss_Ship_Mode fst snd].
      split; reflexivity.
Qed.

Lemma grouped_tables_keyed_witness :
  sample_store !! DF = Some (FTable sample_table) /\
  exists r st', aggregate DF sample_store = (Ok r, st') /\
    map group (by_state r) = ["CA"] /\
    map group (by_sub r) = ["Tables"; "Chairs"] /\
    length (by_month r) = 2%nat.
Proof.
  split; [reflexivity|].
  destruct (grouped_tables_keyed sample_store DF sample_table eq_refl)
    as (r & st' & Hrun & _).
  exists r, st'. split; [exact Hrun|].
  assert (Hr : Ok r = (aggregate DF sample_store).1) by now rewrite Hrun.
  vm_compute in Hr. injection Hr as ->. repeat split.
Defined.

(** X12. The order of the grouped tables: the monthly trend is strictly
    ascending by month, the sub-category table is ascending by Profit, and
    the state, discount-bucket and ship-mode tables are strictly ascending
    by their key. *)
Theorem grouped_tables_sorted (st : store) (a : addr) (dff : Table) :
  st !! a = Some (FTable dff) ->
  exists r st', aggregate a st = (Ok r, st') /\
    StronglySorted (fun x y => group x < group y) (by_month r) /\
    StronglySorted (fun x y => String.ltb (group x) (group y) = true) (by_state r) /\
    StronglySorted (fun x y => (sum_Profit x <= sum_Profit y)%Qc) (by_sub r) /\
    (forall ds, by_disc r = Some ds ->
       StronglySorted (fun x y => String.ltb (d_Bucket x) (d_Bucket y) = true) ds) /\
    StronglySorted (fun x y => String.ltb (s_Ship_Mode x) (s_Ship_Mode y) = true)
      (by_ship r).
Proof.
  intros Ha. destruct (aggregate_run st a dff Ha) as (ext & Hrun).
  exists (aggregate_result dff), (st ++ ext). split; [exact Hrun|].
  unfold aggregate_result.
  cbn [by_month by_state by_sub by_disc by_ship].
  split; [|split; [|split; [|split]]].
  - assert (Hs : StronglySorted
                   (fun x y : SalesProfit Z =>
                      (group x <=? group y) = true /\ group x <> group y)
                   (trend (rows dff))).
    { apply (StronglySorted_strict group (fun a b => (a <=? b) = true)).
      - apply trend_keyed.
      - unfold trend.
        apply (sort_by_sorted (fun x y : SalesProfit Z => group x <=? group y)).
        + intros x y. apply Z_leb_total.
        + intros x y z. apply Z_leb_trans. }
    eapply StronglySorted_impl; [|exact Hs].
    intros x y _ _ [Hle Hne]. apply Z.leb_le in Hle. lia.
  - apply (StronglySorted_map group (fun a b => String.ltb a b = true)).
    unfold geo. rewrite groupby_keys. apply sorted_strings_strict.
  - unfold sub_category_profit.
    eapply StronglySorted_impl;
      [|apply (sort_by_sorted
                 (fun x y : SalesProfit string =>
                    bool_decide (sum_Profit x <= sum_Profit y)%Qc))].
    + intros x y _ _ Hle. now apply bool_decide_eq_true in Hle.
    + intros x y. rewrite !bool_decide_eq_true.
      destruct (Qclt_le_dec (sum_Profit x) (sum_Profit y)) as [Hlt | Hle];
        [left; now apply Qclt_le_weak | now right].
    + intros x y z. rewrite !bool_decide_eq_true. apply Qcle_trans.
  - intros ds. case_bool_decide; [|discriminate]. intros [= <-].
    apply (StronglySorted_map d_Bucket (fun a b => String.ltb a b = true)).
    rewrite map_map. cbn [d_Bucket with_margin].
    change (map (fun x : SalesProfit string => group x) ?l) with (map group l).
    rewrite groupby_keys. apply sorted_strings_strict.
  - apply (StronglySorted_map s_Ship_Mode (fun a b => String.ltb a b = true)).
    unfold agg_profit_orders, groupby. rewrite !map_map.
    cbn [s_Ship_Mode with_profit_per_order ss_Ship_Mode fst]. rewrite map_id.
    apply sorted_strings_strict.
Qed.

Lemma grouped_tables_sorted_witness :
  sample_store !! DF = Some (FTable sample_table) /\
  exists r st', aggregate DF sample_store = (Ok r, st') /\
    map sum_Profit (by_sub r) = [Q2Qc (inject_Z (-5)); Q2Qc (inject_Z 26)] /\
    StronglySorted (fun x y => (sum_Profit x <= sum_Profit y)%Qc) (by_sub r).
Proof.
  split; [reflexivity|].
  destruct (grouped_tables_sorted sample_store DF sample_table eq_refl)
    as (r & st' & Hrun & _ & _ & Hsub & _).
  exists r, st'. split; [exact Hrun|]. split; [|exact Hsub].
  assert (Hr : Ok r = (aggregate DF sample_store).1) by now rewrite Hrun.
  vm_compute in Hr. injection Hr as ->.
  cbn [map by_sub sum_Profit]. repeat f_equal; now apply Qc_is_canon.
Defined.


(** ** The dropdown options *)

Section Options.

Context `{Builtins}.

Lemma one_dimension_selects (st : store) (T : Table)
    (region segment category : string) (year : year_arg) (y : option Z) (x : Row) :
  st !! DF = Some (FTable T) ->
  selected_year year = Ok y ->
  x ∈ rows T ->
  matches region segment category y x = true ->
  selects_rows st region segment category year.
Proof.
  intros HT Hy Hx Hm.
  destruct (filter_df_run st T region segment category year HT)
    as (st' & _ & Hrun).
  rewrite Hy in Hrun. destruct Hrun as (a & Hrun & Ha).
  eexists a, st', _. split; [exact Hrun|]. split; [exact Ha|].
  cbn [rows]. intros E.
  assert (Hin : In x (List.filter (matches region segment category y) (rows T))).
  { apply filter_In. split; [now apply list_elem_of_In | exact Hm]. }
  rewrite E in Hin. destruct Hin.
Qed.

Lemma selected_year_All : selected_year (YStr "All") = Ok None.
Proof. reflexivity. Qed.

End Options.

Lemma py_str_int_not_All (y : Z) : py_str_int y <> "All".
Proof.
  unfold py_str_int. destruct (y <? 0); [discriminate|].
  intros E. change (decimal (Z.abs_N y) = "All") in E.
  pose proof (NilEmpty.usu (N.to_uint (Z.abs_N y))) as Hu.
  change (NilEmpty.string_of_uint (N.to_uint (Z.abs_N y)))
    with (decimal (Z.abs_N y)) in Hu.
  rewrite E in Hu. vm_compute in Hu.
  discriminate Hu.
Qed.

(** X14. The year dropdown offers texts, [str(y)] of each element of
    [years], and the callback receives the chosen text.  Provided
    [int(str(y))] is [y] for every year of the table, [update] never raises
    on offered options.  Each option list starts with "All", followed by
    the distinct values of its column in ascending order without
    repetition, the years as their numerals; and every offered option
    other than "All", selected alone, keeps at least one row. *)
Theorem dropdown_options_select `{Builtins} (st : store) (T : Table)
    (region segment category year : string) :
  st !! DF = Some (FTable T) ->
  (forall x y, x ∈ rows T -> Year x = Some y ->
               int_of_str (py_str_int y) = Ok y) ->
  region ∈ regions T -> segment ∈ segments T -> category ∈ categories T ->
  year ∈ year_options T ->
  (exists r st', update region segment category (YStr year) st = (Ok r, st')) /\
  (region <> "All" -> selects_rows st region "All" "All" (YStr "All")) /\
  (segment <> "All" -> selects_rows st "All" segment "All" (YStr "All")) /\
  (category <> "All" -> selects_rows st "All" "All" category (YStr "All")) /\
  (year <> "All" -> selects_rows st "All" "All" "All" (YStr year)) /\
  (exists rest, regions T = "All" :: rest /\
     StronglySorted (fun a b => String.ltb a b = true) rest /\
     forall v, v ∈ rest <-> exists x, x ∈ rows T /\ Region x = Some v) /\
  (exists rest, segments T = "All" :: rest /\
     StronglySorted (fun a b => String.ltb a b = true) rest /\
     forall v, v ∈ rest <-> exists x, x ∈ rows T /\ Segment x = Some v) /\
  (exists rest, categories T = "All" :: rest /\
     StronglySorted (fun a b => String.ltb a b = true) rest /\
     forall v, v ∈ rest <-> exists x, x ∈ rows T /\ Category x = Some v) /\
  (exists rest, years T = YStr "All" :: map YInt rest /\
     year_options T = "All" :: map py_str_int rest /\
     StronglySorted Z.lt rest /\
     forall v, v ∈ rest <-> exists x, x ∈ rows T /\ Year x = Some v).
Proof.
  intros HT Hint Hr Hs Hc Hy.
  assert (Hyear : year = "All" \/
                  exists y x, year = py_str_int y /\ x ∈ rows T /\
                              Year x = Some y).
  { unfold year_options, years in Hy. cbn [map py_str] in Hy.
    apply elem_of_cons in Hy as [-> | Hy]; [now left|].
    right. rewrite map_map in Hy. cbn [py_str] in Hy.
    change (map py_str_int ?l) with (py_str_int <$> l) in Hy.
    apply list_elem_of_fmap in Hy as (y & -> & Hy).
    apply (elem_of_sorted_keys Z.leb Year) in Hy as (x & Hx & E). eauto. }
  assert (Hsel : forall y x, x ∈ rows T -> Year x = Some y ->
                   selected_year (YStr (py_str_int y)) = Ok (Some y)).
  { intros y x Hx E. unfold selected_year. cbn [year_ne_All py_int].
    rewrite (bool_decide_true _ (py_str_int_not_All y)).
    rewrite (Hint x y Hx E). reflexivity. }
  assert (Hopt : forall (col : Row -> option string) (v : string),
            v ∈ "All" :: sort_by String.leb (remove_dups (omap col (rows T))) ->
            v <> "All" -> exists x, x ∈ rows T /\ col x = Some v).
  { intros col v Hv Hne. apply elem_of_cons in Hv as [-> | Hv]; [congruence|].
    now apply (elem_of_sorted_keys String.leb col) in Hv. }
  split; [|split; [|split; [|split; [|split; [|split; [|split; [|split]]]]]]].
  - destruct (update_run st T region segment category (YStr year) HT) as [Hres _].
    destruct (update region segment category (YStr year) st) as [res st'].
    cbn [fst] in Hres. unfold query in Hres.
    destruct Hyear as [-> | (y & x & -> & Hx & E)].
    + rewrite selected_year_All in Hres.
      cbn [mbind result_bind mret result_ret] in Hres. subst res. eauto.
    + rewrite (Hsel y x Hx E) in Hres.
      cbn [mbind result_bind mret result_ret] in Hres. subst res. eauto.
  - intros Hne. destruct (Hopt Region region Hr Hne) as (x & Hx & E).
    apply (one_dimension_selects st T _ _ _ _ None x HT selected_year_All Hx).
    unfold matches. rewrite E.
    rewrite (bool_decide_true (Some region = Some region)) by reflexivity.
    now rewrite orb_true_r.
  - intros Hne. destruct (Hopt Segment segment Hs Hne) as (x & Hx & E).
    apply (one_dimension_selects st T _ _ _ _ None x HT selected_year_All Hx).
    unfold matches. rewrite E.
    rewrite (bool_decide_true (Some segment = Some segment)) by reflexivity.
    now rewrite orb_true_r.
  - intros Hne. destruct (Hopt Category category Hc Hne) as (x & Hx & E).
    apply (one_dimension_selects st T _ _ _ _ None x HT selected_year_All Hx).
    unfold matches. rewrite E.
    rewrite (bool_decide_true (Some category = Some category)) by reflexivity.
    now rewrite orb_true_r.
  - intros Hne. destruct Hyear as [-> | (y & x & -> & Hx & E)]; [congruence|].
    apply (one_dimension_selects st T _ _ _ _ (Some y) x HT (Hsel y x Hx E) Hx).
    unfold matches. rewrite E.
    now rewrite (bool_decide_true (Some y = Some y)) by reflexivity.
  - eexists. split; [reflexivity|]. split; [apply sorted_strings_strict|].
    intros v. apply elem_of_sorted_keys.
  - eexists. split; [reflexivity|]. split; [apply sorted_strings_strict|].
    intros v. apply elem_of_sorted_keys.
  - eexists. split; [reflexivity|]. split; [apply sorted_strings_strict|].
    intros v. apply elem_of_sorted_keys.
  - eexists. split; [reflexivity|]. split.
    { unfold year_options, years. cbn [map py_str]. now rewrite map_map. }
    split.
    + assert (Hss : StronglySorted
                      (fun a b => (id a <=? id b) = true /\ id a <> id b)
                      (sort_by Z.leb (remove_dups (omap Year (rows T))))).
      { apply (StronglySorted_strict id (fun a b => (a <=? b) = true)).
        - rewrite map_id. apply sorted_keys_NoDup.
        - apply (sort_by_sorted Z.leb Z_leb_total Z_leb_trans). }
      eapply StronglySorted_impl; [|exact Hss].
      intros a b _ _ [Hle Hne]. unfold id in *. apply Z.leb_le in Hle. lia.
    + intros v. apply elem_of_sorted_keys.
Qed.

Lemma dropdown_options_select_witness :
  sample_store !! DF = Some (FTable sample_table) /\
  regions sample_table = ["All"; "West"] /\
  segments sample_table = ["All"; "Consumer"] /\
  categories sample_table = ["All"; "Furniture"] /\
  years sample_table = [YStr "All"; YInt 2017] /\
  year_options sample_table = ["All"; "2017"] /\
  @selects_rows plain_builtins sample_store "West" "All" "All" (YStr "All") /\
  @selects_rows plain_builtins sample_store "All" "All" "All" (YStr "2017") /\
  exists r st',
    @update plain_builtins "West" "Consumer" "Furniture" (YStr "2017") sample_store
    = (Ok r, st').
Proof.
  assert (Er : regions sample_table = ["All"; "West"]) by (vm_compute; reflexivity).
  assert (Es : segments sample_table = ["All"; "Consumer"])
    by (vm_compute; reflexivity).
  assert (Ec : categories sample_table = ["All"; "Furniture"])
    by (vm_compute; reflexivity).
  assert (Ey : years sample_table = [YStr "All"; YInt 2017])
    by (vm_compute; reflexivity).
  assert (Eo : year_options sample_table = ["All"; "2017"])
    by (vm_compute; reflexivity).
  split; [reflexivity|]. split; [exact Er|]. split; [exact Es|].
  split; [exact Ec|]. split; [exact Ey|]. split; [exact Eo|].
  assert (Hr : "West" ∈ regions sample_table).
  { rewrite Er, !elem_of_cons. auto. }
  assert (Hs : "Consumer" ∈ segments sample_table).
  { rewrite Es, !elem_of_cons. auto. }
  assert (Hc : "Furniture" ∈ categories sample_table).
  { rewrite Ec, !elem_of_cons. auto. }
  assert (Hy : "2017" ∈ year_options sample_table).
  { rewrite Eo, !elem_of_cons. auto. }
  assert (Hint : forall x y, x ∈ rows sample_table -> Year x = Some y ->
                   @int_of_str plain_builtins (py_str_int y) = Ok y).
  { intros x y Hx E.
    assert (Hall : Forall (fun x => Year x = Some 2017) (rows sample_table)).
    { apply (bool_decide_unpack _). vm_compute. exact I. }
    rewrite Forall_forall in Hall. apply Hall in Hx. rewrite Hx in E.
    injection E as <-. vm_compute. reflexivity. }
  destruct (@dropdown_options_select plain_builtins sample_store sample_table
              "West" "Consumer" "Furniture" "2017" eq_refl Hint Hr Hs Hc Hy)
    as (Hup & Hreg & _ & _ & Hyr & _).
  split; [apply Hreg; discriminate|].
  split; [apply Hyr; discriminate | exact Hup].
Defined.

(** ** Orders across selections *)

Lemma nunique_filter_le {A} `{EqDecision A} (f : Row -> option A)
    (p : Row -> bool) (rs : list Row) :
  (nunique (map f (List.filter p rs)) <= nunique (map f rs))%nat.
Proof.
  unfold nunique. rewrite !omap_id_map.
  apply submseteq_length, NoDup_submseteq; [apply NoDup_remove_dups|].
  intros v. rewrite !elem_of_remove_dups, !list_elem_of_omap.
  intros (x & Hx & E). exists x. split; [|exact E].
  apply list_elem_of_In, filter_In in Hx as [Hx _]. now apply list_elem_of_In.
Qed.

Lemma nunique_le_length {A} `{EqDecision A} (l : list (option A)) :
  (nunique l <= length l)%nat.
Proof.
  unfold nunique. etrans; [apply remove_dups_length_le|].
  induction l as [| [a |] l IH]; cbn; lia.
Qed.

Lemma filter_matches_all (rs : list Row) :
  List.filter (matches "All" "All" "All" None) rs = rs.
Proof.
  rewrite <- (filter_true rs) at 2. apply filter_ext. intros r. reflexivity.
Qed.

(** X15. Narrowing the selection never raises the Orders KPI: the Orders of
    any selection are at most the Orders of the all-"All" selection, which
    are at most the number of rows of the table; and no ship mode has more
    distinct orders than the selection as a whole. *)
Theorem orders_bounded `{Builtins} (region segment category : string)
    (year : year_arg) (st : store) (T : Table) (r : Aggregate) (st' : store) :
  st !! DF = Some (FTable T) ->
  update region segment category year st = (Ok r, st') ->
  exists r0 st0,
    update "All" "All" "All" (YStr "All") st = (Ok r0, st0) /\
    (orders r <= orders r0)%nat /\
    (orders r0 <= length (rows T))%nat /\
    Forall (fun g => (s_Orders g <= orders r)%nat) (by_ship r).
Proof.
  intros HT Hup.
  destruct (update_run st T region segment category year HT) as [Hres _].
  rewrite Hup in Hres. cbn [fst] in Hres.
  destruct (update_run st T "All" "All" "All" (YStr "All") HT) as [Hres0 _].
  destruct (update "All" "All" "All" (YStr "All") st) as [res0 st0].
  cbn [fst] in Hres0. subst res0.
  unfold query in *. rewrite selected_year_All.
  cbn [mbind result_bind mret result_ret].
  eexists _, st0. split; [reflexivity|].
  destruct (selected_year year) as [y | e];
    cbn [mbind result_bind mret result_ret] in Hres; [|discriminate].
  injection Hres as ->. unfold aggregate_result. cbn [orders by_ship rows].
  rewrite filter_matches_all.
  split; [|split].
  - apply nunique_filter_le.
  - 
    etrans; [apply nunique_le_length|]. now rewrite length_map.
  - apply Forall_forall. intros g Hg.
    unfold agg_profit_orders, groupby in Hg. rewrite !map_map in Hg.
    apply list_elem_of_In, in_map_iff in Hg as (k & <- & _).
    cbn [s_Orders with_profit_per_order ss_Orders snd]. apply nunique_filter_le.
Qed.

Lemma orders_bounded_witness :
  sample_store !! DF = Some (FTable sample_table) /\
  exists r st' r0 st0,
    @update plain_builtins "West" "All" "All" (YInt 2017) sample_store = (Ok r, st') /\
    @update plain_builtins "All" "All" "All" (YStr "All") sample_store = (Ok r0, st0) /\
    (orders r <= orders r0)%nat /\
    orders r0 = 2%nat.
Proof.
  split; [reflexivity|].
  destruct (@update plain_builtins "West" "All" "All" (YInt 2017) sample_store)
    as [res st'] eqn:E.
  assert (Hr : exists r, res = Ok r).
  { apply (f_equal fst) in E. vm_compute in E. subst res. eauto. }
  destruct Hr as [r ->].
  destruct (@orders_bounded plain_builtins "West" "All" "All" (YInt 2017)
              sample_store sample_table r st' eq_refl E)
    as (r0 & st0 & Hup0 & Hle & _).
  exists r, st', r0, st0. split; [reflexivity|]. split; [exact Hup0|].
  split; [exact Hle|].
  assert (Hr0 : Ok r0
                = (@update plain_builtins "All" "All" "All" (YStr "All")
                     sample_store).1) by now rewrite Hup0.
  vm_compute in Hr0. injection Hr0 as ->. reflexivity.
Defined.

(** ** State abbreviations *)

Lemma dict_of_lookup_items {V} (items : list (string * V)) (k : string) (v : V) :
  dict_of items !! k = Some v -> In (k, v) items.
Proof.
  unfold dict_of.
  assert (Hg : forall (m0 : gmap string V),
             foldl (fun m kv => <[kv.1 := kv.2]> m) m0 items !! k = Some v ->
             In (k, v) items \/ m0 !! k = Some v).
  { induction items as [| [k' v'] items IH]; intros m0 Hl; [now right|].
    cbn [foldl] in Hl. apply IH in Hl as [Hl | Hl]; [left; now right|].
    cbn [fst snd] in Hl. destruct (decide (k' = k)) as [-> | Hne].
    - rewrite lookup_insert_eq in Hl. injection Hl as ->. left. now left.
    - rewrite lookup_insert_ne in Hl by exact Hne. now right. }
  intros Hl. apply Hg in Hl as [Hl | Hl]; [exact Hl|].
  rewrite lookup_empty in Hl. discriminate Hl.
Qed.

(** X16. [load_data] gives two rows the same state abbreviation only when
    they name the same state: no two states of the table share a code, so
    the map never merges two known states into one area.  Every code has
    two letters. *)
Theorem state_abbr_injective `{Calendar} (r1 r2 : Row) (a : string) :
  State_Abbr (derive r1) = Some a ->
  State_Abbr (derive r2) = Some a ->
  State r1 = State r2 /\ String.length a = 2%nat.
Proof.
  cbn [derive State_Abbr]. intros H1 H2.
  destruct (State r1) as [s1 |]; [|discriminate H1].
  destruct (State r2) as [s2 |]; [|discriminate H2].
  cbn [mbind option_bind] in H1, H2.
  apply dict_of_lookup_items in H1, H2.
  assert (Hall : Forall (fun p : string * string =>
                   String.length p.2 = 2%nat /\
                   Forall (fun q : string * string => p.2 = q.2 -> p.1 = q.1)
                     STATE_TO_ABBR_items) STATE_TO_ABBR_items).
  { apply (bool_decide_unpack _). vm_compute. exact I. }
  rewrite Forall_forall in Hall.
  apply list_elem_of_In in H1, H2.
  destruct (Hall _ H1) as [Hlen Hinj]. rewrite Forall_forall in Hinj.
  split; [|exact Hlen]. f_equal. exact (Hinj _ H2 eq_refl).
Qed.

Lemma state_abbr_injective_witness :
  State_Abbr (@derive gregorian line1) = Some "CA" /\
  State_Abbr (@derive gregorian line2) = Some "CA" /\
  State line1 = State line2.
Proof.
  split; [reflexivity|]. split; [reflexivity|].
  apply (@state_abbr_injective gregorian line1 line2 "CA"); reflexivity.
Defined.

(** ** The KPI texts *)

Lemma round_half_even_nearest (num den : Z) :
  0 < den ->
  2 * Z.abs (round_half_even num den * den - num) <= den /\
  (2 * Z.abs (round_half_even num den * den - num) = den ->
   Z.even (round_half_even num den) = true) /\
  (0 <= num -> 0 <= round_half_even num den).
Proof.
  intros Hd. unfold round_half_even.
  pose proof (Z.div_mod num den ltac:(lia)) as Hdm.
  pose proof (Z.mod_pos_bound num den Hd) as Hr.
  assert (Hq : 0 <= num -> 0 <= num / den) by (intros; apply Z.div_pos; lia).
  set (q := num / den) in *. set (r := num mod den) in *.
  destruct (Z.ltb_spec (2 * r) den) as [H1 | H1].
  - split; [nia|]. split; [nia | exact Hq].
  - destruct (Z.ltb_spec den (2 * r)) as [H2 | H2].
    + split; [nia|]. split; [nia | intros; specialize (Hq ltac:(lia)); lia].
    + destruct (Z.even q) eqn:Hev.
      * split; [nia|]. split; [auto | exact Hq].
      * split; [nia|]. split; [|intros; specialize (Hq ltac:(lia)); lia].
        intros _. rewrite Z.even_add, Hev. reflexivity.
Qed.

(** [nearest k m e] is the integer nearest to [k * m * 2^e]. *)
Lemma nearest_spec (k : Z) (m : positive) (e : Z) :
  0 <= k ->
  (0 <= e -> Z.of_N (nearest k m e) = k * Z.pos m * 2 ^ e) /\
  (e < 0 ->
   2 * Z.abs (Z.of_N (nearest k m e) * 2 ^ (- e) - k * Z.pos m) <= 2 ^ (- e) /\
   (2 * Z.abs (Z.of_N (nearest k m e) * 2 ^ (- e) - k * Z.pos m) = 2 ^ (- e) ->
    Z.even (Z.of_N (nearest k m e)) = true)).
Proof.
  intros Hk. unfold nearest. split; intros He.
  - rewrite (Z.max_l e 0), (Z.max_r (- e) 0) by lia.
    change (2 ^ 0) with 1. unfold round_half_even.
    rewrite Z.div_1_r, Z.mod_1_r. change (2 * 0 <? 1) with true. cbv iota.
    rewrite Z2N.id; [reflexivity|].
    pose proof (Z.pow_nonneg 2 e ltac:(lia)). nia.
  - rewrite (Z.max_r e 0), (Z.max_l (- e) 0) by lia.
    change (2 ^ 0) with 1. rewrite Z.mul_1_r.
    assert (Hd : 0 < 2 ^ (- e)) by (apply Z.pow_pos_nonneg; lia).
    destruct (round_half_even_nearest (k * Z.pos m) (2 ^ (- e)) Hd)
      as (Hn & Hev & Hpos).
    specialize (Hpos ltac:(nia)).
    rewrite Z2N.id by exact Hpos. split; [exact Hn | exact Hev].
Qed.

Lemma all_digits_decimal (n : N) : all_digits (decimal n) = true.
Proof.
  unfold decimal. induction (N.to_uint n) as [| d IH | d IH | d IH | d IH | d IH
                                              | d IH | d IH | d IH | d IH | d IH];
    cbn [NilEmpty.string_of_uint all_digits]; [reflexivity | ..];
    rewrite IH; reflexivity.
Qed.

Lemma to_uint_nonnil (n : N) : N.to_uint n <> Decimal.Nil.
Proof.
  destruct n as [| p]; [discriminate|].
  apply DecimalPos.Unsigned.to_uint_nonnil.
Qed.

Lemma read_decimal_decimal (n : N) : read_decimal (decimal n) = Some n.
Proof.
  unfold read_decimal, decimal.
  pose proof (to_uint_nonnil n) as Hn.
  assert (E : NilEmpty.string_of_uint (N.to_uint n)
              = NilZero.string_of_uint (N.to_uint n)).
  { destruct (N.to_uint n); [congruence | reflexivity ..]. }
  rewrite E, (NilZero.usu _ Hn). cbn [fmap option_fmap option_map].
  now rewrite DecimalN.Unsigned.of_to.
Qed.

Lemma digit_not_comma (c : ascii) : is_digit c = true -> Ascii.eqb c "," = false.
Proof.
  intros Hc. destruct (Ascii.eqb_spec c ","%char) as [-> | Hne]; [|reflexivity].
  vm_compute in Hc. discriminate Hc.
Qed.

Lemma strip_commas_commas (s : string) :
  all_digits s = true -> strip_commas (commas s) = s.
Proof.
  induction s as [| c s IH]; [reflexivity|].
  cbn [all_digits commas]. intros [Hc Hs]%andb_true_iff.
  cbn [strip_commas]. rewrite (digit_not_comma c Hc). f_equal.
  destruct ((0 <? String.length s)%nat && (String.length s mod 3 =? 0)%nat).
  - cbn [strip_commas]. change (Ascii.eqb "," ",") with true. cbv iota. auto.
  - auto.
Qed.

Lemma commas_length (s : string) :
  String.length (commas s)
  = (String.length s + (String.length s - 1) / 3)%nat.
Proof.
  induction s as [| c s IH]; [reflexivity|].
  cbn [commas String.length].
  destruct (Nat.ltb_spec 0 (String.length s));
    destruct (Nat.eqb_spec (String.length s mod 3) 0);
    cbn [andb String.length]; rewrite IH; lia.
Qed.

Lemma from_right_cons (i : nat) (c : ascii) (r : string) :
  from_right i (String c r)
  = if (i <? String.length r)%nat then from_right i r
    else if (i =? String.length r)%nat then Some c else None.
Proof.
  unfold from_right. cbn [String.length].
  destruct (Nat.ltb_spec i (String.length r)) as [Hlt | Hge].
  - rewrite (proj2 (Nat.ltb_lt i (S (String.length r)))) by lia.
    replace (S (String.length r) - 1 - i)%nat
      with (S (String.length r - 1 - i)) by lia.
    reflexivity.
  - destruct (Nat.eqb_spec i (String.length r)) as [-> | Hne].
    + rewrite (proj2 (Nat.ltb_lt _ _)) by lia.
      replace (S (String.length r) - 1 - String.length r)%nat with 0%nat by lia.
      reflexivity.
    + now rewrite (proj2 (Nat.ltb_ge i (S (String.length r)))) by lia.
Qed.

(** In a numeral with separators, counting from the right, every fourth
    character is a comma and every other one a digit. *)
Lemma commas_positions (s : string) (i : nat) (c : ascii) :
  all_digits s = true ->
  from_right i (commas s) = Some c ->
  if (i mod 4 =? 3)%nat then c = ","%char else is_digit c = true.
Proof.
  revert i c. induction s as [| c0 s IH]; intros i c; [discriminate 2|].
  cbn [all_digits commas]. intros [Hc Hs]%andb_true_iff.
  pose proof (commas_length s) as Hlen.
  rewrite from_right_cons.
  destruct (Nat.ltb_spec 0 (String.length s)) as [Hpos | Hz];
    destruct (Nat.eqb_spec (String.length s mod 3) 0) as [Hm | Hm];
    cbn [andb].
  - rewrite from_right_cons. cbn [String.length].
    destruct (Nat.ltb_spec i (S (String.length (commas s)))) as [H1 | H1].
    + destruct (Nat.ltb_spec i (String.length (commas s))) as [H2 | H2];
        [now apply IH|].
      destruct (Nat.eqb_spec i (String.length (commas s))) as [-> | H3]; [|lia].
      intros [= <-].
      destruct (Nat.eqb_spec (String.length (commas s) mod 4) 3); [reflexivity | lia].
    + destruct (Nat.eqb_spec i (S (String.length (commas s)))) as [-> | H3];
        [|discriminate].
      intros [= <-].
      destruct (Nat.eqb_spec (S (String.length (commas s)) mod 4) 3); [lia | exact Hc].
  - destruct (Nat.ltb_spec i (String.length (commas s))) as [H2 | H2];
      [now apply IH|].
    destruct (Nat.eqb_spec i (String.length (commas s))) as [-> | H3];
      [|discriminate].
    intros [= <-].
    destruct (Nat.eqb_spec (String.length (commas s) mod 4) 3); [lia | exact Hc].
  - destruct (Nat.ltb_spec i (String.length (commas s))) as [H2 | H2];
      [now apply IH|].
    destruct (Nat.eqb_spec i (String.length (commas s))) as [-> | H3];
      [|discriminate].
    intros [= <-].
    destruct (Nat.eqb_spec (String.length (commas s) mod 4) 3); [lia | exact Hc].
  - destruct (Nat.ltb_spec i (String.length (commas s))) as [H2 | H2];
      [now apply IH|].
    destruct (Nat.eqb_spec i (String.length (commas s))) as [-> | H3];
      [|discriminate].
    intros [= <-].
    destruct (Nat.eqb_spec (String.length (commas s) mod 4) 3); [lia | exact Hc].
Qed.

(** X17. The Orders text reads back as the number of orders: without its
    separators it is the decimal numeral of Orders; and counting from the
    right, every fourth character of the text is a comma and every other
    one a digit, so the digits stand in groups of three. *)
Theorem format_orders_reads_back (orders : nat) :
  strip_commas (format_orders orders) = decimal (N.of_nat orders) /\
  read_decimal (strip_commas (format_orders orders)) = Some (N.of_nat orders) /\
  forall i c, from_right i (format_orders orders) = Some c ->
              if (i mod 4 =? 3)%nat then c = ","%char else is_digit c = true.
Proof.
  unfold format_orders.
  rewrite (strip_commas_commas _ (all_digits_decimal _)).
  split; [reflexivity|]. split; [apply read_decimal_decimal|].
  intros i c. apply commas_positions, all_digits_decimal.
Qed.

Lemma format_orders_reads_back_witness :
  format_orders 1234 = "1,234"%string /\
  from_right 3 (format_orders 1234) = Some ","%char /\
  format_orders 0 = "0"%string.
Proof.
  split; [vm_compute; reflexivity|]. split; [|reflexivity].
  destruct (format_orders_reads_back 1234) as (_ & _ & Hpos).
  destruct (from_right 3 (format_orders 1234)) as [c |] eqn:E.
  - f_equal. exact (Hpos 3%nat c E).
  - vm_compute in E. discriminate E.
Defined.

(** X18. [format_currency] shows a finite amount as "$", a minus sign when
    the sign bit is set, and the integer nearest to the magnitude with
    thousands separators; a tie goes to the even integer.  The digits read
    back as that integer.  A negative amount that rounds to zero is shown as
    "$-0"; non-finite amounts are shown as "$nan", "$inf" and "$-inf". *)
Theorem format_currency_text (x : spec_float) :
  match x with
  | S754_finite s m e =>
      exists n : N,
        format_currency x = "$" +:+ minus s +:+ commas (decimal n) /\
        read_decimal (strip_commas (commas (decimal n))) = Some n /\
        (0 <= e -> Z.of_N n = Z.pos m * 2 ^ e) /\
        (e < 0 ->
         2 * Z.abs (Z.of_N n * 2 ^ (- e) - Z.pos m) <= 2 ^ (- e) /\
         (2 * Z.abs (Z.of_N n * 2 ^ (- e) - Z.pos m) = 2 ^ (- e) ->
          Z.even (Z.of_N n) = true))
  | S754_zero s => format_currency x = "$" +:+ minus s +:+ "0"
  | S754_infinity s => format_currency x = "$" +:+ minus s +:+ "inf"
  | S754_nan => format_currency x = "$nan"
  end.
Proof.
  destruct x as [s | s | | s m e]; try reflexivity.
  exists (nearest 1 m e). split; [reflexivity|]. split.
  - rewrite (strip_commas_commas _ (all_digits_decimal _)).
    apply read_decimal_decimal.
  - destruct (nearest_spec 1 m e ltac:(lia)) as [Hge Hlt].
    split.
    + intros He. rewrite (Hge He). lia.
    + intros He. destruct (Hlt He) as [Hn Hev].
      rewrite Z.mul_1_l in Hn, Hev. split; assumption.
Qed.

Lemma format_currency_text_witness :
  format_currency (S754_finite false 5429388417957888 (-42)) = "$1,234"%string /\
  format_currency (S754_finite true 7205759403792794 (-54)) = "$-0"%string /\
  exists n : N,
    format_currency (S754_finite false 5429388417957888 (-42))
    = ("$" +:+ minus false +:+ commas (decimal n))%string /\
    2 * Z.abs (Z.of_N n * 2 ^ 42 - 5429388417957888) <= 2 ^ 42.
Proof.
  split; [vm_compute; reflexivity|]. split; [vm_compute; reflexivity|].
  destruct (format_currency_text (S754_finite false 5429388417957888 (-42)))
    as (n & Htext & _ & _ & Hlt).
  exists n. split; [exact Htext|].
  exact (proj1 (Hlt ltac:(lia))).
Defined.

Lemma decimal_digit_length (n : N) :
  (n < 10)%N -> String.length (decimal n) = 1%nat.
Proof.
  intros Hn.
  destruct n as [| p]; [reflexivity|].
  do 4 (destruct p as [p | p |]; try lia; try reflexivity).
Qed.

(** X19. [format_percent] shows the binary64 product [x*100] with one
    decimal and a percent sign: for a finite product, a minus sign when its
    sign bit is set, then the number of tenths nearest to its magnitude (a
    tie going to the even number), written as integer part, point and one
    digit.  The guard value 0.0 is shown as "0.0%"; a zero product keeps its
    sign, and non-finite products are shown as "nan%", "inf%" and "-inf%". *)
Theorem format_percent_text (x : spec_float) :
  match SFmul 53 1024 x f100 with
  | S754_finite s m e =>
      exists n : N,
        format_percent x
        = (minus s +:+ decimal (n / 10) +:+ "." +:+ decimal (n mod 10)) +:+ "%" /\
        String.length (decimal (n mod 10)) = 1%nat /\
        (0 <= e -> Z.of_N n = 10 * Z.pos m * 2 ^ e) /\
        (e < 0 ->
         2 * Z.abs (Z.of_N n * 2 ^ (- e) - 10 * Z.pos m) <= 2 ^ (- e) /\
         (2 * Z.abs (Z.of_N n * 2 ^ (- e) - 10 * Z.pos m) = 2 ^ (- e) ->
          Z.even (Z.of_N n) = true))
  | S754_zero s => format_percent x = (minus s +:+ "0.0") +:+ "%"
  | S754_infinity s => format_percent x = (minus s +:+ "inf") +:+ "%"
  | S754_nan => format_percent x = "nan%"
  end /\
  format_percent (S754_zero false) = "0.0%".
Proof.
  split; [|reflexivity]. unfold format_percent.
  destruct (SFmul 53 1024 x f100) as [s | s | | s m e]; try reflexivity.
  exists (nearest 10 m e). split; [reflexivity|]. split.
  - apply decimal_digit_length. apply N.mod_lt. discriminate.
  - destruct (nearest_spec 10 m e ltac:(lia)) as [Hge Hlt]. split; assumption.
Qed.

Lemma format_percent_text_witness :
  format_percent (S754_finite false 8448752900947050 (-55)) = "23.4%"%string /\
  format_percent (S754_finite false 4503599627370496 (-55)) = "12.5%"%string /\
  format_percent (S754_finite true 7205759403792794 (-54)) = "-40.0%"%string /\
  exists s m e (n : N),
    SFmul 53 1024 (S754_finite false 4503599627370496 (-55)) f100
    = S754_finite s m e /\
    e < 0 /\
    2 * Z.abs (Z.of_N n * 2 ^ (- e) - 10 * Z.pos m) <= 2 ^ (- e).
Proof.
  split; [vm_compute; reflexivity|]. split; [vm_compute; reflexivity|].
  split; [vm_compute; reflexivity|].
  pose proof (format_percent_text (S754_finite false 4503599627370496 (-55)))
    as [Hp _].
  destruct (SFmul 53 1024 (S754_finite false 4503599627370496 (-55)) f100)
    as [s | s | | s m e] eqn:E; try (vm_compute in E; discriminate E).
  destruct Hp as (n & _ & _ & _ & Hlt).
  assert (He : e < 0).
  { vm_compute in E. injection E as _ _ <-. reflexivity. }
  exists s, m, e, n. split; [reflexivity|]. split; [exact He|].
  exact (proj1 (Hlt He)).
Defined.

(** ** [main]: the converted columns *)

Lemma has_column_setitem_keep (c col : string) (vals : list value) (df : DataFrame) :
  has_column c df = true -> has_column c (setitem col vals df) = true.
Proof. intros Hc. apply has_column_setitem. now left. Qed.

(** A conversion loop converts each column it names, once, from the column as
    it was before the loop. *)
Lemma convert_columns_converts (conv : list value -> list value)
    (cols : list string) (df : DataFrame) (c : string) :
  (forall l, length (conv l) = length l) ->
  NoDup cols -> c ∈ cols ->
  rectangular df = true -> has_column c df = true ->
  getitem c (convert_columns conv cols df) = conv (getitem c df).
Proof.
  intros Hlen. unfold convert_columns. revert df.
  induction cols as [| col cols IH]; intros df Hnd Hin Hr Hc.
  - now apply elem_of_nil in Hin.
  - apply NoDup_cons in Hnd as [Hcol Hnd]. cbn [foldl].
    destruct (decide (c = col)) as [-> | Hne].
    + rewrite Hc.
      destruct (convert_columns_keeps conv cols
                  (setitem col (conv (getitem col df)) df)) as (_ & _ & Hk).
      unfold convert_columns in Hk. rewrite (Hk col Hcol).
      apply getitem_setitem; [exact Hr|].
      rewrite Hlen. now apply getitem_length.
    + apply elem_of_cons in Hin as [Hin | Hin]; [congruence|].
      destruct (has_column col df) eqn:Hcd.
      * rewrite IH; [| exact Hnd | exact Hin | now apply setitem_rectangular
                     | now apply has_column_setitem_keep].
        f_equal. apply getitem_setitem_ne; auto.
      * now apply IH.
Qed.

Lemma disjoint_lists (l1 l2 : list string) :
  forallb (fun x => negb (bool_decide (x ∈ l2))) l1 = true ->
  forall c, c ∈ l1 -> c ∉ l2.
Proof.
  intros Hall c Hc Hin. rewrite forallb_forall in Hall.
  apply list_elem_of_In, Hall, negb_true_iff, bool_decide_eq_false in Hc.
  contradiction.
Qed.

Lemma included_lists (l1 l2 : list string) :
  forallb (fun x => bool_decide (x ∈ l2)) l1 = true ->
  forall c, c ∈ l1 -> c ∈ l2.
Proof.
  intros Hall c Hc. rewrite forallb_forall in Hall.
  now apply list_elem_of_In, Hall, bool_decide_eq_true in Hc.
Qed.

Section Converted.

Context `{Library}.

Hypothesis to_datetime_length : forall l, length (to_datetime_coerce l) = length l.
Hypothesis to_numeric_length : forall l, length (to_numeric_coerce l) = length l.
Hypothesis astype_length :
  forall l v, astype_Int64 l = Ok v -> length v = length l.
Hypothesis dt_days_length :
  forall a b, length a = length b -> length (dt_days_between a b) = length a.

Lemma dropna_all_rectangular (df : DataFrame) :
  rectangular df = true -> rectangular (dropna_all df) = true.
Proof.
  rewrite !rectangular_spec. intros Hr k r Hk. cbn [dropna_all columns data] in *.
  apply list_elem_of_lookup_2, list_elem_of_In, filter_In in Hk as [Hk _].
  apply list_elem_of_In, list_elem_of_lookup_1 in Hk as [k' Hk']. eauto.
Qed.

Lemma normalize_columns_rectangular (df : DataFrame) :
  rectangular df = true -> rectangular (normalize_columns df) = true.
Proof.
  rewrite !rectangular_spec. intros Hr k r Hk.
  rewrite normalize_columns_columns, length_map. eauto.
Qed.

(** The frame [main] has built when it reaches the Postal Code step. *)
Lemma coerced_columns (raw : DataFrame) :
  rectangular raw = true ->
  let base := dropna_all (normalize_columns raw) in
  rectangular (coerced raw) = true /\
  columns (coerced raw) = columns base /\
  (forall c, c ∈ ["Order Date"; "Ship Date"] -> has_column c base = true ->
             getitem c (coerced raw) = to_datetime_coerce (getitem c base)) /\
  (forall c, c ∈ ["Sales"; "Profit"; "Discount"; "Quantity"] ->
             has_column c base = true ->
             getitem c (coerced raw) = to_numeric_coerce (getitem c base)) /\
  getitem "Postal Code" (coerced raw) = getitem "Postal Code" base.
Proof.
  intros Hr base.
  assert (Hb : rectangular base = true).
  { apply dropna_all_rectangular, normalize_columns_rectangular, Hr. }
  unfold coerced. fold base.
  set (dated := convert_columns to_datetime_coerce ["Order Date"; "Ship Date"] base).
  destruct (convert_columns_keeps to_datetime_coerce
              ["Order Date"; "Ship Date"] base) as (C1 & R1 & G1).
  fold dated in C1, R1, G1.
  destruct (convert_columns_keeps to_numeric_coerce
              ["Sales"; "Profit"; "Discount"; "Quantity"] dated) as (C2 & R2 & G2).
  assert (Hdis : forall c, c ∈ ["Order Date"; "Ship Date"] ->
                           c ∉ ["Sales"; "Profit"; "Discount"; "Quantity"]).
  { apply disjoint_lists. vm_compute. reflexivity. }
  assert (Hdis2 : forall c, c ∈ ["Sales"; "Profit"; "Discount"; "Quantity"] ->
                            c ∉ ["Order Date"; "Ship Date"]).
  { intros c Hc Hd. exact (Hdis c Hd Hc). }
  split; [auto|]. split; [congruence|]. split; [|split].
  - intros c Hc Hhas. rewrite (G2 c (Hdis c Hc)).
    apply convert_columns_converts; auto.
    apply (bool_decide_unpack _). vm_compute. exact I.
  - intros c Hc Hhas.
    rewrite convert_columns_converts; auto.
    + f_equal. apply G1, Hdis2, Hc.
    + apply (bool_decide_unpack _). vm_compute. exact I.
    + now rewrite (has_column_columns c base dated C1).
  - rewrite G2, G1; [reflexivity | |];
      apply (bool_decide_unpack _); vm_compute; exact I.
Qed.

End Converted.

Lemma helper_fields_ship_days `{Library} (pc : DataFrame) :
  (forall a b, length a = length b -> length (dt_days_between a b) = length a) ->
  rectangular pc = true ->
  has_column "Order Date" pc = true -> has_column "Ship Date" pc = true ->
  getitem "Ship Days" (helper_fields pc)
  = dt_days_between (getitem "Ship Date" (helper_fields pc))
                    (getitem "Order Date" (helper_fields pc)).
Proof.
  intros Hlen Hr Ho Hs.
  destruct (helper_fields_cells pc Hr) as (_ & Hk & _).
  rewrite (Hk "Ship Date"), (Hk "Order Date") by discriminate.
  unfold helper_fields. rewrite Ho, Hs. cbn [andb].
  set (v := dt_days_between (getitem "Ship Date" pc) (getitem "Order Date" pc)).
  assert (Hv : getitem "Ship Days" (setitem "Ship Days" v pc) = v).
  { apply getitem_setitem; [exact Hr|]. unfold v.
    rewrite Hlen; rewrite !getitem_length by assumption; reflexivity. }
  destruct (has_column "Discount" (setitem "Ship Days" v pc)).
  - rewrite getitem_setitem_ne; [exact Hv | discriminate |].
    right. now apply setitem_rectangular.
  - exact Hv.
Qed.

(** X20. Each conversion of [main] lands in its own column and in no other:
    for a rectangular raw frame and conversions that keep the number of
    cells, the two date columns of the cleaned CSV are the parsed date
    columns of the reconciled, pruned raw frame, the four numeric columns
    its coerced numeric columns, "Postal Code" its cast to Int64, and "Ship
    Days" is computed from the parsed "Ship Date" and "Order Date" written
    beside it. *)
Theorem main_converted_columns `{Library} (raw : DataFrame) (d : Disk)
    (rc : Z) (d' : Disk) :
  (forall l, length (to_datetime_coerce l) = length l) ->
  (forall l, length (to_numeric_coerce l) = length l) ->
  (forall l v, astype_Int64 l = Ok v -> length v = length l) ->
  (forall a b, length a = length b -> length (dt_days_between a b) = length a) ->
  rectangular raw = true ->
  main (Ok raw) d = (Ok rc, d') ->
  exists cleaned,
    superstore_cleaned_csv d' = Some cleaned /\
    let base := dropna_all (normalize_columns raw) in
    (forall c, c ∈ ["Order Date"; "Ship Date"] -> has_column c base = true ->
               getitem c cleaned = to_datetime_coerce (getitem c base)) /\
    (forall c, c ∈ ["Sales"; "Profit"; "Discount"; "Quantity"] ->
               has_column c base = true ->
               getitem c cleaned = to_numeric_coerce (getitem c base)) /\
    (has_column "Postal Code" base = true ->
     astype_Int64 (getitem "Postal Code" base)
     = Ok (getitem "Postal Code" cleaned)) /\
    (has_column "Order Date" base = true -> has_column "Ship Date" base = true ->
     getitem "Ship Days" cleaned
     = dt_days_between (getitem "Ship Date" cleaned)
                       (getitem "Order Date" cleaned)).
Proof.
  intros Hdate Hnum Hast Hdays Hr Hm. rewrite main_unfold in Hm.
  destruct (coerced_columns Hdate Hnum raw Hr) as (Rc & Cc & Gd & Gn & Gp).
  set (base := dropna_all (normalize_columns raw)) in *.
  assert (Hpc : exists pc,
             d' = written (helper_fields pc) /\
             rectangular pc = true /\
             columns pc = columns base /\
             (forall c, c <> "Postal Code" -> getitem c pc = getitem c (coerced raw)) /\
             (has_column "Postal Code" base = true ->
              astype_Int64 (getitem "Postal Code" base)
              = Ok (getitem "Postal Code" pc))).
  { destruct (has_column "Postal Code" (coerced raw)) eqn:Hp.
    - destruct (astype_Int64 (getitem "Postal Code" (coerced raw))) as [v | e] eqn:Ea;
        [|discriminate].
      injection Hm as _ <-.
      destruct (setitem_inplace "Postal Code" v (coerced raw) Hp) as (Cp & Rp & Gk).
      eexists. split; [reflexivity|]. split; [auto|]. split; [congruence|].
      split; [exact Gk|]. intros _.
      rewrite getitem_setitem; [now rewrite <- Gp | exact Rc |].
      rewrite (Hast _ _ Ea). now apply getitem_length.
    - injection Hm as _ <-. exists (coerced raw).
      split; [reflexivity|]. split; [exact Rc|]. split; [exact Cc|].
      split; [reflexivity|]. intros Hb.
      rewrite (has_column_columns "Postal Code" base (coerced raw) Cc) in Hp.
      congruence. }
  destruct Hpc as (pc & -> & Rp & Cp & Gk & Gpost).
  destruct (helper_fields_cells pc Rp) as (_ & Hk & _).
  assert (Hne : forall c, c ∈ ["Order Date"; "Ship Date"; "Sales"; "Profit";
                               "Discount"; "Quantity"] ->
                          c <> "Postal Code" /\ c <> "Ship Days" /\
                          c <> "Discount Bucket").
  { intros c Hc.
    assert (Hall : Forall (fun c : string =>
                             c <> "Postal Code" /\ c <> "Ship Days" /\
                             c <> "Discount Bucket")
                     ["Order Date"; "Ship Date"; "Sales"; "Profit";
                      "Discount"; "Quantity"]).
    { apply (bool_decide_unpack _). vm_compute. exact I. }
    rewrite Forall_forall in Hall. now apply Hall. }
  eexists. split; [reflexivity|]. cbv zeta. split; [|split; [|split]].
  - intros c Hc Hhas. destruct (Hne c) as (H1 & H2 & H3).
    { revert Hc. apply included_lists. vm_compute. reflexivity. }
    rewrite Hk, Gk by assumption. now apply Gd.
  - intros c Hc Hhas. destruct (Hne c) as (H1 & H2 & H3).
    { revert Hc. apply included_lists. vm_compute. reflexivity. }
    rewrite Hk, Gk by assumption. now apply Gn.
  - intros Hb. rewrite Hk by discriminate. now apply Gpost.
  - intros Ho Hs. apply helper_fields_ship_days; [exact Hdays | exact Rp | |].
    + now rewrite (has_column_columns "Order Date" base pc Cp).
    + now rewrite (has_column_columns "Ship Date" base pc Cp).
Qed.

Lemma plain_astype_length (l v : list value) :
  @astype_Int64 plain_library l = Ok v -> length v = length l.
Proof.
  revert v. induction l as [| x l IH]; intros v; cbn [astype_Int64 plain_library foldr].
  - now intros [= <-].
  - change (foldr _ (Ok []) l) with (@astype_Int64 plain_library l).
    destruct (@astype_Int64 plain_library l) as [w | e].
    + destruct x as [| s | n | f | t]; try discriminate.
      * intros [= <-]; cbn [length]; now rewrite (IH w eq_refl).
      * intros [= <-]; cbn [length]; now rewrite (IH w eq_refl).
      * destruct (isna (VFloat f)).
        -- intros [= <-]; cbn [length]; now rewrite (IH w eq_refl).
        -- destruct (Z_of_float f); [|discriminate].
           intros [= <-]; cbn [length]; now rewrite (IH w eq_refl).
    + destruct x as [| s | n | f | t]; discriminate.
Qed.

Lemma plain_to_numeric_length (l : list value) :
  length (@to_numeric_coerce plain_library l) = length l.
Proof.
  cbn [to_numeric_coerce plain_library].
  destruct (forallb is_int _); now rewrite ?length_map.
Qed.

Lemma plain_dt_days_length (a b : list value) :
  length a = length b -> length (@dt_days_between plain_library a b) = length a.
Proof.
  intros Hab. cbn [dt_days_between plain_library].
  rewrite length_zip_with. lia.
Qed.

Lemma main_converted_columns_witness :
  rectangular sample_raw = true /\
  exists d' cleaned,
    @main plain_library (Ok sample_raw) empty_disk = (Ok 0, d') /\
    superstore_cleaned_csv d' = Some cleaned /\
    getitem "Sales" cleaned = [VFloat f0_15; VFloat S754_nan].
Proof.
  split; [reflexivity|].
  destruct (@main plain_library (Ok sample_raw) empty_disk) as [r d'] eqn:E.
  assert (Hr : r = Ok 0).
  { apply (f_equal fst) in E. vm_compute in E. now subst r. }
  subst r.
  destruct (@main_converted_columns plain_library sample_raw empty_disk 0 d'
              (fun l => length_map _ l) plain_to_numeric_length
              plain_astype_length plain_dt_days_length eq_refl E)
    as (cleaned & Hc & _ & Hnum & _).
  exists d', cleaned. split; [reflexivity|]. split; [exact Hc|].
  rewrite (Hnum "Sales"); [vm_compute; reflexivity | | reflexivity].
  rewrite !elem_of_cons. auto.
Defined.

(** ** [main]: missing columns *)





(** ** [main]: pruned rows and coerced cells *)

(** C6. Row pruning drops exactly the fully-empty rows: a row survives
    [dropna(how="all")] iff it is a raw row with some field present.
    Whenever [main] returns, the cleaned CSV has as many rows as the raw
    table minus its fully-empty rows; and, for a rectangular raw table and
    conversions that keep the number of cells, every surviving row is kept
    in place with its cells coerced: a date column of the cleaned CSV is
    [to_datetime(..., errors="coerce")] of that column of the pruned table,
    a numeric column is [to_numeric(..., errors="coerce")] of it, and a
    column that no step of [main] writes is that column of the pruned
    table, cell by cell. *)
Theorem main_row_count `{Library} (raw : DataFrame) (d : Disk) :
  let base := dropna_all (normalize_columns raw) in
  (forall r, In r (data base) <-> In r (data raw) /\ fully_empty r = false) /\
  (forall rc d',
     main (Ok raw) d = (Ok rc, d') ->
     exists cleaned,
       superstore_cleaned_csv d' = Some cleaned /\
       length (data cleaned) = (length (data raw) - count_fully_empty raw)%nat /\
       ((forall l, length (to_datetime_coerce l) = length l) ->
        (forall l, length (to_numeric_coerce l) = length l) ->
        rectangular raw = true ->
        (forall c, c ∈ ["Order Date"; "Ship Date"] -> has_column c base = true ->
                   getitem c cleaned = to_datetime_coerce (getitem c base)) /\
        (forall c, c ∈ ["Sales"; "Profit"; "Discount"; "Quantity"] ->
                   has_column c base = true ->
                   getitem c cleaned = to_numeric_coerce (getitem c base)) /\
        (forall c, c ∉ converted -> c <> "Ship Days" -> c <> "Discount Bucket" ->
                   getitem c cleaned = getitem c base))).
Proof.
  intros base. split.
  - intros r. apply (dropna_all_keeps (normalize_columns raw)).
  - intros rc d' Hm. pose proof (coerced_rows raw) as Hrows.
    assert (Hpc : exists pc,
               d' = written (helper_fields pc) /\
               length (data pc) = length (data (coerced raw)) /\
               (rectangular (coerced raw) = true -> rectangular pc = true) /\
               (forall c, c <> "Postal Code" ->
                          getitem c pc = getitem c (coerced raw))).
    { rewrite main_unfold in Hm.
      destruct (has_column "Postal Code" (coerced raw)) eqn:Hp.
      - destruct (astype_Int64 (getitem "Postal Code" (coerced raw))) as [v | e];
          [|discriminate].
        injection Hm as _ <-.
        destruct (setitem_inplace "Postal Code" v (coerced raw) Hp) as (_ & Rp & Gk).
        eexists. split; [reflexivity|]. split; [apply setitem_rows|].
        split; [exact Rp | exact Gk].
      - injection Hm as _ <-. exists (coerced raw).
        split; [reflexivity|]. split; [reflexivity|]. split; auto. }
    destruct Hpc as (pc & -> & Hlen & Rp & Gk).
    exists (helper_fields pc). split; [reflexivity|]. split.
    { rewrite helper_fields_rows, Hlen. lia. }
    intros Hdate Hnum Hr.
    destruct (coerced_columns Hdate Hnum raw Hr) as (Rc & Cc & Gd & Gn & _).
    fold base in Cc, Gd, Gn.
    destruct (helper_fields_cells pc (Rp Rc)) as (_ & Hk & _).
    assert (Hne : forall c, c ∈ ["Order Date"; "Ship Date"; "Sales"; "Profit";
                                 "Discount"; "Quantity"] ->
                            c <> "Postal Code" /\ c <> "Ship Days" /\
                            c <> "Discount Bucket").
    { intros c Hc.
      assert (Hall : Forall (fun c : string =>
                               c <> "Postal Code" /\ c <> "Ship Days" /\
                               c <> "Discount Bucket")
                       ["Order Date"; "Ship Date"; "Sales"; "Profit";
                        "Discount"; "Quantity"]).
      { apply (bool_decide_unpack _). vm_compute. exact I. }
      rewrite Forall_forall in Hall. now apply Hall. }
    split; [|split].
    + intros c Hc Hhas. destruct (Hne c) as (H1 & H2 & H3).
      { revert Hc. rewrite !elem_of_cons. tauto. }
      rewrite Hk, Gk by assumption. now apply Gd.
    + intros c Hc Hhas. destruct (Hne c) as (H1 & H2 & H3).
      { revert Hc. rewrite !elem_of_cons. tauto. }
      rewrite Hk, Gk by assumption. now apply Gn.
    + intros c Hc H2 H3.
      assert (H1 : c <> "Postal Code").
      { intros ->. apply Hc. apply (bool_decide_unpack _). vm_compute. exact I. }
      rewrite Hk, Gk by assumption.
      unfold coerced. fold base.
      rewrite (proj2 (proj2 (convert_columns_keeps _ _ _))).
      * rewrite (proj2 (proj2 (convert_columns_keeps _ _ _))); [reflexivity|].
        intros Hin. apply Hc. revert Hin. unfold converted.
        rewrite !elem_of_cons. tauto.
      * intros Hin. apply Hc. revert Hin. unfold converted.
        rewrite !elem_of_cons. tauto.
Qed.

Lemma main_row_count_witness :
  length (data sample_raw) = 3%nat /\
  count_fully_empty sample_raw = 1%nat /\
  getitem "Sales" (dropna_all (normalize_columns sample_raw))
  = [VFloat f0_15; VStr "n/a"] /\
  exists cleaned d',
    @main plain_library (Ok sample_raw) empty_disk = (Ok 0, d') /\
    superstore_cleaned_csv d' = Some cleaned /\
    length (data cleaned) = 2%nat /\
    getitem "Sales" cleaned = [VFloat f0_15; VFloat S754_nan] /\
    getitem "Order ID" cleaned = [VStr "US-001"; VStr "US-001"] /\
    getitem "Sub-Category" cleaned = [VStr "Chairs"; VStr "Paper"].
Proof.
  split; [reflexivity|]. split; [reflexivity|]. split; [reflexivity|].
  destruct (@main plain_library (Ok sample_raw) empty_disk) as [r d'] eqn:E.
  assert (Hr : r = Ok 0).
  { apply (f_equal fst) in E. vm_compute in E. now subst r. }
  subst r.
  destruct (@main_row_count plain_library sample_raw empty_disk) as [_ Hm].
  destruct (Hm 0 d' E) as (cleaned & Hc & Hlen & Hcells).
  destruct (Hcells (fun l => length_map _ l) plain_to_numeric_length eq_refl)
    as (_ & Hnum & Hkeep).
  exists cleaned, d'. split; [reflexivity|]. split; [exact Hc|].
  split; [exact Hlen|]. split; [|split].
  - rewrite (Hnum "Sales"); [vm_compute; reflexivity | | reflexivity].
    rewrite !elem_of_cons. auto.
  - rewrite (Hkeep "Order ID"); [reflexivity | | discriminate | discriminate].
    apply (bool_decide_unpack _). vm_compute. exact I.
  - rewrite (Hkeep "Sub-Category"); [reflexivity | | discriminate | discriminate].
    apply (bool_decide_unpack _). vm_compute. exact I.
Defined.

(** ** [load_data] and [update]: rows of an unknown state *)




